(** * DeepFashion2 to YOLO converter: a shallow embedding and its properties

    The development embeds [src/training/convert_deepfashion2.py]:
    the category table, the per-instance bounding-box transform and
    validation, the per-file and per-split loops with their effects on
    the output tree, and the manifest written at the end. Of
    [src/training/evaluate_model.py] it embeds the one expression that
    reads the converter's output tree: the folder of validation images,
    derived from the path of the manifest.

    Python values are modelled as they reach the converter: the parsed
    JSON documents, Python numbers behind an arithmetic interface whose
    instance is CPython's ints and binary64 floats, exceptions as an
    error result, and the file system as the directories that are there
    and a finite map from paths to contents.

    The source tree is an input: which folders exist, the annotation
    files in the order the folder is listed, what [json.load] and
    [Image.open] make of each file. The progress bar goes to the
    standard error and is left out, and so are failures of the
    operating system on the output side (a path that cannot be
    written), which no code of the converter handles. *)

From stdpp Require Import gmap strings list.
From Stdlib Require Import ZArith QArith Qabs Lia Lqa.
From Stdlib Require Import PrimFloat SpecFloat FloatOps.
From Stdlib Require Import Ascii DecimalString.
From Stdlib Require DecimalZ.
From Stdlib Require Reals Lra FloatAxioms.

Local Open Scope string_scope.
Local Open Scope Z_scope.
Set Warnings "-register-all".

(** ** Exceptions *)

(** The exceptions the converter's own statements can raise, and
    [JsonLoadError] for the exception of [json.load] on a file it cannot
    load, whichever it is: [JSONDecodeError] for a text that is not
    JSON, another [ValueError] for an integer of too many digits,
    [UnicodeDecodeError] for bytes that are not text, [RecursionError]
    for a nesting too deep. None of them is caught by the converter (its
    only [try] guards the opening of the image), so a raised exception
    ends the run. *)
Inductive exn :=
| TypeError
| AttributeError
| ValueError
| ZeroDivisionError
| OverflowError
| JsonLoadError.

Inductive result (A : Type) :=
| Ok (a : A)
| Raise (e : exn).
Arguments Ok {A} a.
Arguments Raise {A} e.

#[export] Instance result_ret : MRet result := fun A a => Ok a.
#[export] Instance result_bind : MBind result := fun A B f m =>
  match m with
  | Ok a => f a
  | Raise e => Raise e
  end.

(** ** Python numbers *)

(** The arithmetic the converter uses, as an interface: the constants
    it writes ([2], [0], [1], the image dimensions) are Python ints,
    [+], [-] and [/] may raise, [<=] never does, and [fmt_6f] is the
    format specification [.6f]. *)
Class PyNum := {
  num : Type;
  of_int : Z -> num;
  num_add : num -> num -> result num;
  num_sub : num -> num -> result num;
  num_truediv : num -> num -> result num;
  num_le : num -> num -> bool;
  fmt_6f : num -> string;
}.

(** ** Parsed JSON, as Python values *)

(** What [json.load] returns. An object is the dict in insertion order;
    a string has one character per code point. *)
Inductive json `{PyNum} :=
| JNull
| JBool (b : bool)
| JNum (n : num)
| JStr (s : string)
| JArr (l : list json)
| JObj (kvs : list (string * json)).

Section Python.
Context `{PyNum}.

(** [d.get(key, default)] on a dict in insertion order. *)
Fixpoint dict_get (kvs : list (string * json)) (key : string) (default : json) : json :=
  match kvs with
  | [] => default
  | (k, v) :: rest => if decide (k = key) then v else dict_get rest key default
  end.

(** [v.get(key, default)]: only a dict has the method. *)
Definition py_get (v : json) (key : string) (default : json) : result json :=
  match v with
  | JObj kvs => Ok (dict_get kvs key default)
  | _ => Raise AttributeError
  end.

(** [v.items()]: only a dict has the method. *)
Definition py_items (v : json) : result (list (string * json)) :=
  match v with
  | JObj kvs => Ok kvs
  | _ => Raise AttributeError
  end.

(** [len(v)]. *)
Definition py_len (v : json) : result nat :=
  match v with
  | JArr l => Ok (length l)
  | JStr s => Ok (String.length s)
  | JObj kvs => Ok (length kvs)
  | JNull | JBool _ | JNum _ => Raise TypeError
  end.

(** The values an iteration over [v] yields: the elements of a list,
    the characters of a string, the keys of a dict. *)
Definition py_iter (v : json) : result (list json) :=
  match v with
  | JArr l => Ok l
  | JStr s => Ok ((fun c => JStr (String c EmptyString)) <$> String.list_ascii_of_string s)
  | JObj kvs => Ok ((fun kv => JStr kv.1) <$> kvs)
  | JNull | JBool _ | JNum _ => Raise TypeError
  end.

(** [a, b, c, d = v]. *)
Definition unpack4 (v : json) : result (json * json * json * json) :=
  l ← py_iter v;
  match l with
  | [a; b; c; d] => Ok (a, b, c, d)
  | _ => Raise ValueError
  end.

(** A value as an operand of arithmetic: numbers, and booleans, which
    are the ints 0 and 1. *)
Definition as_number (v : json) : option num :=
  match v with
  | JNum n => Some n
  | JBool b => Some (of_int (if b then 1 else 0))
  | _ => None
  end.

(** [a + b]: numeric addition, concatenation of two strings or of two
    lists, [TypeError] for every other pair. *)
Definition py_add (a b : json) : result json :=
  match as_number a, as_number b with
  | Some x, Some y => n ← num_add x y; Ok (JNum n)
  | _, _ =>
      match a, b with
      | JStr s, JStr t => Ok (JStr (s +:+ t))
      | JArr l, JArr m => Ok (JArr (l ++ m))
      | _, _ => Raise TypeError
      end
  end.

(** [a - b]: numbers only. *)
Definition py_sub (a b : json) : result json :=
  match as_number a, as_number b with
  | Some x, Some y => n ← num_sub x y; Ok (JNum n)
  | _, _ => Raise TypeError
  end.

(** [a / n] with [n] a number: [a] must be a number too. *)
Definition py_truediv (a : json) (n : num) : result num :=
  match as_number a with
  | Some x => num_truediv x n
  | None => Raise TypeError
  end.

End Python.

(** ** Text *)

(** The line feed character, and [sep.join(parts)]. *)
Definition nl : string := String "010"%char EmptyString.

Fixpoint join (sep : string) (parts : list string) : string :=
  match parts with
  | [] => ""
  | [p] => p
  | p :: rest => p +:+ sep +:+ join sep rest
  end.

(** [str(z)] for an int. *)
Definition str_int (z : Z) : string := NilZero.string_of_int (Z.to_int z).

(** The [k] low decimal digits of [n], most significant first. *)
Fixpoint low_digits (k : nat) (n : Z) : string :=
  match k with
  | O => ""
  | S k' => low_digits k' (n / 10) +:+ str_int (n mod 10)
  end.

(** A non-negative count [q] of millionths in fixed notation with six
    decimals. *)
Definition fixed6 (q : Z) : string :=
  str_int (q / 1000000) +:+ "." +:+ low_digits 6 (q mod 1000000).

(** The integer nearest to [n / d] for [0 <= n] and [0 < d], a tie
    going to the even one. *)
Definition round_half_even (n d : Z) : Z :=
  let q := n / d in
  let r := n mod d in
  if 2 * r <? d then q
  else if d <? 2 * r then q + 1
  else if Z.even q then q else q + 1.

(** The line feeds of a text, and its number of lines: one more than
    its line feeds, and none for the empty text. *)
Fixpoint count_nl (s : string) : nat :=
  match s with
  | EmptyString => O
  | String c rest => (if decide (c = "010"%char) then 1 else 0) + count_nl rest
  end%nat.

Definition line_count (s : string) : nat :=
  match s with
  | EmptyString => O
  | _ => S (count_nl s)
  end.

(** ** The category table and the class list *)

Definition CATEGORY_MAPPING : gmap string Z :=
  list_to_map [
    ("short sleeve top", 0);
    ("long sleeve top", 0);
    ("short sleeve outwear", 4);
    ("long sleeve outwear", 4);
    ("vest", 0);
    ("sling", 0);
    ("shorts", 1);
    ("trousers", 1);
    ("skirt", 1);
    ("short sleeve dress", 3);
    ("long sleeve dress", 3);
    ("vest dress", 3);
    ("sling dress", 3)
  ].

Definition CLASSES : list string :=
  ["top"; "bottom"; "shoes"; "dress"; "outerwear"; "accessory"].

(** ** One instance (lines 83 to 105) *)

(** The normalized center-box of lines 97 to 100. *)
Record center_box `{PyNum} := CenterBox {
  box_x_center : num;
  box_y_center : num;
  box_width : num;
  box_height : num;
}.
Arguments CenterBox {_} _ _ _ _.

Section Instance.
Context `{PyNum}.

(** [category in CATEGORY_MAPPING] with the id found: a list or a dict
    is unhashable, every other value that is not a string is hashable
    and equal to no key. *)
Definition mapping_lookup (category : json) : result (option Z) :=
  match category with
  | JStr s => Ok (CATEGORY_MAPPING !! s)
  | JArr _ | JObj _ => Raise TypeError
  | JNull | JBool _ | JNum _ => Ok None
  end.

Definition to_center_box (img_width img_height : Z) (x1 y1 x2 y2 : json)
  : result center_box :=
  sx ← py_add x1 x2;
  hx ← py_truediv sx (of_int 2);
  x_center ← num_truediv hx (of_int img_width);
  sy ← py_add y1 y2;
  hy ← py_truediv sy (of_int 2);
  y_center ← num_truediv hy (of_int img_height);
  dx ← py_sub x2 x1;
  width ← py_truediv dx (of_int img_width);
  dy ← py_sub y2 y1;
  height ← py_truediv dy (of_int img_height);
  Ok (CenterBox x_center y_center width height).

(** [0 <= v <= 1]. *)
Definition in_unit (v : num) : bool :=
  num_le (of_int 0) v && num_le v (of_int 1).

Definition box_values (b : center_box) : list num :=
  [box_x_center b; box_y_center b; box_width b; box_height b].

Definition label_line (class_id : Z) (b : center_box) : string :=
  str_int class_id +:+ " " +:+ fmt_6f (box_x_center b) +:+ " "
    +:+ fmt_6f (box_y_center b) +:+ " " +:+ fmt_6f (box_width b) +:+ " "
    +:+ fmt_6f (box_height b).

(** The body of the loop over the instances of one annotation: the
    label line the instance appends, or [None] when the instance is
    skipped. *)
Definition process_instance (img_width img_height : Z) (item_data : json)
  : result (option string) :=
  category ← py_get item_data "category_name" (JStr "");
  hit ← mapping_lookup category;
  match hit with
  | None => Ok None
  | Some class_id =>
      bbox ← py_get item_data "bounding_box" (JArr []);
      n ← py_len bbox;
      if decide (n ≠ 4%nat) then Ok None
      else
        '(x1, y1, x2, y2) ← unpack4 bbox;
        b ← to_center_box img_width img_height x1 y1 x2 y2;
        if forallb in_unit (box_values b)
        then Ok (Some (label_line class_id b))
        else Ok None
  end.

(** The loop of lines 79 to 105 over [data.items()], started with the
    lines and the annotation counter it has so far. *)
Fixpoint instances_loop (img_width img_height : Z) (items : list (string * json))
    (yolo_annotations : list string) (total_annotations : Z)
  : result (list string * Z) :=
  match items with
  | [] => Ok (yolo_annotations, total_annotations)
  | (item_key, item_data) :: rest =>
      if decide (item_key = "source")
      then instances_loop img_width img_height rest yolo_annotations total_annotations
      else
        r ← process_instance img_width img_height item_data;
        match r with
        | None =>
            instances_loop img_width img_height rest yolo_annotations total_annotations
        | Some line =>
            instances_loop img_width img_height rest
              (yolo_annotations ++ [line]) (total_annotations + 1)
        end
  end.

End Instance.

(** ** The source tree and the output tree *)

(** One [*.json] file of an [annos] folder: its stem, and what
    [json.load] makes of it ([None] when it raises). *)
Record anno_file `{PyNum} := AnnoFile {
  stem : string;
  parsed : option json;
}.
Arguments AnnoFile {_} _ _.

(** What is found at an image path: a file [Image.open] fails on, with
    the text of the exception, or an image with its bytes and its size. *)
Inductive image :=
| Unreadable (e : string)
| Readable (raw : string) (img_width img_height : Z).

(** One split of the source: the annotation files in the order [glob]
    lists them ([None] when the [annos] folder does not exist), and the
    [image] folder by file name. *)
Record split_tree `{PyNum} := SplitTree {
  annos : option (list anno_file);
  images : gmap string image;
}.
Arguments SplitTree {_} _ _.

Record dataset `{PyNum} := Dataset {
  train_tree : split_tree;
  validation_tree : split_tree;
}.
Arguments Dataset {_} _ _.

(** What a run changes: the directories that are there (by the path
    they were named with), the files written (path to content) and the
    lines printed. *)
Record world := World {
  dirs : gset string;
  files : gmap string string;
  stdout : list string;
}.

Definition empty_world : world := World ∅ ∅ [].

(** [p[:i]] and [p[i:]] for [i = p.rfind('/') + 1], the first step of
    [posixpath.split]. *)
Fixpoint cut_last (p : string) : string * string :=
  match p with
  | EmptyString => ("", "")
  | String c rest =>
      let '(head, tail) := cut_last rest in
      if Ascii.eqb c "/" then (String c head, tail)
      else if decide (head = "") then ("", String c tail)
      else (String c head, tail)
  end.

(** [s.rstrip('/')]. *)
Fixpoint rstrip_sep (s : string) : string :=
  match s with
  | EmptyString => ""
  | String c rest =>
      let r := rstrip_sep rest in
      if Ascii.eqb c "/" && bool_decide (r = "") then "" else String c r
  end.

(** [os.path.split] of POSIX: the head loses its trailing separators
    unless it is made of separators only. *)
Definition path_split (p : string) : string * string :=
  let '(head, tail) := cut_last p in
  (if decide (rstrip_sep head = "") then head else rstrip_sep head, tail).

(** The head and the tail [os.makedirs] works with: the path is split
    once more when it ends with a separator. *)
Definition makedirs_split (name : string) : string * string :=
  let '(head, tail) := path_split name in
  if decide (tail = "") then path_split head else (head, tail).

(** [os.makedirs(name, exist_ok=True)] on the directories that are
    there: a head that is missing is made first, by the same function,
    then [mkdir(name)] is called, unless the head was missing and the
    tail is [.]; with [exist_ok] a directory that is there already is
    no error. The recursion is on the head, which is shorter than the
    path: the fuel is the length of the path. *)
Fixpoint made_dirs (fuel : nat) (name : string) (ds : gset string) : gset string :=
  match fuel with
  | O => {[name]} ∪ ds
  | S fuel =>
      let '(head, tail) := makedirs_split name in
      if decide (head ≠ "" ∧ tail ≠ "" ∧ head ∉ ds) then
        let ds := made_dirs fuel head ds in
        if decide (tail = ".") then ds else {[name]} ∪ ds
      else {[name]} ∪ ds
  end.

Definition mkdirs (name : string) (ds : gset string) : gset string :=
  made_dirs (String.length name) name ds.

Definition makedirs (path : string) (w : world) : world :=
  World (mkdirs path (dirs w)) (files w) (stdout w).

Definition write_file (path content : string) (w : world) : world :=
  World (dirs w) (<[path := content]> (files w)) (stdout w).

Definition print (msg : string) (w : world) : world :=
  World (dirs w) (files w) (stdout w ++ [msg]).

(** The world with the two counters of the run. *)
Record run_state := RunState {
  out : world;
  total_images : Z;
  total_annotations : Z;
}.

(** ** Paths *)

Definition yolo_split_of (split : string) : string :=
  if decide (split = "train") then "train" else "val".

Definition anno_dir_of (source_dir split : string) : string :=
  source_dir +:+ "/" +:+ split +:+ "/annos".

Definition image_dir_of (source_dir split : string) : string :=
  source_dir +:+ "/" +:+ split +:+ "/image".

Definition image_name_of (stem : string) : string := stem +:+ ".jpg".

Definition image_copy_path (output_dir yolo_split image_name : string) : string :=
  output_dir +:+ "/images/" +:+ yolo_split +:+ "/" +:+ image_name.

Definition label_path_of (output_dir yolo_split stem : string) : string :=
  output_dir +:+ "/labels/" +:+ yolo_split +:+ "/" +:+ stem +:+ ".txt".

Definition manifest_path (output_dir : string) : string :=
  output_dir +:+ "/data.yaml".

(** ** The manifest (lines 121 to 136) *)

(** [repr] of a list of strings without quotes or escapes in them. *)
Definition repr_list (l : list string) : string :=
  "[" +:+ join ", " ((fun s => "'" +:+ s +:+ "'") <$> l) +:+ "]".

Definition yaml_content (abs_output : string) (total_images total_annotations : Z)
  : string :=
  "# DeepFashion2 YOLO Dataset Configuration" +:+ nl +:+
  "path: " +:+ abs_output +:+ nl +:+
  "train: images/train" +:+ nl +:+
  "val: images/val" +:+ nl +:+
  nl +:+
  "# Classes" +:+ nl +:+
  "nc: " +:+ str_int (Z.of_nat (length CLASSES)) +:+ nl +:+
  "names: " +:+ repr_list CLASSES +:+ nl +:+
  nl +:+
  "# Dataset Info" +:+ nl +:+
  "# Source: DeepFashion2 (https://github.com/switchablenorms/DeepFashion2)" +:+ nl +:+
  "# Categories mapped from 13 DeepFashion2 classes to 6 garment types" +:+ nl +:+
  "# Total images: " +:+ str_int total_images +:+ nl +:+
  "# Total annotations: " +:+ str_int total_annotations +:+ nl.

(** ** The loops (lines 47 to 119) *)

Section Run.
Context `{PyNum}.

(** The body of the loop over the annotation files of a split: the
    state after it, and the exception that ended it, if any. *)
Definition process_anno_file (tree : split_tree) (source_dir output_dir split : string)
    (anno_file : anno_file) (st : run_state) : run_state * option exn :=
  let yolo_split := yolo_split_of split in
  match parsed anno_file with
  | None => (st, Some JsonLoadError)
  | Some data =>
      let image_name := image_name_of (stem anno_file) in
      let image_path := image_dir_of source_dir split +:+ "/" +:+ image_name in
      match images tree !! image_name with
      | None => (st, None)
      | Some (Unreadable e) =>
          (RunState (print ("Error opening " +:+ image_path +:+ ": " +:+ e) (out st))
             (total_images st) (total_annotations st), None)
      | Some (Readable raw img_width img_height) =>
          match
            items ← py_items data;
            instances_loop img_width img_height items [] (total_annotations st)
          with
          | Raise e => (st, Some e)
          | Ok (yolo_annotations, total_annotations') =>
              match yolo_annotations with
              | [] => (RunState (out st) (total_images st) total_annotations', None)
              | _ :: _ =>
                  let w1 :=
                    write_file (image_copy_path output_dir yolo_split image_name) raw
                      (out st) in
                  let w2 :=
                    write_file (label_path_of output_dir yolo_split (stem anno_file))
                      (join nl yolo_annotations) w1 in
                  (RunState w2 (total_images st + 1) total_annotations', None)
              end
          end
      end
  end.

Fixpoint files_loop (tree : split_tree) (source_dir output_dir split : string)
    (anno_files : list anno_file) (st : run_state) : run_state * option exn :=
  match anno_files with
  | [] => (st, None)
  | anno_file :: rest =>
      match process_anno_file tree source_dir output_dir split anno_file st with
      | (st', None) => files_loop tree source_dir output_dir split rest st'
      | (st', Some e) => (st', Some e)
      end
  end.

(** The body of the loop over the two splits. *)
Definition process_split (tree : split_tree) (source_dir output_dir split : string)
    (st : run_state) : run_state * option exn :=
  match annos tree with
  | None =>
      (RunState
         (print ("Warning: " +:+ anno_dir_of source_dir split +:+ " not found, skipping "
                   +:+ split +:+ " split") (out st))
         (total_images st) (total_annotations st), None)
  | Some anno_files =>
      let w1 :=
        print (nl +:+ "Processing " +:+ str_int (Z.of_nat (length anno_files))
                 +:+ " images from " +:+ split +:+ " split...") (out st) in
      files_loop tree source_dir output_dir split anno_files
        (RunState w1 (total_images st) (total_annotations st))
  end.

(** The folders of a split in the source tree. *)
Definition tree_of (src : dataset) (split : string) : split_tree :=
  if decide (split = "train") then train_tree src else validation_tree src.

Fixpoint splits_loop (src : dataset) (source_dir output_dir : string)
    (splits : list string) (st : run_state) : run_state * option exn :=
  match splits with
  | [] => (st, None)
  | split :: rest =>
      match process_split (tree_of src split) source_dir output_dir split st with
      | (st', None) => splits_loop src source_dir output_dir rest st'
      | (st', Some e) => (st', Some e)
      end
  end.

(** [convert_deepfashion2_to_yolo(source_dir, output_dir)] run on the
    source tree [src] from the world [w]; [abs_output] is
    [os.path.abspath(output_dir)]. The result is the world the run
    leaves and the exception that ended it, if any. *)
Definition convert_deepfashion2_to_yolo (src : dataset)
    (source_dir output_dir abs_output : string) (w : world) : world * option exn :=
  let w := print ("Converting DeepFashion2 from " +:+ source_dir +:+ " to YOLO format...") w in
  let w := makedirs (output_dir +:+ "/images/train") w in
  let w := makedirs (output_dir +:+ "/images/val") w in
  let w := makedirs (output_dir +:+ "/labels/train") w in
  let w := makedirs (output_dir +:+ "/labels/val") w in
  match splits_loop src source_dir output_dir ["train"; "validation"] (RunState w 0 0) with
  | (st, Some e) => (out st, Some e)
  | (st, None) =>
      let w := write_file (manifest_path output_dir)
                 (yaml_content abs_output (total_images st) (total_annotations st))
                 (out st) in
      let w := print (nl +:+ "✅ Conversion complete!") w in
      let w := print ("   - Total images: " +:+ str_int (total_images st)) w in
      let w := print ("   - Total annotations: " +:+ str_int (total_annotations st)) w in
      let w := print ("   - Output directory: " +:+ output_dir) w in
      let w := print "   - data.yaml created" w in
      (w, None)
  end.

End Run.

(** ** CPython's numbers: ints and binary64 floats *)

Module CPython.

Inductive pynum :=
| PyInt (z : Z)
| PyFloat (f : float).

Definition sf_of_int (z : Z) : spec_float :=
  match z with
  | Z0 => S754_zero false
  | Zpos p => S754_finite false p 0
  | Zneg p => S754_finite true p 0
  end.

(** A rounded result that left the range of the floats is an
    [OverflowError] where an int was converted or divided. *)
Definition check_range (f : float) : result float :=
  if is_infinity f then Raise OverflowError else Ok f.

(** [float(z)]: the nearest float, ties to even. *)
Definition float_of_int (z : Z) : result float :=
  check_range (SF2Prim (binary_normalize prec emax z 0 false)).

Definition to_float (x : pynum) : result float :=
  match x with
  | PyInt z => float_of_int z
  | PyFloat f => Ok f
  end.

(** [a / b] on two ints: the float nearest to the quotient. *)
Definition int_true_divide (a b : Z) : result float :=
  if decide (b = 0) then Raise ZeroDivisionError
  else check_range (SF2Prim (SFdiv prec emax (sf_of_int a) (sf_of_int b))).

Definition float_div (a b : float) : result float :=
  if PrimFloat.eqb b PrimFloat.zero then Raise ZeroDivisionError
  else Ok (PrimFloat.div a b).

Definition add (x y : pynum) : result pynum :=
  match x, y with
  | PyInt a, PyInt b => Ok (PyInt (a + b))
  | _, _ => a ← to_float x; b ← to_float y; Ok (PyFloat (PrimFloat.add a b))
  end.

Definition sub (x y : pynum) : result pynum :=
  match x, y with
  | PyInt a, PyInt b => Ok (PyInt (a - b))
  | _, _ => a ← to_float x; b ← to_float y; Ok (PyFloat (PrimFloat.sub a b))
  end.

Definition truediv (x y : pynum) : result pynum :=
  match x, y with
  | PyInt a, PyInt b => q ← int_true_divide a b; Ok (PyFloat q)
  | _, _ => a ← to_float x; b ← to_float y; q ← float_div a b; Ok (PyFloat q)
  end.

(** The comparison of an int with a float is exact. *)
Definition int_le_float (a : Z) (f : float) : bool :=
  match Prim2SF f with
  | S754_nan => false
  | S754_infinity s => negb s
  | S754_zero _ => a <=? 0
  | S754_finite s m e =>
      let m' := if s then Zneg m else Zpos m in
      if 0 <=? e then a <=? m' * 2 ^ e else a * 2 ^ (- e) <=? m'
  end.

Definition float_le_int (f : float) (a : Z) : bool :=
  match Prim2SF f with
  | S754_nan => false
  | S754_infinity s => s
  | S754_zero _ => 0 <=? a
  | S754_finite s m e =>
      let m' := if s then Zneg m else Zpos m in
      if 0 <=? e then m' * 2 ^ e <=? a else m' <=? a * 2 ^ (- e)
  end.

Definition le (x y : pynum) : bool :=
  match x, y with
  | PyInt a, PyInt b => a <=? b
  | PyInt a, PyFloat g => int_le_float a g
  | PyFloat f, PyInt b => float_le_int f b
  | PyFloat f, PyFloat g => PrimFloat.leb f g
  end.

(** [format(f, '.6f')]: the exact value of the float rounded to six
    decimals, ties to even; the sign is that of the float. *)
Definition format_6f (f : float) : string :=
  match Prim2SF f with
  | S754_nan => "nan"
  | S754_infinity s => if s then "-inf" else "inf"
  | S754_zero s => (if s then "-" else "") +:+ fixed6 0
  | S754_finite s m e =>
      let q :=
        if 0 <=? e then Zpos m * 2 ^ e * 1000000
        else round_half_even (Zpos m * 1000000) (2 ^ (- e)) in
      (if s then "-" else "") +:+ fixed6 q
  end.

(** An int is formatted exactly; the converter formats only results of
    a true division, which are floats. *)
Definition format_num (x : pynum) : string :=
  match x with
  | PyInt z => (if z <? 0 then "-" else "") +:+ fixed6 (Z.abs z * 1000000)
  | PyFloat f => format_6f f
  end.

Definition cpython : PyNum := {|
  num := pynum;
  of_int := PyInt;
  num_add := add;
  num_sub := sub;
  num_truediv := truediv;
  num_le := le;
  fmt_6f := format_num;
|}.

End CPython.

(** ** The formulas of the specification *)

Section Formulas.
Context `{PyNum}.

(** The normalized center-box as the specification writes it, on
    numbers: [x_center = ((x1+x2)/2)/img_width],
    [y_center = ((y1+y2)/2)/img_height], [width = (x2-x1)/img_width],
    [height = (y2-y1)/img_height]. *)
Definition spec_center_box (x1 y1 x2 y2 : num) (img_width img_height : Z)
  : result center_box :=
  sx ← num_add x1 x2;
  hx ← num_truediv sx (of_int 2);
  x_center ← num_truediv hx (of_int img_width);
  sy ← num_add y1 y2;
  hy ← num_truediv sy (of_int 2);
  y_center ← num_truediv hy (of_int img_height);
  dx ← num_sub x2 x1;
  width ← num_truediv dx (of_int img_width);
  dy ← num_sub y2 y1;
  height ← num_truediv dy (of_int img_height);
  Ok (CenterBox x_center y_center width height).

End Formulas.

(** The inverse transform as the specification writes it, on binary64
    floats: [x1 = (x_center - width/2) * w],
    [y1 = (y_center - height/2) * h], [x2 = (x_center + width/2) * w],
    [y2 = (y_center + height/2) * h]. *)
Definition spec_pixel_box64 (xc yc wd ht w h : float) : float * float * float * float :=
  ((xc - wd / 2) * w, (yc - ht / 2) * h, (xc + wd / 2) * w, (yc + ht / 2) * h)%float.

(** The round trip of a box of ints: the converter's transform with
    CPython's numbers, then the inverse transform on the floats it
    gave, with the floats of the image dimensions. *)
Definition round_trip64 (x1 y1 x2 y2 w h : Z) : option (float * float * float * float) :=
  match
    @to_center_box CPython.cpython w h
      (@JNum CPython.cpython (CPython.PyInt x1)) (@JNum CPython.cpython (CPython.PyInt y1))
      (@JNum CPython.cpython (CPython.PyInt x2)) (@JNum CPython.cpython (CPython.PyInt y2)),
    CPython.float_of_int w, CPython.float_of_int h
  with
  | Ok b, Ok fw, Ok fh =>
      match @box_x_center CPython.cpython b, @box_y_center CPython.cpython b,
            @box_width CPython.cpython b, @box_height CPython.cpython b with
      | CPython.PyFloat xc, CPython.PyFloat yc, CPython.PyFloat wd, CPython.PyFloat ht =>
          Some (spec_pixel_box64 xc yc wd ht fw fh)
      | _, _, _, _ => None
      end
  | _, _, _ => None
  end.

(** Whether a float is within [tol] of an int, and whether each
    coordinate of a box comes back within [tol] of the original. *)
Definition within64 (tol a : float) (z : Z) : bool :=
  match CPython.float_of_int z with
  | Ok fz => PrimFloat.leb (PrimFloat.abs (a - fz)) tol
  | Raise _ => false
  end.

Definition round_trip_within64 (tol : float) (x1 y1 x2 y2 w h : Z) : bool :=
  match round_trip64 x1 y1 x2 y2 w h with
  | Some (x1', y1', x2', y2') =>
      within64 tol x1' x1 && within64 tol y1' y1 && within64 tol x2' x2 && within64 tol y2' y2
  | None => false
  end.

(** One axis of the round trip, from the results of the conversions
    and divisions it is made of: the float of the image dimension, the
    size and the half sum as the converter divides them, and the floats
    of the two coordinates. *)
Definition axis_within64 (tol : float) (rn rsz rhx ra rb : result float) : bool :=
  match rn, rsz, rhx, ra, rb with
  | Ok fn, Ok sz, Ok hx, Ok fa, Ok fb =>
      match CPython.float_div hx fn with
      | Ok c =>
          PrimFloat.leb (PrimFloat.abs ((c - sz / 2) * fn - fa)) tol
          && PrimFloat.leb (PrimFloat.abs ((c + sz / 2) * fn - fb)) tol
      | Raise _ => false
      end
  | _, _, _, _, _ => false
  end.

Definition axis_round_trip_within64 (tol : float) (a b n : Z) : bool :=
  axis_within64 tol (CPython.float_of_int n) (CPython.int_true_divide (b - a) n)
    (CPython.int_true_divide (a + b) 2) (CPython.float_of_int a) (CPython.float_of_int b).

(** ** The values of binary64 floats *)

(** The real numbers that the floats stand for, and what it is for a
    float to be the rounded result of an operation: the notions in
    which the rounding of CPython's divisions, subtractions and
    products is bounded. *)
Module Binary64.
Import Reals.
Local Open Scope R_scope.

Definition bpow (e : Z) : R := powerRZ 2 e.

Definition sign_of (s : bool) : R := if s then -1 else 1.

(** The value of a finite float; zero for the others. *)
Definition SF2R (x : spec_float) : R :=
  match x with
  | S754_finite s m e => (if s then -1 else 1) * IZR (Z.pos m) * bpow e
  | _ => 0
  end.

Definition FV (f : float) : R := SF2R (Prim2SF f).

Definition finite (x : spec_float) : Prop :=
  match x with
  | S754_finite _ _ _ | S754_zero _ => True
  | _ => False
  end.

(** A float that is zero or finite, and well formed. *)
Definition vfin (x : spec_float) : Prop :=
  finite x ∧ SpecFloat.valid_binary prec emax x = true.

(** The unit roundoff of binary64. *)
Definition u : R := bpow (-53).

(** A float that is the result of an operation whose exact result is
    [v]: zero or finite, and within [2^-53] of [v] in proportion. *)
Definition rounds_to (r : spec_float) (v : R) : Prop :=
  vfin r ∧ Rabs (SF2R r - v) <= bpow (-53) * Rabs v.

Definition frounds (f : float) (v : R) : Prop := rounds_to (Prim2SF f) v.

Definition positive_float (f : float) : Prop :=
  ∃ m e, Prim2SF f = S754_finite false m e.

(** The place of a positive real number among the floats of one
    exponent, as the rounding functions record it: on the float of
    mantissa [m], or between it and the next, below, at or above the
    middle. *)
Definition inb (v : R) (m e : Z) (l : location) : Prop :=
  match l with
  | loc_Exact => v = IZR m * bpow e
  | loc_Inexact c =>
      IZR m * bpow e < v < (IZR m + 1) * bpow e
      ∧ match c with
        | Lt => v < (IZR m + / 2) * bpow e
        | Eq => v = (IZR m + / 2) * bpow e
        | Gt => (IZR m + / 2) * bpow e < v
        end
  end.

End Binary64.

(** ** What a run writes, file by file *)

Section Summary.
Context `{PyNum}.

(** The label lines of the instances of an annotation, in order. *)
Fixpoint emitted_lines (img_width img_height : Z) (items : list (string * json))
  : result (list string) :=
  match items with
  | [] => Ok []
  | (item_key, item_data) :: rest =>
      if decide (item_key = "source") then emitted_lines img_width img_height rest
      else
        r ← process_instance img_width img_height item_data;
        ls ← emitted_lines img_width img_height rest;
        Ok (option_list r ++ ls)%list
  end.

(** What an annotation file yields: nothing when its image is missing
    or unreadable, else the bytes of the image and the label lines. *)
Definition file_lines (tree : split_tree) (af : anno_file)
  : result (option (string * list string)) :=
  match parsed af with
  | None => Raise JsonLoadError
  | Some data =>
      match images tree !! image_name_of (stem af) with
      | Some (Readable raw img_width img_height) =>
          items ← py_items data;
          ls ← emitted_lines img_width img_height items;
          Ok (Some (raw, ls))
      | _ => Ok None
      end
  end.

(** The lines of a yield, and whether it has any. *)
Definition lines_of (o : option (string * list string)) : list string :=
  match o with
  | Some (_, ls) => ls
  | None => []
  end.

Definition retained (o : option (string * list string)) : bool :=
  match lines_of o with
  | [] => false
  | _ :: _ => true
  end.

(** The files written for a yield: the copy of the image, then the
    label file. *)
Definition file_writes (output_dir yolo_split st : string)
    (o : option (string * list string)) : list (string * string) :=
  match o with
  | Some (raw, (_ :: _) as ls) =>
      [(image_copy_path output_dir yolo_split (image_name_of st), raw);
       (label_path_of output_dir yolo_split st, join nl ls)]
  | _ => []
  end.

(** The yields of the annotation files of a split, with their stems. *)
Fixpoint split_yields (tree : split_tree) (anno_files : list anno_file)
  : result (list (string * option (string * list string))) :=
  match anno_files with
  | [] => Ok []
  | af :: rest =>
      o ← file_lines tree af;
      os ← split_yields tree rest;
      Ok ((stem af, o) :: os)
  end.

(** The annotation files of a split that the run visits. *)
Definition visited (tree : split_tree) : list anno_file :=
  default [] (annos tree).

Definition yields_writes (output_dir yolo_split : string)
    (ys : list (string * option (string * list string))) : list (string * string) :=
  ys ≫= (fun y => file_writes output_dir yolo_split y.1 y.2).

Definition yields_images (ys : list (string * option (string * list string))) : Z :=
  Z.of_nat (length (filter (fun y => retained y.2 = true) ys)).

Definition yields_annotations (ys : list (string * option (string * list string))) : Z :=
  Z.of_nat (length (ys ≫= (fun y => lines_of y.2))).

End Summary.

(** A sequence of writes applied to a tree of files. *)
Definition apply_writes (m : gmap string string) (tr : list (string * string))
  : gmap string string :=
  foldl (fun m pc => <[pc.1 := pc.2]> m) m tr.

(** The label files of an output tree: the files under its [labels]
    folder, with their contents. *)
Definition is_label_path (output_dir path : string) : bool :=
  String.prefix (output_dir +:+ "/labels/") path.

Definition label_files (output_dir : string) (w : world) : list (string * string) :=
  filter (fun pc => is_label_path output_dir pc.1 = true) (map_to_list (files w)).

Definition label_lines_total (output_dir : string) (w : world) : nat :=
  sum_list (line_count <$> (label_files output_dir w).*2).

(** The two output splits. *)
Definition yolo_splits : list string := ["train"; "val"].

(** Everything a completed run writes, in order: the files of the
    [train] split, those of the [validation] split, the manifest. *)
Definition run_writes (output_dir abs_output : string)
    (yt yv : list (string * option (string * list string))) : list (string * string) :=
  yields_writes output_dir "train" yt ++ yields_writes output_dir "val" yv
    ++ [(manifest_path output_dir,
         yaml_content abs_output (yields_images yt + yields_images yv)
           (yields_annotations yt + yields_annotations yv))].

(** ** Concrete inputs *)

Module Scenario.
Import CPython.
#[local] Existing Instance cpython.

Definition box (x1 y1 x2 y2 : Z) : json :=
  JArr [JNum (PyInt x1); JNum (PyInt y1); JNum (PyInt x2); JNum (PyInt y2)].

(** The instance of the specification's scenario. *)
Definition item1_fields : list (string * json) :=
  [("category_name", JStr "short sleeve top"); ("bounding_box", box 10 20 110 220)].

Definition item1 : json := JObj item1_fields.

Definition annotation : list (string * json) := [("item1", item1)].

(** A box of four strings. *)
Definition text_box_fields : list (string * json) :=
  [("category_name", JStr "trousers");
   ("bounding_box", JArr [JStr "10"; JStr "20"; JStr "110"; JStr "220"])].

Definition text_box : json := JObj text_box_fields.

(** A category outside the table. *)
Definition bag_fields : list (string * json) :=
  [("category_name", JStr "bag"); ("bounding_box", box 10 20 110 220)].

(** A box of three numbers. *)
Definition short_box_fields : list (string * json) :=
  [("category_name", JStr "skirt");
   ("bounding_box", JArr [JNum (PyInt 10); JNum (PyInt 20); JNum (PyInt 110)])].

(** No [category_name]. *)
Definition no_category_fields : list (string * json) :=
  [("bounding_box", box 10 20 110 220)].

(** A box that leaves a 200 x 400 image on the right. *)
Definition wide_box_fields : list (string * json) :=
  [("category_name", JStr "vest"); ("bounding_box", box 100 100 500 300)].

(** A source path that does not exist. *)
Definition missing_source : dataset := Dataset (SplitTree None ∅) (SplitTree None ∅).

(** A source with two annotated images in [train], the second with
    nothing but an unmapped instance, and an empty [validation] split. *)
Definition anno1 : anno_file :=
  AnnoFile "000001" (Some (JObj [("source", JStr "user"); ("item1", item1)])).

Definition anno2 : anno_file :=
  AnnoFile "000002" (Some (JObj [("item1", JObj bag_fields)])).

Definition small_source : dataset :=
  Dataset
    (SplitTree (Some [anno1; anno2])
       {[ "000001.jpg" := Readable "JFIF-1" 200 400;
          "000002.jpg" := Readable "JFIF-2" 200 400 ]})
    (SplitTree (Some []) ∅).

(** The same source with the [train] folder listed in another order. *)
Definition relisted_source : dataset :=
  Dataset
    (SplitTree (Some [anno2; anno1])
       {[ "000001.jpg" := Readable "JFIF-1" 200 400;
          "000002.jpg" := Readable "JFIF-2" 200 400 ]})
    (SplitTree (Some []) ∅).

End Scenario.

(** ** Auxiliary notions of the properties *)

(** The manifest up to its two counter lines. *)
Definition yaml_head (abs_output : string) : string :=
  "# DeepFashion2 YOLO Dataset Configuration" +:+ nl +:+
  "path: " +:+ abs_output +:+ nl +:+
  "train: images/train" +:+ nl +:+
  "val: images/val" +:+ nl +:+
  nl +:+
  "# Classes" +:+ nl +:+
  "nc: " +:+ str_int (Z.of_nat (length CLASSES)) +:+ nl +:+
  "names: " +:+ repr_list CLASSES +:+ nl +:+
  nl +:+
  "# Dataset Info" +:+ nl +:+
  "# Source: DeepFashion2 (https://github.com/switchablenorms/DeepFashion2)" +:+ nl +:+
  "# Categories mapped from 13 DeepFashion2 classes to 6 garment types" +:+ nl.

(** A text with no line feed in it, and not empty: one line. *)
Definition one_line (s : string) : Prop := s ≠ "" ∧ count_nl s = O.

(** The label files among the writes of a split. *)
Definition label_writes (od s : string) (ys : list (string * option (string * list string)))
  : list (string * string) :=
  (λ y, (label_path_of od s y.1, join nl (lines_of y.2)))
    <$> filter (λ y, retained y.2 = true) ys.

(** Two readings of the same split: the same images, and the same
    annotation files in whatever order the folder is listed. *)
Definition same_split `{PyNum} (t1 t2 : split_tree) : Prop :=
  images t1 = images t2
  ∧ match annos t1, annos t2 with
    | Some l1, Some l2 => l1 ≡ₚ l2
    | None, None => True
    | _, _ => False
    end.

Definition same_source `{PyNum} (s1 s2 : dataset) : Prop :=
  same_split (train_tree s1) (train_tree s2)
  ∧ same_split (validation_tree s1) (validation_tree s2).

(** ** What a run prints *)

Section Printed.
Context `{PyNum}.

(** What the loop over the annotation files prints for one file: the
    error of an image that cannot be opened, and nothing otherwise. *)
Definition file_prints (tree : split_tree) (source_dir split : string) (af : anno_file)
  : list string :=
  match images tree !! image_name_of (stem af) with
  | Some (Unreadable e) =>
      ["Error opening "
         +:+ (image_dir_of source_dir split +:+ "/" +:+ image_name_of (stem af))
         +:+ ": " +:+ e]
  | _ => []
  end.

(** What the loop over the splits prints for one split, with the
    annotation files [gone] through. *)
Definition split_prints (tree : split_tree) (source_dir split : string)
    (gone : list anno_file) : list string :=
  match annos tree with
  | None =>
      ["Warning: " +:+ anno_dir_of source_dir split +:+ " not found, skipping "
         +:+ split +:+ " split"]
  | Some anno_files =>
      (nl +:+ "Processing " +:+ str_int (Z.of_nat (length anno_files))
         +:+ " images from " +:+ split +:+ " split...")
        :: (gone ≫= file_prints tree source_dir split)
  end.

End Printed.

(** The first line printed, and the lines printed once the manifest is
    written. *)
Definition header_print (source_dir : string) : string :=
  "Converting DeepFashion2 from " +:+ source_dir +:+ " to YOLO format...".

Definition summary_prints (output_dir : string) (total_images total_annotations : Z)
  : list string :=
  [nl +:+ "✅ Conversion complete!";
   "   - Total images: " +:+ str_int total_images;
   "   - Total annotations: " +:+ str_int total_annotations;
   "   - Output directory: " +:+ output_dir;
   "   - data.yaml created"].

(** A line printed before the manifest is written: the header, a
    warning, the count of a split or the error of an image. *)
Definition progress_line (l : string) : bool :=
  String.prefix "Converting " l || String.prefix "Warning: " l
  || String.prefix "Error opening " l || String.prefix (nl +:+ "Processing ") l.

(** ** The output tree *)

(** The paths of the output tree: the files of its four folders and
    the manifest. *)
Definition is_output_path (output_dir path : string) : bool :=
  String.prefix (output_dir +:+ "/images/train/") path
  || String.prefix (output_dir +:+ "/images/val/") path
  || String.prefix (output_dir +:+ "/labels/train/") path
  || String.prefix (output_dir +:+ "/labels/val/") path
  || bool_decide (path = manifest_path output_dir).

(** The four folders of lines 39 to 42, and the directories that are
    there once the four calls of [os.makedirs] are done. *)
Definition leaf_dirs (output_dir : string) : list string :=
  [output_dir +:+ "/images/train"; output_dir +:+ "/images/val";
   output_dir +:+ "/labels/train"; output_dir +:+ "/labels/val"].

Definition output_dirs (output_dir : string) (ds : gset string) : gset string :=
  mkdirs (output_dir +:+ "/labels/val")
    (mkdirs (output_dir +:+ "/labels/train")
       (mkdirs (output_dir +:+ "/images/val")
          (mkdirs (output_dir +:+ "/images/train") ds))).

(** Two states of a run that differ at most in what was printed. *)
Definition same_output (st1 st2 : run_state) : Prop :=
  files (out st1) = files (out st2) ∧ dirs (out st1) = dirs (out st2)
  ∧ total_images st1 = total_images st2 ∧ total_annotations st1 = total_annotations st2.

(** ** The entries of an annotation *)

(** Whether a value is a JSON object, a Python dict. *)
Definition is_object `{PyNum} (v : json) : bool :=
  match v with
  | JObj _ => true
  | _ => false
  end.

(** Whether a value is a JSON array, a Python list. *)
Definition is_list `{PyNum} (v : json) : bool :=
  match v with
  | JArr _ => true
  | _ => false
  end.

(** Whether a value has a length, and one other than 4. *)
Definition other_length `{PyNum} (v : json) : bool :=
  match py_len v with
  | Ok n => negb (n =? 4)%nat
  | Raise _ => false
  end.

(** The entries of an annotation that the loop takes for instances:
    all but those under the key [source]. *)
Definition instance_entries `{PyNum} (items : list (string * json)) : list (string * json) :=
  filter (λ kv, kv.1 ≠ "source") items.

(** The lines of the instances that pass, in the order of the
    annotation. *)
Definition instance_lines `{PyNum} (img_width img_height : Z)
    (items : list (string * json)) : list string :=
  instance_entries items ≫= (λ kv,
    match process_instance img_width img_height kv.2 with
    | Ok (Some line) => [line]
    | _ => []
    end).

(** A value as [.6f] prints it when it lies in [[0, 1]]: a count of
    millionths up to one million, with the sign of a negative zero. *)
Definition unit_text (s : string) : Prop :=
  ∃ (sign : string) (q : Z),
    s = sign +:+ fixed6 q ∧ 0 ≤ q ≤ 1000000 ∧ (sign = "" ∨ (sign = "-" ∧ q = 0)).

(** The rational number a float stands for; none for an infinity or a
    NaN. *)
Definition float_value (f : float) : option Q :=
  match Prim2SF f with
  | S754_zero _ => Some 0%Q
  | S754_finite s m e =>
      Some (inject_Z (if s then Zneg m else Zpos m)
            * (if 0 <=? e then inject_Z (2 ^ e) else / inject_Z (2 ^ (- e))))%Q
  | S754_infinity _ | S754_nan => None
  end.

(** The exceptions of CPython's arithmetic on ints and floats. *)
Definition arithmetic_exn (e : exn) : bool :=
  match e with
  | ZeroDivisionError | OverflowError => true
  | _ => false
  end.

(** ** The evaluation script's folder of validation images *)

(** [s.replace(old, new)] for a non-empty [old]: the occurrences of
    [old] are found from the left, without overlap; [skip] characters
    of the occurrence just replaced remain to be passed over. *)
Fixpoint replace_from (old new : string) (skip : nat) (s : string) : string :=
  match s with
  | EmptyString => EmptyString
  | String c rest =>
      match skip with
      | S k => replace_from old new k rest
      | O =>
          if String.prefix old s
          then new +:+ replace_from old new (String.length old - 1) rest
          else String c (replace_from old new 0 rest)
      end
  end.

(** For an empty [old], [new] is put before every character and at
    the end. *)
Fixpoint put_between (new s : string) : string :=
  match s with
  | EmptyString => new
  | String c rest => new +:+ String c (put_between new rest)
  end.

Definition str_replace (s old new : string) : string :=
  match old with
  | EmptyString => put_between new s
  | String _ _ => replace_from old new 0 s
  end.

(** Line 82 of [src/training/evaluate_model.py]: the folder the
    predictions are made on, from the path of the manifest. *)
Definition val_image_dir (data_yaml : string) : string :=
  str_replace data_yaml "data.yaml" "images/val".

(** Whether [old] occurs in [s]. *)
Fixpoint occurs (old s : string) : bool :=
  String.prefix old s
  || match s with
     | EmptyString => false
     | String _ rest => occurs old rest
     end.

(** ** More concrete inputs *)

Module Cases.
Import CPython.
#[local] Existing Instance cpython.

(** An output tree that holds other files. *)
Definition shared_world : world :=
  World ∅ {[ "out/README.md" := "notes"; "out/labels/train/old.txt" := "1 0.5 0.5 0.1 0.1" ]} [].

(** A [train] folder whose second annotation holds a box of four
    strings. *)
Definition anno3 : anno_file :=
  AnnoFile "000003" (Some (JObj [("item1", Scenario.text_box)])).

Definition broken_source : dataset :=
  Dataset
    (SplitTree (Some [Scenario.anno1; anno3; Scenario.anno2])
       {[ "000001.jpg" := Readable "JFIF-1" 200 400;
          "000002.jpg" := Readable "JFIF-2" 200 400;
          "000003.jpg" := Readable "JFIF-3" 200 400 ]})
    (SplitTree (Some []) ∅).

(** An annotation laid out as the DeepFashion2 files are: the source
    of the image, the number of the pair, then the items. *)
Definition paired_annotation : list (string * json) :=
  [("source", JStr "user"); ("pair_id", JNum (PyInt 1)); ("item1", Scenario.item1)].

Definition anno4 : anno_file := AnnoFile "000004" (Some (JObj paired_annotation)).

Definition paired_tree : split_tree :=
  SplitTree (Some [anno4]) {[ "000004.jpg" := Readable "JFIF-4" 200 400 ]}.

(** The small source with one more annotation file in [train], which
    holds a list and whose image cannot be opened; and the same source
    without that file. *)
Definition anno5 : anno_file := AnnoFile "000005" (Some (JArr [])).

Definition damaged_source : dataset :=
  Dataset
    (SplitTree (Some [Scenario.anno1; anno5; Scenario.anno2])
       {[ "000001.jpg" := Readable "JFIF-1" 200 400;
          "000002.jpg" := Readable "JFIF-2" 200 400;
          "000005.jpg" := Unreadable "cannot identify image file" ]})
    (SplitTree (Some []) ∅).

Definition undamaged_source : dataset :=
  Dataset
    (SplitTree (Some [Scenario.anno1; Scenario.anno2])
       {[ "000001.jpg" := Readable "JFIF-1" 200 400;
          "000002.jpg" := Readable "JFIF-2" 200 400;
          "000005.jpg" := Unreadable "cannot identify image file" ]})
    (SplitTree (Some []) ∅).

(** A box given as a text of four characters, and a box of which one
    value is a text. *)
Definition word_box_fields : list (string * json) :=
  [("category_name", JStr "vest"); ("bounding_box", JStr "1234")].

Definition mixed_box_fields : list (string * json) :=
  [("category_name", JStr "vest");
   ("bounding_box", JArr [JNum (PyInt 10); JStr "20"; JNum (PyInt 110); JNum (PyInt 220)])].

End Cases.


(** * Properties *)

(** ** The error result *)

Lemma bind_ok {A B} (m : result A) (f : A → result B) (b : B) :
  m ≫= f = Ok b ↔ ∃ a, m = Ok a ∧ f a = Ok b.
Proof.
  destruct m as [a|e]; simpl.
  - split; [eauto | intros (a' & [= <-] & ?); done].
  - split; [done | intros (a' & ? & ?); done].
Qed.

(** ** The loop over the instances *)

Section InstanceFacts.
Context `{PyNum}.

(** The loop appends the emitted lines and counts them. *)
Lemma instances_loop_emitted w h items ya ta :
  instances_loop w h items ya ta =
  ls ← emitted_lines w h items; Ok ((ya ++ ls)%list, ta + Z.of_nat (length ls)).
Proof.
  revert ya ta. induction items as [|[k d] rest IH]; intros ya ta; simpl.
  - by rewrite app_nil_r, Z.add_0_r.
  - case_decide; [apply IH|].
    destruct (process_instance w h d) as [[line|]|e]; simpl; [| |done];
      rewrite IH; destruct (emitted_lines w h rest) as [ls|e]; simpl; try done.
    rewrite <- app_assoc. simpl. do 2 f_equal. lia.
Qed.

Lemma emitted_lines_app w h pre post :
  emitted_lines w h (pre ++ post) =
  la ← emitted_lines w h pre; lb ← emitted_lines w h post; Ok (la ++ lb)%list.
Proof.
  induction pre as [|[k d] pre IH]; simpl.
  - by destruct (emitted_lines w h post).
  - case_decide; [done|].
    destruct (process_instance w h d) as [r|e]; simpl; [|done].
    rewrite IH. destruct (emitted_lines w h pre) as [la|e]; simpl; [|done].
    destruct (emitted_lines w h post) as [lb|e]; simpl; [|done].
    by rewrite app_assoc.
Qed.

(** An instance that is skipped leaves the loop as if it were absent. *)
Lemma dropped_instance_skipped w h k d pre post ya ta :
  process_instance w h d = Ok None →
  instances_loop w h (pre ++ (k, d) :: post) ya ta =
  instances_loop w h (pre ++ post) ya ta.
Proof.
  intros Hd. rewrite !instances_loop_emitted, !emitted_lines_app. simpl.
  case_decide; [done|]. rewrite Hd. simpl.
  by destruct (emitted_lines w h post).
Qed.

(** On four numbers the code computes the formulas of the specification. *)
Lemma to_center_box_numbers (x1 y1 x2 y2 : num) w h :
  to_center_box w h (JNum x1) (JNum y1) (JNum x2) (JNum y2) = spec_center_box x1 y1 x2 y2 w h.
Proof.
  unfold to_center_box, spec_center_box, py_add, py_sub, py_truediv. simpl.
  destruct (num_add x1 x2) as [sx|]; simpl; [|done].
  destruct (num_truediv sx (of_int 2)) as [hx|]; simpl; [|done].
  destruct (num_truediv hx (of_int w)) as [xc|]; simpl; [|done].
  destruct (num_add y1 y2) as [sy|]; simpl; [|done].
  destruct (num_truediv sy (of_int 2)) as [hy|]; simpl; [|done].
  destruct (num_truediv hy (of_int h)) as [yc|]; simpl; [|done].
  destruct (num_sub x2 x1) as [dx|]; simpl; [|done].
  destruct (num_truediv dx (of_int w)) as [wd|]; simpl; [|done].
  destruct (num_sub y2 y1) as [dy|]; simpl; [|done].
  done.
Qed.

(** An instance with a mapped category and a list of four values. *)
Lemma process_instance_box kvs category class_id x1 y1 x2 y2 w h :
  dict_get kvs "category_name" (JStr "") = JStr category →
  CATEGORY_MAPPING !! category = Some class_id →
  dict_get kvs "bounding_box" (JArr []) = JArr [x1; y1; x2; y2] →
  process_instance w h (JObj kvs) =
    b ← to_center_box w h x1 y1 x2 y2;
    if forallb in_unit (box_values b) then Ok (Some (label_line class_id b)) else Ok None.
Proof.
  intros Hc Hm Hb. unfold process_instance. simpl. rewrite Hc. simpl. rewrite Hm, Hb. simpl.
  done.
Qed.

Lemma dict_get_absent (kvs : list (string * json)) key default :
  key ∉ kvs.*1 → dict_get kvs key default = default.
Proof.
  induction kvs as [|[k v] rest IH]; simpl; [done|].
  intros Hnot. apply not_elem_of_cons in Hnot as [Hne Hrest].
  case_decide; [congruence | by apply IH].
Qed.

End InstanceFacts.

(** The class ids of the table. *)
Lemma mapping_values k class_id :
  CATEGORY_MAPPING !! k = Some class_id → class_id ∈ [0; 1; 3; 4].
Proof.
  intros Hk. apply elem_of_list_to_map_2 in Hk.
  repeat (apply elem_of_cons in Hk as [Hk|Hk]; [injection Hk as -> ->; set_solver|]).
  by apply elem_of_nil in Hk.
Qed.

Section LineFacts.
Context `{PyNum}.

(** Every emitted line is a label line with a class id of the table. *)
Lemma process_instance_line w h d line :
  process_instance w h d = Ok (Some line) →
  ∃ class_id b, class_id ∈ [0; 1; 3; 4] ∧ line = label_line class_id b.
Proof.
  unfold process_instance. intros Hp.
  apply bind_ok in Hp as (category & _ & Hp).
  apply bind_ok in Hp as (hit & Hhit & Hp).
  destruct hit as [class_id|]; [|done].
  apply bind_ok in Hp as (bbox & _ & Hp).
  apply bind_ok in Hp as (n & _ & Hp).
  case_decide; [done|].
  apply bind_ok in Hp as ([[[x1 y1] x2] y2] & _ & Hp).
  apply bind_ok in Hp as (b & _ & Hp).
  destruct (forallb in_unit (box_values b)); [|done].
  injection Hp as <-. exists class_id, b. split; [|done].
  destruct category; try done. simpl in Hhit. injection Hhit as Hhit.
  by eapply mapping_values.
Qed.

Lemma emitted_lines_Forall (P : string → Prop) w h items ls :
  (∀ d line, process_instance w h d = Ok (Some line) → P line) →
  emitted_lines w h items = Ok ls → Forall P ls.
Proof.
  intros HP. revert ls. induction items as [|[k d] rest IH]; intros ls; simpl.
  - intros [= <-]. constructor.
  - case_decide; [apply IH|].
    intros Hl. apply bind_ok in Hl as (r & Hr & Hl).
    apply bind_ok in Hl as (ls' & Hls' & [= <-]).
    apply Forall_app. split; [|by apply IH].
    destruct r as [line|]; simpl; [|constructor].
    constructor; [by eapply HP | constructor].
Qed.

End LineFacts.

(** ** Strings and paths *)

#[local] Arguments String.append !_ _ /.

Lemma append_assoc (a b c : string) : (a +:+ b) +:+ c = a +:+ (b +:+ c).
Proof. induction a as [|x a IH]; simpl; [done | by f_equal]. Qed.

Lemma length_append (s t : string) :
  String.length (s +:+ t) = (String.length s + String.length t)%nat.
Proof. induction s as [|c s IH]; simpl; [done | by rewrite IH]. Qed.

Lemma append_inv_tail (s1 s2 t : string) : s1 +:+ t = s2 +:+ t → s1 = s2.
Proof.
  revert s2. induction s1 as [|c s1 IH]; intros [|c2 s2] Heq; simpl in *.
  - done.
  - apply (f_equal String.length) in Heq. simpl in Heq. rewrite length_append in Heq. lia.
  - apply (f_equal String.length) in Heq. simpl in Heq. rewrite length_append in Heq. lia.
  - injection Heq as -> Heq. f_equal. by apply IH.
Qed.

Lemma prefix_append (a b c : string) :
  String.prefix (a +:+ b) (a +:+ c) = String.prefix b c.
Proof.
  induction a as [|x a IH]; simpl; [done|].
  destruct (ascii_dec x x); [done | congruence].
Qed.

Lemma label_path_inj od s s' st st' :
  s ∈ yolo_splits → s' ∈ yolo_splits →
  label_path_of od s st = label_path_of od s' st' → s = s' ∧ st = st'.
Proof.
  unfold label_path_of, yolo_splits. intros Hs Hs' Heq.
  apply (inj (String.append od)) in Heq.
  apply elem_of_cons in Hs as [->|Hs]; [|apply list_elem_of_singleton in Hs as ->];
    (apply elem_of_cons in Hs' as [->|Hs']; [|apply list_elem_of_singleton in Hs' as ->]);
    simpl in Heq; try discriminate; (split; [done|]);
    simplify_eq; by eapply append_inv_tail.
Qed.

Lemma image_copy_path_inj od s s' st st' :
  s ∈ yolo_splits → s' ∈ yolo_splits →
  image_copy_path od s (image_name_of st) = image_copy_path od s' (image_name_of st') →
  s = s' ∧ st = st'.
Proof.
  unfold image_copy_path, image_name_of, yolo_splits. intros Hs Hs' Heq.
  apply (inj (String.append od)) in Heq.
  apply elem_of_cons in Hs as [->|Hs]; [|apply list_elem_of_singleton in Hs as ->];
    (apply elem_of_cons in Hs' as [->|Hs']; [|apply list_elem_of_singleton in Hs' as ->]);
    simpl in Heq; try discriminate; (split; [done|]);
    simplify_eq; by eapply append_inv_tail.
Qed.

Lemma label_path_not_image od s s' st name :
  label_path_of od s st ≠ image_copy_path od s' name.
Proof.
  unfold label_path_of, image_copy_path. intros Heq.
  apply (inj (String.append od)) in Heq. discriminate.
Qed.

Lemma label_path_not_manifest od s st : label_path_of od s st ≠ manifest_path od.
Proof.
  unfold label_path_of, manifest_path. intros Heq.
  apply (inj (String.append od)) in Heq. discriminate.
Qed.

Lemma image_copy_path_not_manifest od s name : image_copy_path od s name ≠ manifest_path od.
Proof.
  unfold image_copy_path, manifest_path. intros Heq.
  apply (inj (String.append od)) in Heq. discriminate.
Qed.

Lemma prefix_empty (s : string) : String.prefix "" s = true.
Proof. by destruct s. Qed.

Ltac case_ascii_dec :=
  simpl;
  repeat match goal with
    | |- context [ascii_dec ?a ?b] => destruct (ascii_dec a b); try discriminate; try congruence
    end;
  rewrite ?prefix_empty;
  try done.

Lemma is_label_path_label od s st : is_label_path od (label_path_of od s st) = true.
Proof. unfold is_label_path, label_path_of. rewrite prefix_append. case_ascii_dec. Qed.

Lemma is_label_path_image od s name : is_label_path od (image_copy_path od s name) = false.
Proof. unfold is_label_path, image_copy_path. rewrite prefix_append. case_ascii_dec. Qed.

Lemma is_label_path_manifest od : is_label_path od (manifest_path od) = false.
Proof. unfold is_label_path, manifest_path. rewrite prefix_append. case_ascii_dec. Qed.

Lemma yaml_content_counts abs_output ti ta :
  yaml_content abs_output ti ta
  = yaml_head abs_output +:+ "# Total images: " +:+ str_int ti +:+ nl
      +:+ "# Total annotations: " +:+ str_int ta +:+ nl.
Proof. unfold yaml_content, yaml_head. rewrite !append_assoc. reflexivity. Qed.


(** ** The world *)

Lemma stdout_print msg w : stdout (print msg w) = (stdout w ++ [msg])%list.
Proof. done. Qed.
Lemma stdout_write_file p c w : stdout (write_file p c w) = stdout w.
Proof. done. Qed.
Lemma stdout_makedirs p w : stdout (makedirs p w) = stdout w.
Proof. done. Qed.
Lemma files_print msg w : files (print msg w) = files w.
Proof. done. Qed.
Lemma files_write_file p c w : files (write_file p c w) = <[p := c]> (files w).
Proof. done. Qed.
Lemma files_makedirs p w : files (makedirs p w) = files w.
Proof. done. Qed.

(** ** The effect of a run *)

Section RunFacts.
Context `{PyNum}.

Lemma yields_images_cons y ys :
  yields_images (y :: ys) = (if retained y.2 then 1 else 0) + yields_images ys.
Proof.
  unfold yields_images. rewrite filter_cons.
  destruct (retained y.2); simpl; lia.
Qed.

Lemma yields_annotations_cons y ys :
  yields_annotations (y :: ys) = Z.of_nat (length (lines_of y.2)) + yields_annotations ys.
Proof. unfold yields_annotations. rewrite bind_cons, length_app. lia. Qed.

Lemma process_anno_file_spec tree sd od split af st st' oe :
  process_anno_file tree sd od split af st = (st', oe) →
  match oe with
  | Some e => file_lines tree af = Raise e ∧ st' = st
  | None =>
      ∃ o, file_lines tree af = Ok o
        ∧ files (out st')
          = apply_writes (files (out st)) (file_writes od (yolo_split_of split) (stem af) o)
        ∧ dirs (out st') = dirs (out st)
        ∧ total_images st' = total_images st + (if retained o then 1 else 0)
        ∧ total_annotations st' = total_annotations st + Z.of_nat (length (lines_of o))
  end.
Proof.
  unfold process_anno_file, file_lines.
  destruct (parsed af) as [data|]; [|by intros [= <- <-]].
  destruct (images tree !! image_name_of (stem af)) as [[e|raw w h]|].
  - intros [= <- <-]. exists None. simpl. repeat split; lia.
  - destruct (py_items data) as [items|e]; simpl; [|by intros [= <- <-]].
    rewrite instances_loop_emitted.
    destruct (emitted_lines w h items) as [ls|e]; simpl; [|by intros [= <- <-]].
    destruct ls as [|l ls]; intros [= <- <-]; eexists; (split; [reflexivity|]); simpl.
    + repeat split; lia.
    + repeat split; lia.
  - intros [= <- <-]. exists None. simpl. repeat split; lia.
Qed.

Lemma files_loop_spec tree sd od split afs st st' oe :
  files_loop tree sd od split afs st = (st', oe) →
  match oe with
  | Some e => split_yields tree afs = Raise e
  | None =>
      ∃ ys, split_yields tree afs = Ok ys
        ∧ files (out st')
          = apply_writes (files (out st)) (yields_writes od (yolo_split_of split) ys)
        ∧ dirs (out st') = dirs (out st)
        ∧ total_images st' = total_images st + yields_images ys
        ∧ total_annotations st' = total_annotations st + yields_annotations ys
  end.
Proof.
  revert st. induction afs as [|af rest IH]; intros st; simpl.
  - intros [= <- <-]. exists []. simpl. repeat split; unfold yields_images, yields_annotations;
      simpl; lia.
  - destruct (process_anno_file tree sd od split af st) as [st1 [e|]] eqn:Hstep;
      apply process_anno_file_spec in Hstep.
    + destruct Hstep as [Hraise ->]. intros [= <- <-]. by rewrite Hraise.
    + destruct Hstep as (o & Ho & Hf & Hd & Hi & Ha). intros Hrest.
      apply IH in Hrest. rewrite Ho. simpl. destruct oe as [e|].
      * by rewrite Hrest.
      * destruct Hrest as (ys & -> & Hf' & Hd' & Hi' & Ha'). simpl.
        eexists. split; [reflexivity|].
        rewrite yields_images_cons, yields_annotations_cons. simpl.
        repeat split; [|congruence|lia|lia].
        rewrite Hf', Hf. unfold apply_writes, yields_writes. simpl.
        by rewrite foldl_app.
Qed.

Lemma process_split_spec tree sd od split st st' oe :
  process_split tree sd od split st = (st', oe) →
  match oe with
  | Some e => split_yields tree (visited tree) = Raise e
  | None =>
      ∃ ys, split_yields tree (visited tree) = Ok ys
        ∧ files (out st')
          = apply_writes (files (out st)) (yields_writes od (yolo_split_of split) ys)
        ∧ dirs (out st') = dirs (out st)
        ∧ total_images st' = total_images st + yields_images ys
        ∧ total_annotations st' = total_annotations st + yields_annotations ys
  end.
Proof.
  unfold process_split, visited. destruct (annos tree) as [afs|]; simpl.
  - intros Hloop. by apply files_loop_spec in Hloop.
  - intros [= <- <-]. exists []. simpl.
    repeat split; unfold yields_images, yields_annotations; simpl; lia.
Qed.

Lemma convert_spec src sd od abs w w' :
  convert_deepfashion2_to_yolo src sd od abs w = (w', None) →
  ∃ yt yv,
    split_yields (train_tree src) (visited (train_tree src)) = Ok yt
    ∧ split_yields (validation_tree src) (visited (validation_tree src)) = Ok yv
    ∧ files w' = apply_writes (files w) (run_writes od abs yt yv).
Proof.
  unfold convert_deepfashion2_to_yolo, splits_loop.
  destruct (process_split (tree_of src "train") _ _ _ _) as [st1 [e|]] eqn:Ht; [done|].
  destruct (process_split (tree_of src "validation") _ _ _ _) as [st2 [e|]] eqn:Hv; [done|].
  apply process_split_spec in Ht as (yt & Hyt & Hft & _ & Hit & Hat).
  apply process_split_spec in Hv as (yv & Hyv & Hfv & _ & Hiv & Hav).
  intros [= <-]. exists yt, yv. repeat split; [done..|].
  simpl in *. rewrite Hfv, Hft, Hiv, Hit, Hav, Hat. simpl.
  unfold run_writes, apply_writes. by rewrite !foldl_app.
Qed.

Lemma convert_raises src sd od abs w w' e :
  convert_deepfashion2_to_yolo src sd od abs w = (w', Some e) →
  split_yields (train_tree src) (visited (train_tree src)) = Raise e
  ∨ split_yields (validation_tree src) (visited (validation_tree src)) = Raise e.
Proof.
  unfold convert_deepfashion2_to_yolo, splits_loop.
  destruct (process_split (tree_of src "train") _ _ _ _) as [st1 [e1|]] eqn:Ht.
  { apply process_split_spec in Ht. intros [= _ <-]. by left. }
  destruct (process_split (tree_of src "validation") _ _ _ _) as [st2 [e2|]] eqn:Hv; [|done].
  apply process_split_spec in Hv. intros [= _ <-]. by right.
Qed.

(** A run completes when all its annotation files yield. *)
Lemma convert_completes src sd od abs w yt yv :
  split_yields (train_tree src) (visited (train_tree src)) = Ok yt →
  split_yields (validation_tree src) (visited (validation_tree src)) = Ok yv →
  ∃ w', convert_deepfashion2_to_yolo src sd od abs w = (w', None).
Proof.
  intros Hyt Hyv.
  destruct (convert_deepfashion2_to_yolo src sd od abs w) as [w' [e|]] eqn:Hrun;
    [|by exists w'].
  apply convert_raises in Hrun as [Hr|Hr]; congruence.
Qed.

End RunFacts.

(** ** Writes as a map *)
Lemma apply_writes_snoc m tr p c :
  apply_writes m (tr ++ [(p, c)]) = <[p := c]> (apply_writes m tr).
Proof. unfold apply_writes. by rewrite foldl_app. Qed.

Lemma apply_writes_union m tr : apply_writes m tr = list_to_map (reverse tr) ∪ m.
Proof.
  induction tr as [|[p c] tr IH] using rev_ind.
  - simpl. by rewrite (left_id ∅ (∪)).
  - rewrite apply_writes_snoc, reverse_snoc, IH. simpl.
    by rewrite insert_union_l.
Qed.

Lemma apply_writes_lookup_fresh m tr p :
  p ∉ tr.*1 → apply_writes m tr !! p = m !! p.
Proof.
  intros Hp. rewrite apply_writes_union. rewrite lookup_union_r; [done|].
  apply not_elem_of_list_to_map_1. by rewrite fmap_reverse, elem_of_reverse.
Qed.

Lemma apply_writes_lookup_written m tr p c :
  NoDup tr.*1 → (p, c) ∈ tr → apply_writes m tr !! p = Some c.
Proof.
  intros Hnd Hin. rewrite apply_writes_union. apply lookup_union_Some_l.
  apply elem_of_list_to_map_1; [by rewrite fmap_reverse, reverse_Permutation | by rewrite elem_of_reverse].
Qed.

Section WriteFacts.
Context `{PyNum}.

Lemma split_yields_stems tree afs ys :
  split_yields tree afs = Ok ys → ys.*1 = stem <$> afs.
Proof.
  revert ys. induction afs as [|af rest IH]; intros ys; simpl.
  - by intros [= <-].
  - intros Hy. apply bind_ok in Hy as (o & Ho & Hy).
    apply bind_ok in Hy as (os & Hos & [= <-]). simpl. f_equal. by apply IH.
Qed.

Lemma split_yields_lookup tree afs ys af :
  split_yields tree afs = Ok ys → af ∈ afs →
  ∃ o, file_lines tree af = Ok o ∧ (stem af, o) ∈ ys.
Proof.
  revert ys. induction afs as [|af' rest IH]; intros ys; simpl.
  - intros _ Hin. by apply elem_of_nil in Hin.
  - intros Hy Hin. apply bind_ok in Hy as (o & Ho & Hy).
    apply bind_ok in Hy as (os & Hos & [= <-]).
    apply elem_of_cons in Hin as [->|Hin].
    + exists o. split; [done | by left].
    + destruct (IH os Hos Hin) as (o' & Ho' & Hin'). exists o'. split; [done | by right].
Qed.

(** The yield of a file in terms of the loop of the source: the lines
    are the [yolo_annotations] the loop over the instances ends with. *)
Lemma file_lines_loop tree af o :
  file_lines tree af = Ok o →
  match o with
  | None =>
      images tree !! image_name_of (stem af) = None
      ∨ ∃ e, images tree !! image_name_of (stem af) = Some (Unreadable e)
  | Some (raw, lines) =>
      ∃ data img_width img_height items,
        parsed af = Some data
        ∧ images tree !! image_name_of (stem af) = Some (Readable raw img_width img_height)
        ∧ py_items data = Ok items
        ∧ instances_loop img_width img_height items [] 0
          = Ok (lines, Z.of_nat (length lines))
  end.
Proof.
  unfold file_lines. destruct (parsed af) as [data|]; [|done].
  destruct (images tree !! image_name_of (stem af)) as [[e|raw w h]|] eqn:Himg.
  - intros [= <-]. right. by exists e.
  - intros Hl. apply bind_ok in Hl as (items & Hitems & Hl).
    apply bind_ok in Hl as (ls & Hls & [= <-]).
    exists data, w, h, items. repeat split; [done|].
    rewrite instances_loop_emitted, Hls. simpl. done.
  - intros [= <-]. by left.
Qed.
End WriteFacts.

Lemma file_writes_keys od s st o p :
  p ∈ (file_writes od s st o).*1 →
  retained o = true
  ∧ (p = image_copy_path od s (image_name_of st) ∨ p = label_path_of od s st).
Proof.
  destruct o as [[raw [|l ls]]|]; simpl; try (intros Hp; by apply elem_of_nil in Hp).
  intros Hp. split; [done|].
  apply elem_of_cons in Hp as [->|Hp]; [by left|].
  apply list_elem_of_singleton in Hp as ->. by right.
Qed.

Lemma yields_writes_keys od s ys p :
  p ∈ (yields_writes od s ys).*1 →
  ∃ st o, (st, o) ∈ ys ∧ retained o = true
    ∧ (p = image_copy_path od s (image_name_of st) ∨ p = label_path_of od s st).
Proof.
  unfold yields_writes. induction ys as [|[st o] ys IH]; simpl.
  - intros Hp. by apply elem_of_nil in Hp.
  - rewrite fmap_app, elem_of_app. intros [Hp|Hp].
    + apply file_writes_keys in Hp as [Hr Hp]. exists st, o. split; [by left | done].
    + destruct (IH Hp) as (st' & o' & Hst' & Hp'). exists st', o'. split; [by right | done].
Qed.

Lemma yields_writes_retained od s ys st raw l ls :
  (st, Some (raw, l :: ls)) ∈ ys →
  (image_copy_path od s (image_name_of st), raw) ∈ yields_writes od s ys
  ∧ (label_path_of od s st, join nl (l :: ls)) ∈ yields_writes od s ys.
Proof.
  unfold yields_writes. induction ys as [|y ys IH]; simpl.
  - intros Hin. by apply elem_of_nil in Hin.
  - intros Hin. rewrite !elem_of_app. apply elem_of_cons in Hin as [<-|Hin].
    + simpl. split; left; [by left | right; by left].
    + destruct (IH Hin). split; by right.
Qed.

Lemma NoDup_file_writes od s st o : NoDup (file_writes od s st o).*1.
Proof.
  destruct o as [[raw [|l ls]]|]; simpl; try constructor.
  - rewrite list_elem_of_singleton. intros Heq. symmetry in Heq.
    by apply label_path_not_image in Heq.
  - apply NoDup_singleton.
Qed.

Lemma NoDup_yields_writes od s ys :
  s ∈ yolo_splits → NoDup ys.*1 → NoDup (yields_writes od s ys).*1.
Proof.
  intros Hs. unfold yields_writes. induction ys as [|[st o] ys IH]; simpl.
  - constructor.
  - intros Hnd. apply NoDup_cons in Hnd as [Hst Hnd].
    rewrite fmap_app. apply NoDup_app. split; [apply NoDup_file_writes|]. split; [|by apply IH].
    intros p Hp Hp'. apply file_writes_keys in Hp as [_ Hp].
    apply yields_writes_keys in Hp' as (st' & o' & Hst' & _ & Hp').
    apply (list_elem_of_fmap_2 fst) in Hst'. simpl in Hst'.
    assert (st = st') as <-; [|done].
    destruct Hp as [->| ->], Hp' as [Hp'|Hp'].
    + by apply image_copy_path_inj in Hp' as [_ ?].
    + symmetry in Hp'. by apply label_path_not_image in Hp'.
    + by apply label_path_not_image in Hp'.
    + by apply label_path_inj in Hp' as [_ ?].
Qed.

Lemma NoDup_run_writes od abs yt yv :
  NoDup yt.*1 → NoDup yv.*1 → NoDup (run_writes od abs yt yv).*1.
Proof.
  intros Ht Hv. unfold run_writes. rewrite !fmap_app. simpl.
  assert ("train" ∈ yolo_splits) as Htr by (by left).
  assert ("val" ∈ yolo_splits) as Hva by (right; by left).
  apply NoDup_app. split; [by apply NoDup_yields_writes|]. split.
  - intros p Hp Hp'. apply yields_writes_keys in Hp as (st & ? & _ & _ & Hp).
    apply elem_of_app in Hp' as [Hp'|Hp'].
    + apply yields_writes_keys in Hp' as (st' & ? & _ & _ & Hp').
      destruct Hp as [->| ->], Hp' as [Hp'|Hp'].
      * by apply image_copy_path_inj in Hp' as [? _].
      * symmetry in Hp'. by apply label_path_not_image in Hp'.
      * by apply label_path_not_image in Hp'.
      * by apply label_path_inj in Hp' as [? _].
    + apply list_elem_of_singleton in Hp'. destruct Hp as [->| ->].
      * by apply image_copy_path_not_manifest in Hp'.
      * by apply label_path_not_manifest in Hp'.
  - apply NoDup_app. split; [by apply NoDup_yields_writes|]. split; [|apply NoDup_singleton].
    intros p Hp Hp'. apply yields_writes_keys in Hp as (st & ? & _ & _ & Hp).
    apply list_elem_of_singleton in Hp'. destruct Hp as [->| ->].
    + by apply image_copy_path_not_manifest in Hp'.
    + by apply label_path_not_manifest in Hp'.
Qed.

Lemma NoDup_fst_functional {A B} `{EqDecision A, Countable A} (l : list (A * B)) k v v' :
  NoDup l.*1 → (k, v) ∈ l → (k, v') ∈ l → v = v'.
Proof.
  intros Hnd Hv Hv'.
  apply (elem_of_list_to_map_1 (M := gmap A)) in Hv, Hv'; [|done..]. congruence.
Qed.

(** What a completed run leaves at the two output paths of a yield. *)
Lemma run_writes_lookup od abs yt yv s ys st o (m : gmap string string) :
  NoDup yt.*1 → NoDup yv.*1 →
  (s = "train" ∧ ys = yt) ∨ (s = "val" ∧ ys = yv) →
  (st, o) ∈ ys →
  (lines_of o = [] →
   apply_writes m (run_writes od abs yt yv) !! label_path_of od s st
   = m !! label_path_of od s st
   ∧ apply_writes m (run_writes od abs yt yv) !! image_copy_path od s (image_name_of st)
     = m !! image_copy_path od s (image_name_of st))
  ∧ (lines_of o ≠ [] →
     ∃ raw, o = Some (raw, lines_of o)
       ∧ apply_writes m (run_writes od abs yt yv) !! label_path_of od s st
         = Some (join nl (lines_of o))
       ∧ apply_writes m (run_writes od abs yt yv)
           !! image_copy_path od s (image_name_of st) = Some raw).
Proof.
  intros Hndt Hndv Hs Hin.
  assert ("train" ∈ yolo_splits) as Htr by (by left).
  assert ("val" ∈ yolo_splits) as Hva by (right; by left).
  assert (s ∈ yolo_splits) as Hsin by (by destruct Hs as [[-> _]|[-> _]]).
  split.
  - intros Hnone.
    assert (∀ s' ys' st' o', (s' = "train" ∧ ys' = yt) ∨ (s' = "val" ∧ ys' = yv) →
              (st', o') ∈ ys' → retained o' = true → s = s' → st = st' → False) as Hclash.
    { intros s' ys' st' o' Hs' Hin' Hret <- <-.
      assert (ys' = ys) as ->.
      { destruct Hs as [[-> ->]|[-> ->]], Hs' as [[? ->]|[? ->]]; done. }
      assert (NoDup ys.*1) as Hnd by (by destruct Hs as [[_ ->]|[_ ->]]).
      rewrite (NoDup_fst_functional _ _ _ _ Hnd Hin' Hin) in Hret.
      unfold retained in Hret. by rewrite Hnone in Hret. }
    split; apply apply_writes_lookup_fresh; unfold run_writes; rewrite !fmap_app;
      rewrite !elem_of_app; intros [Hp|[Hp|Hp]].
    + apply yields_writes_keys in Hp as (st' & o' & Hin' & Hret & [Hp|Hp]).
      * by apply label_path_not_image in Hp.
      * apply label_path_inj in Hp as [? ?]; [|done..]. eapply Hclash; eauto.
    + apply yields_writes_keys in Hp as (st' & o' & Hin' & Hret & [Hp|Hp]).
      * by apply label_path_not_image in Hp.
      * apply label_path_inj in Hp as [? ?]; [|done..]. eapply Hclash; eauto.
    + apply list_elem_of_singleton in Hp. by apply label_path_not_manifest in Hp.
    + apply yields_writes_keys in Hp as (st' & o' & Hin' & Hret & [Hp|Hp]).
      * apply image_copy_path_inj in Hp as [? ?]; [|done..]. eapply Hclash; eauto.
      * symmetry in Hp. by apply label_path_not_image in Hp.
    + apply yields_writes_keys in Hp as (st' & o' & Hin' & Hret & [Hp|Hp]).
      * apply image_copy_path_inj in Hp as [? ?]; [|done..]. eapply Hclash; eauto.
      * symmetry in Hp. by apply label_path_not_image in Hp.
    + apply list_elem_of_singleton in Hp. by apply image_copy_path_not_manifest in Hp.
  - intros Hsome. destruct o as [[raw [|l ls]]|]; try done.
    exists raw. split; [done|]. simpl.
    pose proof (yields_writes_retained od s ys st raw l ls Hin) as [Hcopy Hlabel].
    assert (∀ pc, pc ∈ yields_writes od s ys → pc ∈ run_writes od abs yt yv) as Hsub.
    { intros pc Hpc. unfold run_writes. rewrite !elem_of_app.
      destruct Hs as [[-> ->]|[-> ->]]; auto. }
    split; apply apply_writes_lookup_written; auto using NoDup_run_writes.
Qed.

(** ** Lines of text *)

Lemma count_nl_append (a b : string) :
  count_nl (a +:+ b) = (count_nl a + count_nl b)%nat.
Proof. induction a as [|c a IH]; simpl; [done | rewrite IH; lia]. Qed.

Lemma count_nl_uint (d : Decimal.uint) : count_nl (NilEmpty.string_of_uint d) = O.
Proof. induction d; simpl; auto. Qed.

Lemma count_nl_str_int (z : Z) : count_nl (str_int z) = O.
Proof.
  unfold str_int, NilZero.string_of_int, NilZero.string_of_uint.
  destruct (Z.to_int z) as [d|d]; destruct d; simpl; try done; apply count_nl_uint.
Qed.

Lemma append_not_empty (a b : string) : a ≠ "" → a +:+ b ≠ "".
Proof. by destruct a. Qed.

Lemma str_int_not_empty (z : Z) : str_int z ≠ "".
Proof.
  unfold str_int, NilZero.string_of_int, NilZero.string_of_uint.
  destruct (Z.to_int z) as [d|d]; destruct d; done.
Qed.

Lemma line_count_join (l : string) (ls : list string) :
  Forall one_line (l :: ls) → line_count (join nl (l :: ls)) = length (l :: ls).
Proof.
  intros Hall.
  assert (count_nl (join nl (l :: ls)) = length ls ∧ join nl (l :: ls) ≠ "") as [Hc Hne].
  { revert l Hall. induction ls as [|l' ls IH]; intros l Hall.
    - apply Forall_cons in Hall as [[Hne Hc] _]. by simpl.
    - apply Forall_cons in Hall as [[Hne Hc] Hall].
      destruct (IH l' Hall) as [IHc _].
      change (join nl (l :: l' :: ls)) with (l +:+ nl +:+ join nl (l' :: ls)).
      split; [|by apply append_not_empty].
      rewrite !count_nl_append, Hc, IHc. simpl. lia. }
  unfold line_count. destruct (join nl (l :: ls)); [done|].
  simpl in *. by rewrite Hc.
Qed.

Section LineCount.
Context `{PyNum}.
Hypothesis fmt_6f_one_line : ∀ v : num, count_nl (fmt_6f v) = O.

Lemma label_line_one_line class_id b : one_line (label_line class_id b).
Proof.
  unfold label_line. split.
  - apply append_not_empty, str_int_not_empty.
  - rewrite !count_nl_append, !fmt_6f_one_line, count_nl_str_int. simpl. lia.
Qed.

Lemma file_lines_one_line tree af o :
  file_lines tree af = Ok o → Forall one_line (lines_of o).
Proof.
  unfold file_lines. destruct (parsed af) as [data|]; [|done].
  destruct (images tree !! image_name_of (stem af)) as [[e|raw w h]|];
    try (intros [= <-]; constructor).
  intros Hl. apply bind_ok in Hl as (items & _ & Hl).
  apply bind_ok in Hl as (ls & Hls & [= <-]). simpl.
  eapply emitted_lines_Forall; [|done].
  intros d line Hline. apply process_instance_line in Hline as (class_id & b & _ & ->).
  apply label_line_one_line.
Qed.

Lemma split_yields_one_line tree afs ys :
  split_yields tree afs = Ok ys → Forall (λ y, Forall one_line (lines_of y.2)) ys.
Proof.
  revert ys. induction afs as [|af rest IH]; intros ys; simpl.
  - intros [= <-]. constructor.
  - intros Hy. apply bind_ok in Hy as (o & Ho & Hy).
    apply bind_ok in Hy as (os & Hos & [= <-]).
    constructor; [by eapply file_lines_one_line | by apply IH].
Qed.

End LineCount.

Lemma filter_label_yields od s ys :
  filter (λ pc, is_label_path od pc.1 = true) (yields_writes od s ys) = label_writes od s ys.
Proof.
  unfold yields_writes, label_writes. induction ys as [|[st o] ys IH]; [done|].
  rewrite bind_cons, filter_app, IH, filter_cons. simpl.
  destruct o as [[raw [|l ls]]|]; simpl; try done.
  rewrite filter_cons. simpl. rewrite is_label_path_image.
  rewrite decide_False by done.
  rewrite filter_cons. simpl. rewrite is_label_path_label.
  rewrite decide_True by done. by rewrite filter_nil.
Qed.

Lemma label_writes_length od s ys :
  Z.of_nat (length (label_writes od s ys)) = yields_images ys.
Proof. unfold label_writes, yields_images. by rewrite length_fmap. Qed.

#[local] Arguments join : simpl never.
#[local] Arguments line_count : simpl never.

Lemma label_writes_lines od s ys :
  Forall (λ y, Forall one_line (lines_of y.2)) ys →
  Z.of_nat (sum_list (line_count <$> (label_writes od s ys).*2)) = yields_annotations ys.
Proof.
  unfold label_writes, yields_annotations. induction ys as [|[st o] ys IH]; [done|].
  intros Hall. apply Forall_cons in Hall as [Ho Hall]. specialize (IH Hall).
  rewrite bind_cons, length_app, filter_cons. simpl in *.
  destruct o as [[raw [|l ls]]|]; simpl; try (rewrite <- IH; done).
  rewrite (line_count_join l ls Ho). simpl.
  do 3 f_equal. exact (Nat2Z.inj _ _ IH).
Qed.

Lemma count_nl_low_digits (k : nat) (n : Z) : count_nl (low_digits k n) = O.
Proof.
  revert n. induction k as [|k IH]; intros n; simpl; [done|].
  by rewrite count_nl_append, IH, count_nl_str_int.
Qed.

Lemma count_nl_fixed6 (q : Z) : count_nl (fixed6 q) = O.
Proof.
  unfold fixed6. by rewrite !count_nl_append, count_nl_str_int, count_nl_low_digits.
Qed.

Lemma length_str_digit (d : Z) : 0 ≤ d < 10 → String.length (str_int d) = 1%nat.
Proof.
  intros Hd.
  assert (d = 0 ∨ d = 1 ∨ d = 2 ∨ d = 3 ∨ d = 4 ∨ d = 5 ∨ d = 6 ∨ d = 7 ∨ d = 8 ∨ d = 9)
    as Hcases by lia.
  repeat (destruct Hcases as [->|Hcases]; [reflexivity|]). by subst.
Qed.

Lemma length_low_digits (k : nat) (n : Z) : String.length (low_digits k n) = k.
Proof.
  revert n. induction k as [|k IH]; intros n; [done|].
  change (low_digits (S k) n) with (low_digits k (n / 10) +:+ str_int (n mod 10)).
  rewrite length_append, IH, length_str_digit; [lia|].
  apply Z.mod_pos_bound. lia.
Qed.

(** What CPython's [.6f] prints for a float that passed the
    validation: a sign, the digits of the integer part, a point and six
    decimals. *)
Lemma cpython_fmt_6f_six_decimals (f : float) :
  @in_unit CPython.cpython (CPython.PyFloat f) = true →
  ∃ (sign : string) (int_part : Z) (decimals : string),
    @fmt_6f CPython.cpython (CPython.PyFloat f)
    = sign +:+ str_int int_part +:+ "." +:+ decimals
    ∧ String.length decimals = 6%nat.
Proof.
  unfold in_unit. cbn [num_le of_int fmt_6f CPython.cpython CPython.le CPython.format_num].
  unfold CPython.int_le_float, CPython.float_le_int, CPython.format_6f.
  destruct (Prim2SF f) as [s|s| |s m e]; intros Hin.
  - eexists _, _, _. split; [reflexivity | apply length_low_digits].
  - by destruct s.
  - done.
  - eexists _, _, _. split; [reflexivity | apply length_low_digits].
Qed.

(** CPython's [.6f] never prints a line feed. *)
Lemma cpython_fmt_6f_one_line (v : @num CPython.cpython) :
  count_nl (@fmt_6f CPython.cpython v) = O.
Proof.
  destruct v as [z|f]; simpl.
  - unfold CPython.format_num. rewrite count_nl_append, count_nl_fixed6.
    by destruct (z <? 0).
  - unfold CPython.format_num, CPython.format_6f.
    destruct (Prim2SF f) as [s|s| |s m e].
    + rewrite count_nl_append, count_nl_fixed6. by destruct s.
    + by destruct s.
    + done.
    + rewrite count_nl_append, count_nl_fixed6. by destruct s.
Qed.

(** ** Listing order *)

Section RerunFacts.
Context `{PyNum}.

Lemma same_split_visited t1 t2 : same_split t1 t2 → visited t1 ≡ₚ visited t2.
Proof.
  unfold same_split, visited. intros [_ Hl].
  by destruct (annos t1), (annos t2).
Qed.

Lemma file_lines_same_images t1 t2 af :
  images t1 = images t2 → file_lines t1 af = file_lines t2 af.
Proof. unfold file_lines. by intros ->. Qed.

Lemma split_yields_same_images t1 t2 afs :
  images t1 = images t2 → split_yields t1 afs = split_yields t2 afs.
Proof.
  intros Himg. induction afs as [|af rest IH]; simpl; [done|].
  by rewrite (file_lines_same_images t1 t2 af Himg), IH.
Qed.

Lemma split_yields_perm tree afs afs' ys :
  afs ≡ₚ afs' → split_yields tree afs = Ok ys →
  ∃ ys', split_yields tree afs' = Ok ys' ∧ ys ≡ₚ ys'.
Proof.
  intros Hperm. revert ys.
  induction Hperm as [|af l l' Hperm IH|a1 a2 l|l l' l'' _ IH1 _ IH2]; intros ys; simpl.
  - intros [= <-]. by exists [].
  - intros Hy. apply bind_ok in Hy as (o & Ho & Hy).
    apply bind_ok in Hy as (os & Hos & [= <-]).
    destruct (IH os Hos) as (os' & -> & Hp). rewrite Ho. simpl.
    eexists. split; [reflexivity | by constructor].
  - intros Hy. apply bind_ok in Hy as (o2 & Ho2 & Hy).
    apply bind_ok in Hy as (os2 & Hy & [= <-]).
    apply bind_ok in Hy as (o1 & Ho1 & Hy).
    apply bind_ok in Hy as (os & Hos & [= <-]).
    rewrite Ho1, Ho2, Hos. simpl. eexists. split; [reflexivity | by constructor].
  - intros Hy. destruct (IH1 ys Hy) as (ys' & Hy' & Hp').
    destruct (IH2 ys' Hy') as (ys'' & Hy'' & Hp''). exists ys''. split; [done|].
    by etrans.
Qed.

Lemma yields_images_perm ys ys' : ys ≡ₚ ys' → yields_images ys = yields_images ys'.
Proof. unfold yields_images. by intros ->. Qed.

Lemma yields_annotations_perm ys ys' :
  ys ≡ₚ ys' → yields_annotations ys = yields_annotations ys'.
Proof. unfold yields_annotations. by intros ->. Qed.

Lemma run_writes_perm od abs yt yt' yv yv' :
  yt ≡ₚ yt' → yv ≡ₚ yv' → run_writes od abs yt yv ≡ₚ run_writes od abs yt' yv'.
Proof.
  intros Ht Hv. unfold run_writes, yields_writes.
  rewrite (yields_images_perm _ _ Ht), (yields_images_perm _ _ Hv).
  rewrite (yields_annotations_perm _ _ Ht), (yields_annotations_perm _ _ Hv).
  by rewrite Ht, Hv.
Qed.

End RerunFacts.

(** ** Two runs on concrete inputs *)

(** The run on the small source: one image kept, one label file with
    the line of the scenario, and the counters in the manifest. *)
Example small_source_run :
  let r := @convert_deepfashion2_to_yolo CPython.cpython Scenario.small_source
             "./deepfashion2" "out" "/data/out" empty_world in
  r.2 = None
  ∧ files r.1 =
      {[ "out/images/train/000001.jpg" := "JFIF-1";
         "out/labels/train/000001.txt" := "0 0.300000 0.300000 0.500000 0.500000";
         "out/data.yaml" := yaml_content "/data/out" 1 1 ]}
  ∧ stdout r.1 =
      ["Converting DeepFashion2 from ./deepfashion2 to YOLO format...";
       nl +:+ "Processing 2 images from train split...";
       nl +:+ "Processing 0 images from validation split...";
       nl +:+ "✅ Conversion complete!";
       "   - Total images: 1";
       "   - Total annotations: 1";
       "   - Output directory: out";
       "   - data.yaml created"].
Proof. cbv zeta. split; [|split]; vm_compute; reflexivity. Qed.

(** A box of four strings ends the run: nothing is written, not even
    the manifest. *)
Example text_box_run :
  let src := @Dataset CPython.cpython
               (SplitTree
                  (Some [AnnoFile "000003" (Some (JObj [("item1", Scenario.text_box)]))])
                  {[ "000003.jpg" := Readable "JFIF-3" 200 400 ]})
               (SplitTree (Some []) ∅) in
  let r := @convert_deepfashion2_to_yolo CPython.cpython src
             "./deepfashion2" "out" "/data/out" empty_world in
  r.2 = Some TypeError ∧ files r.1 = ∅.
Proof. cbv zeta. split; vm_compute; reflexivity. Qed.

(** * The claims *)

(** ** The bounding-box transform *)

(** C1. For an instance with a mapped category and a pixel box
    [[x1, y1, x2, y2]] on an image of [img_width] by [img_height], the
    converter computes the center-box by the formulas of the
    specification and, when the four values pass the validation, emits
    the class id followed by the four values in [.6f] format. With
    CPython's numbers a value that passed the validation is printed
    with exactly six decimals, and the scenario annotation on a
    200 x 400 image yields exactly the line
    [0 0.300000 0.300000 0.500000 0.500000]. *)
Theorem C1_center_box_label_line :
  (∀ (N : PyNum) (kvs : list (string * json)) (category : string) (class_id : Z)
     (x1 y1 x2 y2 : num) (img_width img_height : Z),
     dict_get kvs "category_name" (JStr "") = JStr category →
     CATEGORY_MAPPING !! category = Some class_id →
     dict_get kvs "bounding_box" (JArr []) = JArr [JNum x1; JNum y1; JNum x2; JNum y2] →
     process_instance img_width img_height (JObj kvs) =
       b ← spec_center_box x1 y1 x2 y2 img_width img_height;
       if forallb in_unit (box_values b)
       then Ok (Some (str_int class_id +:+ " " +:+ fmt_6f (box_x_center b) +:+ " "
                        +:+ fmt_6f (box_y_center b) +:+ " " +:+ fmt_6f (box_width b)
                        +:+ " " +:+ fmt_6f (box_height b)))
       else Ok None)
  ∧ (∀ f : float,
       @in_unit CPython.cpython (CPython.PyFloat f) = true →
       ∃ (sign : string) (int_part : Z) (decimals : string),
         @fmt_6f CPython.cpython (CPython.PyFloat f)
         = sign +:+ str_int int_part +:+ "." +:+ decimals
         ∧ String.length decimals = 6%nat)
  ∧ @instances_loop CPython.cpython 200 400 Scenario.annotation [] 0
    = Ok (["0 0.300000 0.300000 0.500000 0.500000"], 1).
Proof.
  split; [|split].
  - intros N kvs category class_id x1 y1 x2 y2 w h Hc Hm Hb.
    rewrite (process_instance_box _ _ _ _ _ _ _ _ _ Hc Hm Hb).
    by rewrite to_center_box_numbers.
  - exact cpython_fmt_6f_six_decimals.
  - vm_compute. reflexivity.
Qed.

Lemma C1_center_box_label_line_witness :
  @process_instance CPython.cpython 200 400 Scenario.item1
  = Ok (Some "0 0.300000 0.300000 0.500000 0.500000").
Proof.
  refine (eq_trans
            (proj1 C1_center_box_label_line CPython.cpython Scenario.item1_fields
               "short sleeve top" 0
               (CPython.PyInt 10) (CPython.PyInt 20) (CPython.PyInt 110) (CPython.PyInt 220)
               200 400 _ _ _) _).
  - reflexivity.
  - vm_compute. reflexivity.
  - reflexivity.
  - vm_compute. reflexivity.
Defined.

(** ** The round trip *)

(** The rounding of binary64 operations: each operation of the round
    trip gives a float within [2^-53] of its exact result in
    proportion, from which the error of a coordinate is bounded. *)
Module Rounding.
Import Reals Lra FloatAxioms.
Import Binary64.
Import CPython.
Local Open Scope R_scope.

(** *** Powers of two *)

Lemma bpow_gt_0 (e : Z) : 0 < bpow e.
Proof. apply powerRZ_lt. lra. Qed.

Lemma bpow_plus (a b : Z) : bpow (a + b) = bpow a * bpow b.
Proof. apply powerRZ_add. lra. Qed.

Lemma bpow_0 : bpow 0 = 1.
Proof. reflexivity. Qed.

Lemma bpow_1 : bpow 1 = 2.
Proof. unfold bpow. simpl. lra. Qed.

Lemma bpow_succ (e : Z) : bpow (e + 1) = 2 * bpow e.
Proof. rewrite bpow_plus, bpow_1. lra. Qed.

Lemma bpow_pred (e : Z) : bpow (e - 1) = bpow e / 2.
Proof.
  replace e with ((e - 1) + 1)%Z at 2 by lia. rewrite bpow_succ. lra.
Qed.

Lemma bpow_IZR (e : Z) : (0 <= e)%Z → bpow e = IZR (2 ^ e).
Proof.
  intros He. unfold bpow. rewrite <- (Z2Nat.id e He) at 2.
  rewrite <- pow_IZR, pow_powerRZ. by rewrite Z2Nat.id.
Qed.

Lemma bpow_ge_1 (e : Z) : (0 <= e)%Z → 1 <= bpow e.
Proof.
  intros He. rewrite bpow_IZR by done. apply IZR_le.
  pose proof (Z.pow_pos_nonneg 2 e ltac:(lia) He). lia.
Qed.

Lemma bpow_lt (a b : Z) : (a < b)%Z → bpow a < bpow b.
Proof.
  intros Hab. replace b with (a + 1 + (b - a - 1))%Z by lia.
  rewrite bpow_plus, bpow_succ.
  pose proof (bpow_gt_0 a). pose proof (bpow_ge_1 (b - a - 1) ltac:(lia)). nra.
Qed.

Lemma bpow_le (a b : Z) : (a <= b)%Z → bpow a <= bpow b.
Proof.
  intros Hab. destruct (Z.eq_dec a b) as [->|]; [lra|].
  apply Rlt_le, bpow_lt. lia.
Qed.

Lemma bpow_lt_inv (a b : Z) : bpow a < bpow b → (a < b)%Z.
Proof.
  intros Hlt. destruct (Z_lt_le_dec a b) as [|Hle]; [done|].
  apply bpow_le in Hle. lra.
Qed.

Lemma bpow_opp (e : Z) : bpow (- e) = / bpow e.
Proof. apply powerRZ_neg'. Qed.

(** *** The number of digits *)

Lemma digits2_pos_spec (p : positive) :
  (2 ^ (Z.pos (digits2_pos p) - 1) <= Z.pos p < 2 ^ Z.pos (digits2_pos p))%Z.
Proof.
  induction p as [p IH|p IH|]; simpl digits2_pos.
  - rewrite Pos2Z.inj_succ.
    replace (Z.succ (Z.pos (digits2_pos p)) - 1)%Z with (Z.succ (Z.pos (digits2_pos p) - 1))
      by lia.
    rewrite !Z.pow_succ_r by lia. lia.
  - rewrite Pos2Z.inj_succ.
    replace (Z.succ (Z.pos (digits2_pos p)) - 1)%Z with (Z.succ (Z.pos (digits2_pos p) - 1))
      by lia.
    rewrite !Z.pow_succ_r by lia. lia.
  - simpl. lia.
Qed.

Lemma digits2_pos_bpow (p : positive) :
  bpow (Z.pos (digits2_pos p) - 1) <= IZR (Z.pos p) < bpow (Z.pos (digits2_pos p)).
Proof.
  destruct (digits2_pos_spec p) as [Hl Hu].
  rewrite !bpow_IZR by lia. split; [by apply IZR_le | by apply IZR_lt].
Qed.

(** *** A real number between two floats of one exponent *)

Lemma shr_1_spec (m : Z) (r s : bool) :
  (0 <= m)%Z →
  shr_1 (Build_shr_record m r s) = Build_shr_record (m / 2) (Z.odd m) (r || s).
Proof.
  intros Hm. destruct m as [|p|p]; [done| |lia].
  destruct p as [q|q|]; simpl shr_1; f_equal.
  - change (Z.pos q~1) with (2 * Z.pos q + 1)%Z.
    apply (Z.div_unique _ _ _ 1); lia.
  - change (Z.pos q~0) with (2 * Z.pos q)%Z.
    apply (Z.div_unique _ _ _ 0); lia.
Qed.

Lemma half_odd (m : Z) : IZR m = 2 * IZR (m / 2) + (if Z.odd m then 1 else 0).
Proof.
  pose proof (Z.div_mod m 2 ltac:(lia)) as Hdm. rewrite Zmod_odd in Hdm.
  rewrite Hdm at 1. rewrite plus_IZR, mult_IZR. by destruct (Z.odd m).
Qed.

Lemma shr_1_inb (v : R) (mrs : shr_record) (e : Z) :
  (0 <= shr_m mrs)%Z →
  inb v (shr_m mrs) e (loc_of_shr_record mrs) →
  (0 <= shr_m (shr_1 mrs))%Z
  ∧ shr_m (shr_1 mrs) = (shr_m mrs / 2)%Z
  ∧ inb v (shr_m (shr_1 mrs)) (e + 1) (loc_of_shr_record (shr_1 mrs)).
Proof.
  destruct mrs as [m r s]. cbn [shr_m]. intros Hm.
  rewrite shr_1_spec by done. cbn [shr_m].
  pose proof (bpow_gt_0 e) as He. pose proof (bpow_succ e) as Hs.
  pose proof (half_odd m) as Hh. intros Hv.
  split; [apply Z.div_pos; lia|]. split; [done|]. revert Hv.
  set (h := IZR (m / 2)) in *. set (x := IZR m) in *.
  set (B := bpow e) in *. set (B' := bpow (e + 1)) in *.
  destruct r, s, (Z.odd m); cbn [loc_of_shr_record orb inb];
    fold h x B B'; intros Hv; nra.
Qed.

Lemma iter_shr_1_inb (v : R) (p : positive) :
  ∀ (mrs : shr_record) (e : Z),
    (0 <= shr_m mrs)%Z →
    inb v (shr_m mrs) e (loc_of_shr_record mrs) →
    (0 <= shr_m (SpecFloat.iter_pos shr_1 p mrs))%Z
    ∧ inb v (shr_m (SpecFloat.iter_pos shr_1 p mrs)) (e + Z.pos p)
        (loc_of_shr_record (SpecFloat.iter_pos shr_1 p mrs)).
Proof.
  induction p as [p IH|p IH|]; intros mrs e Hm Hv; cbn [SpecFloat.iter_pos].
  - destruct (shr_1_inb v mrs e Hm Hv) as (H1 & _ & H2).
    destruct (IH _ _ H1 H2) as [H3 H4]. destruct (IH _ _ H3 H4) as [H5 H6].
    split; [done|]. by replace (e + Z.pos p~1)%Z with (e + 1 + Z.pos p + Z.pos p)%Z by lia.
  - destruct (IH _ _ Hm Hv) as [H3 H4]. destruct (IH _ _ H3 H4) as [H5 H6].
    split; [done|]. by replace (e + Z.pos p~0)%Z with (e + Z.pos p + Z.pos p)%Z by lia.
  - destruct (shr_1_inb v mrs e Hm Hv) as (H1 & _ & H2). done.
Qed.

Lemma loc_of_shr_record_of_loc (m : Z) (l : location) :
  loc_of_shr_record (shr_record_of_loc m l) = l ∧ shr_m (shr_record_of_loc m l) = m.
Proof. by destruct l as [|[]]. Qed.

(** Shifting to a larger exponent keeps the number between the floats
    of that exponent. *)
Lemma shr_inb (v : R) (m e n : Z) (l : location) :
  (0 <= m)%Z → (0 <= n)%Z → inb v m e l →
  ∃ mrs, shr (shr_record_of_loc m l) e n = (mrs, (e + n)%Z)
         ∧ (0 <= shr_m mrs)%Z ∧ inb v (shr_m mrs) (e + n) (loc_of_shr_record mrs).
Proof.
  intros Hm Hn Hv. destruct (loc_of_shr_record_of_loc m l) as [Hl Hs].
  destruct n as [|p|p]; [| |lia]; cbn [shr].
  - eexists. split; [by rewrite Z.add_0_r|]. rewrite Z.add_0_r, Hl, Hs. done.
  - eexists. split; [done|]. apply iter_shr_1_inb; by rewrite ?Hl, ?Hs.
Qed.

Lemma round_nearest_even_inb (v : R) (m e : Z) (l : location) :
  inb v m e l →
  (round_nearest_even m l = m ∨ round_nearest_even m l = (m + 1)%Z)
  ∧ Rabs (IZR (round_nearest_even m l) * bpow e - v) <= bpow e / 2.
Proof.
  pose proof (bpow_gt_0 e) as He.
  assert (IZR (m + 1) = IZR m + 1) as H1 by (by rewrite plus_IZR).
  destruct l as [|[]]; cbn [inb round_nearest_even].
  - intros ->. split; [by left|]. rewrite Rminus_diag, Rabs_R0. lra.
  - intros [Hv Hc]. destruct (Z.even m).
    + split; [by left|]. rewrite Hc. apply Rabs_le. lra.
    + split; [by right|]. rewrite Hc, H1. apply Rabs_le. lra.
  - intros [Hv Hc]. split; [by left|]. apply Rabs_le. lra.
  - intros [Hv Hc]. split; [by right|]. rewrite H1. apply Rabs_le. lra.
Qed.

Lemma digits2_pos_unique_Z (p : positive) (k : Z) :
  (2 ^ (k - 1) <= Z.pos p < 2 ^ k)%Z → Z.pos (digits2_pos p) = k.
Proof.
  intros [Hl Hu]. destruct (digits2_pos_spec p) as [Hl' Hu'].
  assert (0 < k)%Z.
  { destruct (Z_lt_le_dec 0 k); [done|].
    destruct (Z.eq_dec k 0) as [->|]; [simpl in Hu; lia|].
    rewrite Z.pow_neg_r in Hu by lia. lia. }
  assert (k - 1 < Z.pos (digits2_pos p))%Z by (apply (Z.pow_lt_mono_r_iff 2); lia).
  assert (Z.pos (digits2_pos p) - 1 < k)%Z by (apply (Z.pow_lt_mono_r_iff 2); lia).
  lia.
Qed.

(** Rounding a positive number given between two floats of an exponent,
    with a mantissa of 53 digits at least: a float comes out, within
    [2^-53] of the number in proportion. *)
Lemma binary_round_aux_correct (sx : bool) (mx : positive) (ex : Z) (lx : location) (v : R) :
  inb v (Z.pos mx) ex lx →
  (53 <= Z.pos (digits2_pos mx))%Z →
  (-1074 <= Z.pos (digits2_pos mx) + ex - 53)%Z →
  (Z.pos (digits2_pos mx) + ex <= 1023)%Z →
  ∃ (m : positive) (e : Z),
    binary_round_aux prec emax sx (Z.pos mx) ex lx = S754_finite sx m e
    ∧ valid_binary (S754_finite sx m e) = true
    ∧ Rabs (IZR (Z.pos m) * bpow e - v) <= bpow (-53) * v
    ∧ Z.pos (digits2_pos m) = 53%Z.
Proof.
  intros Hv Hd Hlo Hhi.
  set (d := Z.pos (digits2_pos mx)) in *.
  set (e1 := (d + ex - 53)%Z).
  assert (fexp prec emax (d + ex) = e1) as Hf.
  { unfold fexp, emin, prec, emax, e1. lia. }
  (* the number is in the binade of [e1] *)
  assert (bpow (e1 + 52) <= v < bpow (e1 + 53)) as Hbin.
  { unfold e1. replace (d + ex - 53 + 52)%Z with ((d - 1) + ex)%Z by lia.
    replace (d + ex - 53 + 53)%Z with (d + ex)%Z by lia.
    rewrite !bpow_plus. destruct (digits2_pos_bpow mx) as [Hl Hu]. fold d in Hl, Hu.
    pose proof (bpow_gt_0 ex).
    assert (IZR (Z.pos mx) + 1 <= bpow d) as Hu'.
    { rewrite bpow_IZR in * by lia. rewrite <- plus_IZR. apply IZR_le.
      apply lt_IZR in Hu. lia. }
    destruct lx as [|c]; cbn [inb] in Hv; [rewrite Hv|destruct Hv as [Hv _]]; nra. }
  unfold binary_round_aux, shr_fexp. cbn [Zdigits2]. fold d. rewrite Hf.
  destruct (shr_inb v (Z.pos mx) ex (e1 - ex) lx) as (mrs1 & -> & Hm1 & Hv1);
    [lia | unfold e1; lia | done |].
  replace (ex + (e1 - ex))%Z with e1 in * by lia.
  set (m1 := shr_m mrs1) in *. set (l1 := loc_of_shr_record mrs1) in *.
  destruct (round_nearest_even_inb v m1 e1 l1 Hv1) as [Hm2 Herr].
  set (m2 := round_nearest_even m1 l1) in *.
  pose proof (bpow_gt_0 e1) as He1.
  assert (bpow (e1 + 52) = IZR (2 ^ 52) * bpow e1) as H52.
  { rewrite Z.add_comm, bpow_plus, (bpow_IZR 52) by lia. reflexivity. }
  assert (bpow (e1 + 53) = IZR (2 ^ 53) * bpow e1) as H53.
  { rewrite Z.add_comm, bpow_plus, (bpow_IZR 53) by lia. reflexivity. }
  assert (2 ^ 52 <= m1 < 2 ^ 53)%Z as Hm1b.
  { assert (IZR (2 ^ 52) < IZR (m1 + 1) ∧ IZR m1 < IZR (2 ^ 53)) as [Ha Hb].
    { rewrite plus_IZR. destruct l1 as [|c]; cbn [inb] in Hv1;
        [rewrite Hv1 in Hbin|destruct Hv1 as [Hv1 _]]; nra. }
    apply lt_IZR in Ha, Hb. lia. }
  assert (Rabs (IZR m2 * bpow e1 - v) <= bpow (-53) * v) as Herr'.
  { etrans; [exact Herr|].
    assert (bpow e1 / 2 = bpow (-53) * bpow (e1 + 52)) as ->.
    { rewrite <- bpow_plus. replace (-53 + (e1 + 52))%Z with (e1 - 1)%Z by lia.
      by rewrite bpow_pred. }
    pose proof (bpow_gt_0 (-53)). nra. }
  destruct (Z.eq_dec m2 (2 ^ 53)) as [Hc|Hc].
  - (* the mantissa was rounded up to the next binade *)
    rewrite Hc in *.
    exists (2 ^ 52)%positive, (e1 + 1)%Z.
    assert (fexp prec emax (Zdigits2 (2 ^ 53) + e1) = (e1 + 1)%Z) as ->.
    { unfold fexp, emin, prec, emax. simpl Zdigits2. unfold e1 in *. lia. }
    replace (e1 + 1 - e1)%Z with 1%Z by lia.
    cbn [shr shr_record_of_loc SpecFloat.iter_pos]. rewrite shr_1_spec by lia. cbn [shr_m].
    change (2 ^ 53 / 2)%Z with (Z.pos (2 ^ 52)).
    assert ((e1 + 1 <=? emax - prec)%Z = true) as Hle.
    { apply Z.leb_le. unfold emax, prec, e1. lia. }
    cbv iota beta. rewrite Hle.
    split; [done|]. split; [|split; [|done]].
    + unfold SpecFloat.valid_binary, SpecFloat.bounded, SpecFloat.canonical_mantissa. rewrite Hle, andb_true_r.
      apply Z.eqb_eq. change (Z.pos (digits2_pos (2 ^ 52))) with 53%Z.
      unfold fexp, emin, prec, emax. unfold e1 in *. lia.
    + rewrite bpow_succ.
      replace (IZR (Z.pos (2 ^ 52)) * (2 * bpow e1)) with (IZR (2 ^ 53) * bpow e1); [done|].
      change (2 ^ 53)%Z with (2 * Z.pos (2 ^ 52))%Z. rewrite mult_IZR. lra.
  - assert (2 ^ 52 <= m2 < 2 ^ 53)%Z as Hm2b by (destruct Hm2 as [->| ->]; lia).
    destruct m2 as [|m|m]; [lia| |lia].
    assert (Z.pos (digits2_pos m) = 53%Z) as Hdm by (by apply digits2_pos_unique_Z).
    exists m, e1.
    assert (fexp prec emax (Zdigits2 (Z.pos m) + e1) = e1) as Hf2.
    { cbn [Zdigits2]. rewrite Hdm. unfold fexp, emin, prec, emax. unfold e1 in *. lia. }
    rewrite Hf2, Z.sub_diag. cbn [shr shr_record_of_loc shr_m].
    assert ((e1 <=? emax - prec)%Z = true) as Hle.
    { apply Z.leb_le. unfold emax, prec, e1. lia. }
    rewrite Hle. split; [done|]. split; [|split; [done|done]].
    unfold SpecFloat.valid_binary, SpecFloat.bounded, SpecFloat.canonical_mantissa. rewrite Hle, andb_true_r.
    apply Z.eqb_eq. exact Hf2.
Qed.

(** A mantissa that is in its place already is kept. *)
Lemma binary_round_aux_canonical (sx : bool) (m : positive) (e : Z) :
  fexp prec emax (Z.pos (digits2_pos m) + e) = e → (e <= emax - prec)%Z →
  binary_round_aux prec emax sx (Z.pos m) e loc_Exact = S754_finite sx m e
  ∧ valid_binary (S754_finite sx m e) = true.
Proof.
  intros Hf He. apply Z.leb_le in He.
  unfold binary_round_aux, shr_fexp. cbn [Zdigits2].
  rewrite Hf, Z.sub_diag.
  cbn [shr shr_record_of_loc shr_m round_nearest_even loc_of_shr_record].
  cbn [Zdigits2]. rewrite Hf, Z.sub_diag. cbn [shr shr_m]. rewrite He.
  split; [done|].
  unfold SpecFloat.valid_binary, SpecFloat.bounded, SpecFloat.canonical_mantissa.
  rewrite He, andb_true_r. by apply Z.eqb_eq.
Qed.

Lemma iter_xO_spec (m d : positive) : Z.pos (Pos.iter xO m d) = (Z.pos m * 2 ^ Z.pos d)%Z.
Proof.
  induction d as [|d IH] using Pos.peano_ind.
  - simpl. lia.
  - rewrite Pos.iter_succ, Pos2Z.inj_succ, Z.pow_succ_r by lia.
    change (Z.pos (Pos.iter xO m d)~0) with (2 * Z.pos (Pos.iter xO m d))%Z. lia.
Qed.

Lemma digits2_pos_shift (m : positive) (k : Z) (mz : positive) :
  (0 <= k)%Z → Z.pos mz = (Z.pos m * 2 ^ k)%Z →
  Z.pos (digits2_pos mz) = (Z.pos (digits2_pos m) + k)%Z.
Proof.
  intros Hk Hmz. apply digits2_pos_unique_Z. rewrite Hmz.
  destruct (digits2_pos_spec m) as [Hl Hu].
  replace (Z.pos (digits2_pos m) + k - 1)%Z with (Z.pos (digits2_pos m) - 1 + k)%Z by lia.
  rewrite !Z.pow_add_r by lia.
  pose proof (Z.pow_pos_nonneg 2 k ltac:(lia) Hk). nia.
Qed.

Lemma shl_align_spec (mx : positive) (ex ex' : Z) :
  ∃ mz ez, shl_align mx ex ex' = (mz, ez)
    ∧ (ez <= ex)%Z ∧ Z.pos mz = (Z.pos mx * 2 ^ (ex - ez))%Z
    ∧ ((ex' <= ex)%Z → ez = ex') ∧ ((ex <= ex')%Z → ez = ex).
Proof.
  unfold shl_align. destruct (ex' - ex)%Z as [|p|p] eqn:Hd.
  - exists mx, ex. rewrite Z.sub_diag. repeat split; lia.
  - exists mx, ex. rewrite Z.sub_diag. repeat split; lia.
  - exists (Pos.iter xO mx p), ex'. rewrite iter_xO_spec.
    replace (ex - ex')%Z with (Z.pos p) by lia. repeat split; lia.
Qed.

Lemma shl_align_value (mx mz : positive) (ex ez : Z) :
  (ez <= ex)%Z → Z.pos mz = (Z.pos mx * 2 ^ (ex - ez))%Z →
  IZR (Z.pos mz) * bpow ez = IZR (Z.pos mx) * bpow ex.
Proof.
  intros Hle ->. rewrite mult_IZR, <- bpow_IZR by lia.
  rewrite Rmult_assoc, <- bpow_plus. by replace (ex - ez + ez)%Z with ex by lia.
Qed.

(** Rounding a mantissa with an exponent that is not below the least. *)
Lemma binary_round_correct (sx : bool) (mx : positive) (ex : Z) :
  (-1074 <= ex)%Z → (Z.pos (digits2_pos mx) + ex <= 1023)%Z →
  ∃ (m : positive) (e : Z),
    binary_round prec emax sx mx ex = S754_finite sx m e
    ∧ valid_binary (S754_finite sx m e) = true
    ∧ Rabs (IZR (Z.pos m) * bpow e - IZR (Z.pos mx) * bpow ex)
      <= bpow (-53) * (IZR (Z.pos mx) * bpow ex).
Proof.
  intros Hlo Hhi. unfold binary_round.
  set (d := Z.pos (digits2_pos mx)) in *.
  assert (0 < IZR (Z.pos mx) * bpow ex) as Hpos.
  { apply Rmult_lt_0_compat; [by apply IZR_lt | apply bpow_gt_0]. }
  pose proof (bpow_gt_0 (-53)) as Hu.
  destruct (shl_align_spec mx ex (fexp prec emax (d + ex)))
    as (mz & ez & -> & Hez & Hmz & Hle & Hge).
  destruct (Z_lt_le_dec d 53) as [Hsmall|Hbig].
  - (* fewer than 53 digits: the mantissa is shifted into place *)
    assert (fexp prec emax (d + ex) <= ex)%Z as Hf by (unfold fexp, emin, prec, emax; lia).
    specialize (Hle Hf).
    assert (Z.pos (digits2_pos mz) + ez = d + ex)%Z as Hdz.
    { rewrite (digits2_pos_shift mx (ex - ez) mz) by (done || lia). fold d. lia. }
    destruct (binary_round_aux_canonical sx mz ez) as [-> Hvalid].
    { rewrite Hdz. done. }
    { rewrite Hle. unfold fexp, emin, prec, emax. lia. }
    exists mz, ez. split; [done|]. split; [done|].
    rewrite (shl_align_value mx mz ex ez) by done.
    rewrite Rminus_diag, Rabs_R0. nra.
  - assert (ex <= fexp prec emax (d + ex))%Z as Hf by (unfold fexp, emin, prec, emax; lia).
    specialize (Hge Hf). subst ez. rewrite Z.sub_diag, Z.mul_1_r in Hmz.
    injection Hmz as ->.
    destruct (binary_round_aux_correct sx mx ex loc_Exact (IZR (Z.pos mx) * bpow ex))
      as (m & e & -> & Hvalid & Herr & _); [done | done | fold d; lia | done |].
    by exists m, e.
Qed.

(** *** The operations *)

Lemma sign_of_cases (s : bool) : sign_of s = 1 ∨ sign_of s = -1.
Proof. destruct s; [by right | by left]. Qed.

Lemma SF2R_finite (s : bool) (m : positive) (e : Z) :
  SF2R (S754_finite s m e) = sign_of s * (IZR (Z.pos m) * bpow e).
Proof. unfold SF2R, sign_of. destruct s; lra. Qed.

Lemma rounds_to_signed (s : bool) (m : positive) (e : Z) (v : R) :
  0 <= v → valid_binary (S754_finite s m e) = true →
  Rabs (IZR (Z.pos m) * bpow e - v) <= bpow (-53) * v →
  rounds_to (S754_finite s m e) (sign_of s * v).
Proof.
  intros Hv Hvalid Herr. split; [done|]. rewrite SF2R_finite.
  replace (sign_of s * (IZR (Z.pos m) * bpow e) - sign_of s * v)
    with (sign_of s * (IZR (Z.pos m) * bpow e - v)) by lra.
  rewrite !Rabs_mult.
  assert (Rabs (sign_of s) = 1) as ->.
  { destruct s; unfold sign_of, Rabs; destruct Rcase_abs; lra. }
  rewrite (Rabs_pos_eq v) by done. lra.
Qed.

Lemma valid_exponent (s : bool) (m : positive) (e : Z) :
  valid_binary (S754_finite s m e) = true →
  (-1074 <= e <= 971)%Z
  ∧ (Z.pos (digits2_pos m) <= 53)%Z
  ∧ ((-1074 < e)%Z → Z.pos (digits2_pos m) = 53%Z).
Proof.
  unfold SpecFloat.valid_binary, SpecFloat.bounded, SpecFloat.canonical_mantissa.
  intros Hv. apply andb_prop in Hv as [Hc Hb].
  apply Z.eqb_eq in Hc. apply Z.leb_le in Hb.
  unfold fexp, emin, prec, emax in *. lia.
Qed.

Lemma binary_normalize_correct (M e : Z) :
  (-1074 <= e)%Z → Rabs (IZR M * bpow e) < bpow 1023 →
  rounds_to (binary_normalize prec emax M e false) (IZR M * bpow e).
Proof.
  intros He Hb. pose proof (bpow_gt_0 e) as Hpe.
  assert (∀ p : positive, IZR (Z.pos p) * bpow e < bpow 1023 →
            (Z.pos (digits2_pos p) + e <= 1023)%Z) as Hdig.
  { intros p Hp. destruct (digits2_pos_bpow p) as [Hl _].
    assert (bpow (Z.pos (digits2_pos p) - 1 + e) < bpow 1023) as Hlt.
    { rewrite bpow_plus. nra. }
    apply bpow_lt_inv in Hlt. lia. }
  destruct M as [|p|p]; cbn [binary_normalize].
  - split; [done|]. simpl SF2R. rewrite Rmult_0_l, Rminus_diag, Rabs_R0. lra.
  - assert (0 < IZR (Z.pos p) * bpow e) as Hpos.
    { apply Rmult_lt_0_compat; [by apply IZR_lt | done]. }
    rewrite Rabs_pos_eq in Hb by lra.
    destruct (binary_round_correct false p e He (Hdig p Hb)) as (m & e' & -> & Hvalid & Herr).
    replace (IZR (Z.pos p) * bpow e) with (sign_of false * (IZR (Z.pos p) * bpow e))
      by (unfold sign_of; lra).
    apply rounds_to_signed; [lra | done | done].
  - assert (0 < IZR (Z.pos p) * bpow e) as Hpos.
    { apply Rmult_lt_0_compat; [by apply IZR_lt | done]. }
    assert (IZR (Z.neg p) = - IZR (Z.pos p)) as Hneg.
    { change (Z.neg p) with (- Z.pos p)%Z. by rewrite opp_IZR. }
    rewrite Hneg in *.
    replace (- IZR (Z.pos p) * bpow e) with (- (IZR (Z.pos p) * bpow e)) in * by lra.
    rewrite Rabs_Ropp, Rabs_pos_eq in Hb by lra.
    destruct (binary_round_correct true p e He (Hdig p Hb)) as (m & e' & -> & Hvalid & Herr).
    replace (- (IZR (Z.pos p) * bpow e)) with (sign_of true * (IZR (Z.pos p) * bpow e))
      by (unfold sign_of; lra).
    apply rounds_to_signed; [lra | done | done].
Qed.

Lemma cond_Zopp_IZR (s : bool) (m : Z) : IZR (cond_Zopp s m) = sign_of s * IZR m.
Proof. destruct s; unfold cond_Zopp, sign_of; [rewrite opp_IZR|]; lra. Qed.

Lemma aligned_value (s : bool) (m : positive) (e ez : Z) :
  (ez <= e)%Z →
  IZR (cond_Zopp s (Z.pos (shl_align m e ez).1)) * bpow ez = SF2R (S754_finite s m e).
Proof.
  intros Hle. destruct (shl_align_spec m e ez) as (mz & ez' & Heq & Hez & Hmz & Hl & _).
  specialize (Hl Hle). subst ez'. rewrite Heq. cbn [fst].
  rewrite cond_Zopp_IZR, SF2R_finite, Rmult_assoc. f_equal. by apply shl_align_value.
Qed.

Lemma rounds_to_exact (r : spec_float) : vfin r → rounds_to r (SF2R r).
Proof.
  intros Hr. split; [done|]. rewrite Rminus_diag, Rabs_R0.
  pose proof (bpow_gt_0 (-53)). pose proof (Rabs_pos (SF2R r)). nra.
Qed.

Lemma SFsub_correct (x y : spec_float) :
  vfin x → vfin y → Rabs (SF2R x - SF2R y) < bpow 1023 →
  rounds_to (SFsub prec emax x y) (SF2R x - SF2R y).
Proof.
  intros [Hfx Hvx] [Hfy Hvy] Hb.
  destruct x as [sx|sx| |sx mx ex], y as [sy|sy| |sy my ey]; try done; cbn [SFsub].
  - simpl SF2R. rewrite Rminus_diag.
    replace 0 with (SF2R (S754_zero false)) at 2 by done.
    destruct sx, sy; by apply rounds_to_exact.
  - replace (SF2R (S754_zero sx) - SF2R (S754_finite sy my ey))
      with (SF2R (S754_finite (negb sy) my ey)).
    + by apply rounds_to_exact.
    + rewrite !SF2R_finite. simpl SF2R. destruct sy; unfold sign_of; simpl; lra.
  - replace (SF2R (S754_finite sx mx ex) - SF2R (S754_zero sy))
      with (SF2R (S754_finite sx mx ex)) by (simpl SF2R; lra).
    by apply rounds_to_exact.
  - destruct (valid_exponent _ _ _ Hvx) as [Hex _].
    destruct (valid_exponent _ _ _ Hvy) as [Hey _].
    set (ez := Z.min ex ey).
    assert (IZR (cond_Zopp sx (Z.pos (shl_align mx ex ez).1)
                 - cond_Zopp sy (Z.pos (shl_align my ey ez).1)) * bpow ez
            = SF2R (S754_finite sx mx ex) - SF2R (S754_finite sy my ey)) as Hval.
    { rewrite minus_IZR, Rmult_minus_distr_r, !aligned_value by (unfold ez; lia). done. }
    rewrite <- Hval in *. apply binary_normalize_correct; [unfold ez; lia | done].
Qed.

Lemma SFadd_correct (x y : spec_float) :
  vfin x → vfin y → Rabs (SF2R x + SF2R y) < bpow 1023 →
  rounds_to (SFadd prec emax x y) (SF2R x + SF2R y).
Proof.
  intros [Hfx Hvx] [Hfy Hvy] Hb.
  destruct x as [sx|sx| |sx mx ex], y as [sy|sy| |sy my ey]; try done; cbn [SFadd].
  - simpl SF2R. rewrite Rplus_0_r.
    replace 0 with (SF2R (S754_zero false)) at 2 by done.
    destruct sx, sy; by apply rounds_to_exact.
  - replace (SF2R (S754_zero sx) + SF2R (S754_finite sy my ey))
      with (SF2R (S754_finite sy my ey)) by (simpl SF2R; lra).
    by apply rounds_to_exact.
  - replace (SF2R (S754_finite sx mx ex) + SF2R (S754_zero sy))
      with (SF2R (S754_finite sx mx ex)) by (simpl SF2R; lra).
    by apply rounds_to_exact.
  - destruct (valid_exponent _ _ _ Hvx) as [Hex _].
    destruct (valid_exponent _ _ _ Hvy) as [Hey _].
    set (ez := Z.min ex ey).
    assert (IZR (cond_Zopp sx (Z.pos (shl_align mx ex ez).1)
                 + cond_Zopp sy (Z.pos (shl_align my ey ez).1)) * bpow ez
            = SF2R (S754_finite sx mx ex) + SF2R (S754_finite sy my ey)) as Hval.
    { rewrite plus_IZR, Rmult_plus_distr_r, !aligned_value by (unfold ez; lia). done. }
    rewrite <- Hval in *. apply binary_normalize_correct; [unfold ez; lia | done].
Qed.

Lemma magnitude_digits (p : positive) (e lo hi : Z) :
  bpow lo <= IZR (Z.pos p) * bpow e <= bpow hi →
  (lo < Z.pos (digits2_pos p) + e <= hi + 1)%Z.
Proof.
  intros [Hl Hu]. destruct (digits2_pos_bpow p) as [Hdl Hdu].
  pose proof (bpow_gt_0 e).
  assert (bpow lo < bpow (Z.pos (digits2_pos p) + e)) as H1 by (rewrite bpow_plus; nra).
  assert (bpow (Z.pos (digits2_pos p) - 1 + e) < bpow (hi + 1)) as H2.
  { rewrite bpow_plus. pose proof (bpow_lt hi (hi + 1) ltac:(lia)). nra. }
  apply bpow_lt_inv in H1, H2. lia.
Qed.

Lemma sign_of_xorb (a b : bool) : sign_of (xorb a b) = sign_of a * sign_of b.
Proof. destruct a, b; unfold sign_of; simpl; lra. Qed.

(** A product, one factor of which has all its 53 digits. *)
Lemma SFmul_correct (x y : spec_float) :
  vfin x → vfin y →
  (∀ s m e, y = S754_finite s m e → Z.pos (digits2_pos m) = 53%Z) →
  SF2R x * SF2R y = 0 ∨ bpow (-1000) <= Rabs (SF2R x * SF2R y) <= bpow 1000 →
  rounds_to (SFmul prec emax x y) (SF2R x * SF2R y).
Proof.
  intros [Hfx Hvx] [Hfy Hvy] Hn Hb.
  destruct x as [sx|sx| |sx mx ex], y as [sy|sy| |sy my ey]; try done; cbn [SFmul].
  - replace (SF2R (S754_zero sx) * SF2R (S754_zero sy))
      with (SF2R (S754_zero (xorb sx sy))) by (simpl SF2R; lra).
    by apply rounds_to_exact.
  - replace (SF2R (S754_zero sx) * SF2R (S754_finite sy my ey))
      with (SF2R (S754_zero (xorb sx sy))) by (simpl SF2R; lra).
    by apply rounds_to_exact.
  - replace (SF2R (S754_finite sx mx ex) * SF2R (S754_zero sy))
      with (SF2R (S754_zero (xorb sx sy))) by (simpl SF2R; lra).
    by apply rounds_to_exact.
  - specialize (Hn sy my ey eq_refl).
    set (v := IZR (Z.pos (mx * my)) * bpow (ex + ey)).
    assert (SF2R (S754_finite sx mx ex) * SF2R (S754_finite sy my ey)
            = sign_of (xorb sx sy) * v) as Hval.
    { rewrite !SF2R_finite, sign_of_xorb. unfold v.
      rewrite Pos2Z.inj_mul, mult_IZR, bpow_plus. lra. }
    assert (0 < v) as Hv.
    { apply Rmult_lt_0_compat; [by apply IZR_lt | apply bpow_gt_0]. }
    rewrite Hval in *.
    assert (bpow (-1000) <= v <= bpow 1000) as Hbv.
    { destruct Hb as [Hb|Hb].
      - destruct (sign_of_cases (xorb sx sy)) as [Hs|Hs]; rewrite Hs in Hb; lra.
      - rewrite Rabs_mult, (Rabs_pos_eq v) in Hb by lra.
        destruct (sign_of_cases (xorb sx sy)) as [Hs|Hs]; rewrite Hs in Hb;
          unfold Rabs in Hb; destruct Rcase_abs; lra. }
    destruct (magnitude_digits (mx * my) (ex + ey) (-1000) 1000 Hbv) as [Hlo Hhi].
    assert (53 <= Z.pos (digits2_pos (mx * my)))%Z as Hd.
    { destruct (digits2_pos_spec (mx * my)) as [_ Hu].
      destruct (digits2_pos_spec my) as [Hl _]. rewrite Hn in Hl.
      assert (2 ^ 52 < 2 ^ Z.pos (digits2_pos (mx * my)))%Z as Hlt.
      { change (2 ^ (53 - 1))%Z with (2 ^ 52)%Z in Hl. rewrite Pos2Z.inj_mul in Hu. nia. }
      apply (Z.pow_lt_mono_r_iff 2) in Hlt; lia. }
    destruct (binary_round_aux_correct (xorb sx sy) (mx * my) (ex + ey) loc_Exact v)
      as (m & e & -> & Hvalid & Herr & _); [done | done | lia | lia |].
    apply rounds_to_signed; [lra | done | done].
Qed.

(** *** Division *)

Lemma new_location_correct (m2 r : Z) :
  (0 <= r < m2)%Z →
  match new_location m2 r with
  | loc_Exact => r = 0%Z
  | loc_Inexact c =>
      (0 < r)%Z
      ∧ match c with
        | Lt => (2 * r < m2)%Z
        | Eq => (2 * r = m2)%Z
        | Gt => (m2 < 2 * r)%Z
        end
  end.
Proof.
  intros Hr. unfold new_location, new_location_even, new_location_odd.
  destruct (Z.even m2) eqn:Heven.
  - destruct (Z.eqb_spec r 0) as [->|Hr0]; [done|]. split; [lia|].
    destruct (Z.compare_spec (2 * r) m2); lia.
  - destruct (Z.eqb_spec r 0) as [->|Hr0]; [done|]. split; [lia|].
    assert (Z.odd m2 = true) as Hodd by (by rewrite <- Z.negb_even, Heven).
    apply Z.odd_spec in Hodd as [k Hk].
    destruct (Z.compare_spec (2 * r + 1) m2); lia.
Qed.

Lemma SFdiv_core_binary_correct (m1 m2 : positive) (e1 e2 : Z) :
  let v := IZR (Z.pos m1) * bpow e1 / (IZR (Z.pos m2) * bpow e2) in
  bpow (-1000) <= v <= bpow 1000 →
  ∃ (q : positive) (e : Z) (l : location),
    SFdiv_core_binary prec emax (Z.pos m1) e1 (Z.pos m2) e2 = (Z.pos q, e, l)
    ∧ inb v (Z.pos q) e l
    ∧ (53 <= Z.pos (digits2_pos q))%Z.
Proof.
  intros v Hv. unfold SFdiv_core_binary. cbn [Zdigits2].
  set (d1 := Z.pos (digits2_pos m1)). set (d2 := Z.pos (digits2_pos m2)).
  destruct (digits2_pos_spec m1) as [Hl1 Hu1]. destruct (digits2_pos_spec m2) as [Hl2 Hu2].
  destruct (digits2_pos_bpow m1) as [Hbl1 Hbu1]. destruct (digits2_pos_bpow m2) as [Hbl2 Hbu2].
  fold d1 in Hl1, Hu1, Hbl1, Hbu1. fold d2 in Hl2, Hu2, Hbl2, Hbu2.
  pose proof (bpow_gt_0 e1) as Hpe1. pose proof (bpow_gt_0 e2) as Hpe2.
  assert (0 < IZR (Z.pos m1)) as Hm1 by (by apply IZR_lt).
  assert (0 < IZR (Z.pos m2)) as Hm2 by (by apply IZR_lt).
  (* the quotient is not too small *)
  assert (-1001 < d1 + e1 - (d2 + e2))%Z as Hlow.
  { assert (bpow (-1000) < bpow (d1 + e1 - (d2 + e2) + 1)) as Hlt.
    { set (A := IZR (Z.pos m1) * bpow e1) in *. set (B := IZR (Z.pos m2) * bpow e2) in *.
      set (T := bpow (d1 + e1 - (d2 + e2) + 1)).
      assert (bpow d1 * bpow e1 = T * (bpow (d2 - 1) * bpow e2)) as HX.
      { unfold T. rewrite <- !bpow_plus. f_equal. lia. }
      pose proof (bpow_gt_0 (d2 - 1)) as Hpd2. pose proof (bpow_gt_0 d1) as Hpd1.
      assert (0 < T) as HT by apply bpow_gt_0.
      assert (0 < B) as HB by (unfold B; nra).
      assert (v * B = A) as HvB by (unfold v; field; lra).
      assert (A < bpow d1 * bpow e1) as HA by (unfold A; nra).
      assert (bpow (d2 - 1) * bpow e2 <= B) as HY by (unfold B; nra).
      assert (v * B < T * B) as Hlt by nra.
      assert (v < T) by nra. lra. }
    apply bpow_lt_inv in Hlt. lia. }
  set (e' := Z.min (fexp prec emax (d1 + e1 - (d2 + e2))) (e1 - e2)).
  assert (e' <= d1 + e1 - (d2 + e2) - 53 ∧ e' <= e1 - e2)%Z as [He'1 He'2].
  { unfold e', fexp, emin, prec, emax. lia. }
  set (s := (e1 - e2 - e')%Z).
  assert (0 <= s)%Z as Hs by (unfold s; lia).
  set (m' := match s with Z.pos _ => Z.shiftl (Z.pos m1) s | 0%Z => Z.pos m1
                     | Z.neg _ => 0%Z end).
  assert (m' = (Z.pos m1 * 2 ^ s)%Z) as Hm'.
  { unfold m'. destruct s as [|p|p]; [lia| |lia]. by rewrite Z.shiftl_mul_pow2. }
  clearbody m'.
  pose proof (Z_div_mod m' (Z.pos m2) ltac:(lia)) as Hdm.
  destruct (Z.div_eucl m' (Z.pos m2)) as [q r]. destruct Hdm as [Hdm Hr].
  pose proof (Z.pow_pos_nonneg 2 s ltac:(lia) Hs) as Hps.
  (* the quotient has 53 digits at least *)
  assert (2 ^ 52 <= q)%Z as Hq.
  { assert (2 ^ 52 * Z.pos m2 <= m')%Z as Hge.
    { assert (2 ^ (52 + d2) <= 2 ^ (d1 - 1 + s))%Z as Hpow
        by (apply Z.pow_le_mono_r; unfold s; lia).
      rewrite !Z.pow_add_r in Hpow by lia. rewrite Hm'. nia. }
    nia. }
  destruct q as [|q|q]; [lia| |lia].
  exists q, e', (new_location (Z.pos m2) r). split; [done|]. split.
  - assert (v = (IZR (Z.pos q) + IZR r / IZR (Z.pos m2)) * bpow e') as Hveq.
    { unfold v.
      assert (IZR (Z.pos m1) * bpow e1 = IZR m' * bpow e' * bpow e2) as ->.
      { rewrite Hm', mult_IZR, <- bpow_IZR by done.
        rewrite !Rmult_assoc, <- !bpow_plus. do 2 f_equal. unfold s. lia. }
      rewrite Hdm, plus_IZR, mult_IZR. field. lra. }
    pose proof (bpow_gt_0 e') as Hpe'.
    pose proof (new_location_correct (Z.pos m2) r Hr) as Hloc.
    assert (0 <= IZR r < IZR (Z.pos m2)) as Hrr.
    { split; [apply IZR_le | apply IZR_lt]; lia. }
    assert (∀ a b : Z, (2 * a < b)%Z → 2 * IZR a < IZR b) as Hlt2.
    { intros a b Hab. apply IZR_lt in Hab. by rewrite mult_IZR in Hab. }
    set (f := IZR r / IZR (Z.pos m2)) in *.
    assert (IZR r = f * IZR (Z.pos m2)) as Hf by (unfold f; field; lra).
    destruct (new_location (Z.pos m2) r) as [|c]; cbn [inb].
    + subst r. rewrite Hveq. unfold f. lra.
    + destruct Hloc as [Hr0 Hc]. apply IZR_lt in Hr0.
      assert (0 < f < 1) as Hf01 by (split; nra).
      split; [rewrite Hveq; nra|].
      destruct c.
      * apply (f_equal IZR) in Hc. rewrite mult_IZR in Hc.
        assert (f = / 2) as Hhalf by nra. rewrite Hveq, Hhalf. lra.
      * apply IZR_lt in Hc. rewrite mult_IZR in Hc.
        assert (f < / 2) as Hhalf by nra. rewrite Hveq. nra.
      * apply IZR_lt in Hc. rewrite mult_IZR in Hc.
        assert (/ 2 < f) as Hhalf by nra. rewrite Hveq. nra.
  - destruct (digits2_pos_spec q) as [_ Hu].
    assert (2 ^ 52 < 2 ^ Z.pos (digits2_pos q))%Z as Hlt by lia.
    apply (Z.pow_lt_mono_r_iff 2) in Hlt; lia.
Qed.

Lemma SFdiv_correct (sx sy : bool) (mx my : positive) (ex ey : Z) :
  let v := IZR (Z.pos mx) * bpow ex / (IZR (Z.pos my) * bpow ey) in
  bpow (-1000) <= v <= bpow 1000 →
  ∃ (m : positive) (e : Z),
    SFdiv prec emax (S754_finite sx mx ex) (S754_finite sy my ey)
    = S754_finite (xorb sx sy) m e
    ∧ valid_binary (S754_finite (xorb sx sy) m e) = true
    ∧ Rabs (IZR (Z.pos m) * bpow e - v) <= bpow (-53) * v
    ∧ Z.pos (digits2_pos m) = 53%Z.
Proof.
  intros v Hv. cbn [SFdiv].
  destruct (SFdiv_core_binary_correct mx my ex ey Hv) as (q & e' & l & -> & Hinb & Hd).
  fold v in Hinb.
  pose proof (bpow_gt_0 e') as Hpe'.
  assert (IZR (Z.pos q) * bpow e' <= v < (IZR (Z.pos q) + 1) * bpow e') as Hq.
  { destruct l as [|c]; cbn [inb] in Hinb; [rewrite Hinb|destruct Hinb as [Hinb _]]; lra. }
  destruct (digits2_pos_bpow q) as [Hdl Hdu].
  assert (-1000 < Z.pos (digits2_pos q) + e' <= 1001)%Z as [Hlo Hhi].
  { assert (IZR (Z.pos q) + 1 <= bpow (Z.pos (digits2_pos q))) as Hu'.
    { rewrite bpow_IZR in * by lia. rewrite <- plus_IZR. apply IZR_le.
      apply lt_IZR in Hdu. lia. }
    assert (bpow (-1000) < bpow (Z.pos (digits2_pos q) + e')) as H1
      by (rewrite bpow_plus; nra).
    assert (bpow (Z.pos (digits2_pos q) - 1 + e') < bpow 1001) as H2.
    { rewrite bpow_plus. pose proof (bpow_lt 1000 1001 ltac:(lia)). nra. }
    apply bpow_lt_inv in H1, H2. lia. }
  destruct (binary_round_aux_correct (xorb sx sy) q e' l v)
    as (m & e & -> & Hvalid & Herr & Hdm); [done | done | lia | lia |].
  by exists m, e.
Qed.

(** *** Primitive floats *)

Lemma vfin_Prim2SF (f : float) : finite (Prim2SF f) → vfin (Prim2SF f).
Proof. intros Hf. split; [done | apply Prim2SF_valid]. Qed.

Lemma frounds_SF2Prim (r : spec_float) (v : R) : rounds_to r v → frounds (SF2Prim r) v.
Proof.
  intros [[Hf Hv] He]. unfold frounds. by rewrite Prim2SF_SF2Prim.
Qed.

Lemma prim_sub (x y : float) :
  finite (Prim2SF x) → finite (Prim2SF y) → Rabs (FV x - FV y) < bpow 1023 →
  frounds (x - y) (FV x - FV y).
Proof.
  intros Hx Hy Hb. unfold frounds. rewrite sub_spec.
  apply SFsub_correct; [by apply vfin_Prim2SF | by apply vfin_Prim2SF | done].
Qed.

Lemma prim_add (x y : float) :
  finite (Prim2SF x) → finite (Prim2SF y) → Rabs (FV x + FV y) < bpow 1023 →
  frounds (x + y) (FV x + FV y).
Proof.
  intros Hx Hy Hb. unfold frounds. rewrite add_spec.
  apply SFadd_correct; [by apply vfin_Prim2SF | by apply vfin_Prim2SF | done].
Qed.

(** A float whose value is not tiny has all its 53 digits. *)
Lemma normal_of_value (s : bool) (m : positive) (e : Z) :
  valid_binary (S754_finite s m e) = true →
  bpow (-1000) <= IZR (Z.pos m) * bpow e →
  Z.pos (digits2_pos m) = 53%Z ∧ (-1053 < e)%Z.
Proof.
  intros Hvalid Hv. destruct (valid_exponent s m e Hvalid) as (He & Hd & Hn).
  destruct (digits2_pos_bpow m) as [_ Hu]. pose proof (bpow_gt_0 e).
  assert (bpow (-1000) < bpow (53 + e)) as Hlt.
  { rewrite bpow_plus. pose proof (bpow_le (Z.pos (digits2_pos m)) 53 Hd). nra. }
  apply bpow_lt_inv in Hlt. split; [apply Hn|]; lia.
Qed.

Lemma positive_float_finite (f : float) : positive_float f → finite (Prim2SF f).
Proof. intros (m & e & ->). done. Qed.

Lemma frounds_positive (f : float) (v : R) :
  frounds f v → 0 < v → positive_float f.
Proof.
  intros [[Hf Hvalid] Herr] Hv. unfold positive_float.
  rewrite (Rabs_pos_eq v) in Herr by lra.
  assert (bpow (-53) < 1) as Hu.
  { replace 1 with (bpow 0) by done. apply bpow_lt. lia. }
  assert (0 < SF2R (Prim2SF f)) as Hpos.
  { unfold Rabs in Herr. destruct Rcase_abs; nra. }
  destruct (Prim2SF f) as [s|s| |s m e]; try done; simpl SF2R in Hpos; try lra.
  destruct s; [|by eexists _, _].
  pose proof (bpow_gt_0 e). assert (0 < IZR (Z.pos m)) by (by apply IZR_lt). nra.
Qed.

Lemma prim_mul (x y : float) :
  finite (Prim2SF x) → positive_float y → bpow (-1000) <= FV y →
  FV x * FV y = 0 ∨ bpow (-1000) <= Rabs (FV x * FV y) <= bpow 1000 →
  frounds (x * y) (FV x * FV y).
Proof.
  intros Hx (my & ey & Hy) Hyv Hb. unfold frounds. rewrite mul_spec.
  apply SFmul_correct; [by apply vfin_Prim2SF | | | done].
  - apply vfin_Prim2SF. by rewrite Hy.
  - intros s m e Heq. rewrite Hy in Heq. injection Heq as <- <- <-.
    pose proof (Prim2SF_valid y) as Hvalid. rewrite Hy in Hvalid.
    apply (normal_of_value false my ey Hvalid).
    unfold FV in Hyv. rewrite Hy in Hyv. simpl SF2R in Hyv. lra.
Qed.

Lemma prim_div (x y : float) :
  positive_float x → positive_float y →
  bpow (-1000) <= FV x / FV y <= bpow 1000 →
  frounds (x / y) (FV x / FV y) ∧ positive_float (x / y).
Proof.
  intros (mx & ex & Hx) (my & ey & Hy) Hb.
  assert (FV x / FV y = IZR (Z.pos mx) * bpow ex / (IZR (Z.pos my) * bpow ey)) as Hval.
  { unfold FV. rewrite Hx, Hy. simpl SF2R. f_equal; lra. }
  rewrite Hval in *.
  destruct (SFdiv_correct false false mx my ex ey Hb) as (m & e & Hdiv & Hvalid & Herr & _).
  assert (Prim2SF (x / y) = S754_finite false m e) as Hr.
  { rewrite div_spec, Hx, Hy. exact Hdiv. }
  split; [|by exists m, e].
  unfold frounds. rewrite Hr.
  set (v := IZR (Z.pos mx) * bpow ex / (IZR (Z.pos my) * bpow ey)) in *.
  replace v with (sign_of false * v) by (unfold sign_of; lra).
  apply rounds_to_signed; [|done|done].
  pose proof (bpow_gt_0 (-1000)). lra.
Qed.

(** *** CPython's conversions and divisions *)

Lemma check_range_finite (f : float) : finite (Prim2SF f) → check_range f = Ok f.
Proof.
  intros Hf. unfold check_range, is_infinity.
  rewrite eqb_spec, abs_spec.
  change (Prim2SF PrimFloat.infinity) with (S754_infinity false).
  by destruct (Prim2SF f) as [s|s| |s m e].
Qed.

Lemma float_div_positive (x y : float) : positive_float y → float_div x y = Ok (x / y)%float.
Proof.
  intros (m & e & Hy). unfold float_div. rewrite eqb_spec, Hy.
  by change (Prim2SF PrimFloat.zero) with (S754_zero false).
Qed.

Lemma int_true_divide_correct (a b : Z) :
  (0 < a < 2 ^ 64)%Z → (0 < b < 2 ^ 64)%Z →
  ∃ f, int_true_divide a b = Ok f ∧ frounds f (IZR a / IZR b) ∧ positive_float f.
Proof.
  intros Ha Hb. unfold int_true_divide. rewrite decide_False by lia.
  destruct a as [|p|p]; [lia| |lia]. destruct b as [|q|q]; [lia| |lia]. cbn [sf_of_int].
  assert (1 <= IZR (Z.pos p) < bpow 64 ∧ 1 <= IZR (Z.pos q) < bpow 64) as [Hp Hq].
  { rewrite (bpow_IZR 64) by lia. split; (split; [apply IZR_le | apply IZR_lt]); lia. }
  assert (bpow (-1000) <= IZR (Z.pos p) * bpow 0 / (IZR (Z.pos q) * bpow 0) <= bpow 1000)
    as Hrange.
  { rewrite bpow_0, !Rmult_1_r.
    pose proof (bpow_le (-1000) (-64) ltac:(lia)). pose proof (bpow_le 64 1000 ltac:(lia)).
    assert (bpow (-64) * bpow 64 = 1) as H1 by (rewrite <- bpow_plus; done).
    pose proof (bpow_gt_0 (-64)). pose proof (bpow_gt_0 64).
    split.
    - apply Rle_trans with (bpow (-64)); [done|].
      apply (Rmult_le_reg_r (IZR (Z.pos q))); [lra|].
      replace (IZR (Z.pos p) / IZR (Z.pos q) * IZR (Z.pos q)) with (IZR (Z.pos p))
        by (field; lra). nra.
    - apply Rle_trans with (bpow 64); [|done].
      apply (Rmult_le_reg_r (IZR (Z.pos q))); [lra|].
      replace (IZR (Z.pos p) / IZR (Z.pos q) * IZR (Z.pos q)) with (IZR (Z.pos p))
        by (field; lra). nra. }
  destruct (SFdiv_correct false false p q 0 0 Hrange) as (m & e & -> & Hvalid & Herr & _).
  cbn [xorb] in *.
  assert (Prim2SF (SF2Prim (S754_finite false m e)) = S754_finite false m e) as Hr
    by (by apply Prim2SF_SF2Prim).
  exists (SF2Prim (S754_finite false m e)).
  split; [apply check_range_finite; by rewrite Hr|].
  split; [|by exists m, e].
  unfold frounds. rewrite Hr.
  rewrite bpow_0, !Rmult_1_r in Herr, Hrange.
  replace (IZR (Z.pos p) / IZR (Z.pos q)) with (sign_of false * (IZR (Z.pos p) / IZR (Z.pos q)))
    by (unfold sign_of; lra).
  apply rounds_to_signed; [|done|done].
  pose proof (bpow_gt_0 (-1000)). lra.
Qed.

Lemma float_of_int_correct (z : Z) :
  (0 <= z < 2 ^ 64)%Z →
  ∃ f, float_of_int z = Ok f ∧ frounds f (IZR z) ∧ ((0 < z)%Z → positive_float f).
Proof.
  intros Hz. unfold float_of_int.
  assert (rounds_to (binary_normalize prec emax z 0 false) (IZR z)) as Hr.
  { replace (IZR z) with (IZR z * bpow 0) by (rewrite bpow_0; lra).
    apply binary_normalize_correct; [lia|].
    rewrite bpow_0, Rmult_1_r, Rabs_pos_eq by (apply IZR_le; lia).
    apply Rlt_le_trans with (bpow 64); [|apply bpow_le; lia].
    rewrite bpow_IZR by lia. apply IZR_lt. lia. }
  apply frounds_SF2Prim in Hr.
  eexists. split; [apply check_range_finite; apply Hr|]. split; [done|].
  intros Hpos. apply (frounds_positive _ _ Hr). apply IZR_lt. lia.
Qed.

Lemma leb_tol (x : float) :
  finite (Prim2SF x) → Rabs (FV x) <= bpow (-30) →
  PrimFloat.leb (PrimFloat.abs x) 0x1p-30 = true.
Proof.
  intros Hf Hv. rewrite leb_spec, abs_spec.
  change (Prim2SF 0x1p-30) with (S754_finite false (2 ^ 52) (-82)).
  pose proof (Prim2SF_valid x) as Hvalid. unfold FV in Hv.
  destruct (Prim2SF x) as [s|s| |s m e]; try done.
  cbn [SFabs]. unfold SFleb, SFcompare.
  rewrite SF2R_finite, Rabs_mult in Hv.
  assert (Rabs (sign_of s) = 1) as Hs.
  { destruct s; unfold sign_of, Rabs; destruct Rcase_abs; lra. }
  pose proof (bpow_gt_0 e) as Hpe. assert (0 < IZR (Z.pos m)) as Hm by (by apply IZR_lt).
  rewrite Hs, Rmult_1_l, Rabs_pos_eq in Hv by nra.
  destruct (Z.compare_spec e (-82)) as [->|Hlt|Hgt]; [|done|].
  - assert (Z.pos m <= 2 ^ 52)%Z as Hle.
    { apply le_IZR. rewrite <- (bpow_IZR 52) by lia.
      assert (bpow (-30) = bpow 52 * bpow (-82)) as Heq by (rewrite <- bpow_plus; done).
      nra. }
    rewrite Pos.compare_cont_spec. cbn [Pos.switch_Eq].
    destruct (Pos.compare_spec m (2 ^ 52)) as [Hc|Hc|Hc]; [done|done|lia].
  - destruct (valid_exponent s m e Hvalid) as (_ & _ & Hn).
    specialize (Hn ltac:(lia)). destruct (digits2_pos_bpow m) as [Hl _].
    rewrite Hn in Hl. change (53 - 1)%Z with 52%Z in Hl.
    pose proof (bpow_le (-81) e ltac:(lia)).
    assert (bpow (-29) = bpow 52 * bpow (-81)) as Heq by (rewrite <- bpow_plus; done).
    pose proof (bpow_lt (-30) (-29) ltac:(lia)). pose proof (bpow_gt_0 52).
    pose proof (bpow_gt_0 (-81)). nra.
Qed.

(** *** Relative errors *)

Lemma u_value : u * 9007199254740992 = 1.
Proof.
  unfold u. change 9007199254740992 with (IZR (2 ^ 53)).
  rewrite <- (bpow_IZR 53), <- bpow_plus by lia. done.
Qed.

Lemma u_bounds : 0 < u < / 1000000.
Proof. pose proof u_value. split; nra. Qed.

Lemma rel_err (x y : R) :
  Rabs (x - y) <= u * Rabs y → ∃ δ, - u <= δ <= u ∧ x = y * (1 + δ).
Proof.
  intros Herr. pose proof u_bounds as Hu.
  destruct (Req_dec y 0) as [->|Hy].
  - rewrite Rabs_R0, Rmult_0_r, Rminus_0_r in Herr.
    pose proof (Rabs_pos x). exists 0.
    assert (x = 0) by (unfold Rabs in *; destruct Rcase_abs; lra). split; lra.
  - exists ((x - y) / y). split; [|field; done].
    assert (Rabs ((x - y) / y) <= u) as Hd.
    { unfold Rdiv. rewrite Rabs_mult, Rabs_inv.
      pose proof (Rabs_pos_lt y Hy).
      apply (Rmult_le_reg_r (Rabs y)); [done|].
      rewrite Rmult_assoc, Rinv_l by lra. lra. }
    unfold Rabs in Hd. destruct Rcase_abs; lra.
Qed.

Lemma frounds_rel (f : float) (v : R) :
  frounds f v → ∃ δ, - u <= δ <= u ∧ FV f = v * (1 + δ).
Proof. intros [_ Herr]. by apply rel_err. Qed.

Lemma prod_bound (x y A B : R) :
  - A <= x <= A → - B <= y <= B →
  - (A + B + A * B) <= (1 + x) * (1 + y) - 1 <= A + B + A * B.
Proof. intros Hx Hy. nra. Qed.

Lemma prod4_bound (d1 d2 d3 d4 : R) :
  - u <= d1 <= u → - u <= d2 <= u → - u <= d3 <= u → - u <= d4 <= u →
  - (43 / 10 * u) <= (1 + d1) * (1 + d2) * (1 + d3) * (1 + d4) - 1 <= 43 / 10 * u.
Proof.
  intros H1 H2 H3 H4. pose proof u_bounds as Hu.
  pose proof (prod_bound d1 d2 u u H1 H2) as P2.
  set (t2 := (1 + d1) * (1 + d2) - 1) in *.
  assert (- (21 / 10 * u) <= t2 <= 21 / 10 * u) as P2' by nra.
  pose proof (prod_bound t2 d3 _ u P2' H3) as P3.
  set (t3 := (1 + t2) * (1 + d3) - 1) in *.
  assert (- (32 / 10 * u) <= t3 <= 32 / 10 * u) as P3' by nra.
  pose proof (prod_bound t3 d4 _ u P3' H4) as P4.
  replace ((1 + d1) * (1 + d2) * (1 + d3) * (1 + d4) - 1)
    with ((1 + t3) * (1 + d4) - 1) by (unfold t3, t2; ring).
  nra.
Qed.

Lemma prod5_bound (d1 d2 d3 d4 d5 : R) :
  - u <= d1 <= u → - u <= d2 <= u → - u <= d3 <= u → - u <= d4 <= u → - u <= d5 <= u →
  - (54 / 10 * u) <= (1 + d1) * (1 + d2) * (1 + d3) * (1 + d4) * (1 + d5) - 1 <= 54 / 10 * u.
Proof.
  intros H1 H2 H3 H4 H5. pose proof u_bounds as Hu.
  pose proof (prod4_bound d1 d2 d3 d4 H1 H2 H3 H4) as P4.
  set (t4 := (1 + d1) * (1 + d2) * (1 + d3) * (1 + d4) - 1) in *.
  pose proof (prod_bound t4 d5 _ u P4 H5) as P5.
  replace ((1 + d1) * (1 + d2) * (1 + d3) * (1 + d4) * (1 + d5) - 1)
    with ((1 + t4) * (1 + d5) - 1) by (unfold t4; ring).
  nra.
Qed.

(** The error of one coordinate of the round trip, from the relative
    errors of the operations it is made of: [sg] is [-1] for the lower
    coordinate and [1] for the upper one. *)
Lemma coordinate_error (sg s d n z Vhx Vn Vc Vsz Vh2 Vt Vz Vfz Vdz : R)
    (d1 d2 d3 d4 d5 d6 d7 d8 dn : R) :
  sg = 1 ∨ sg = -1 →
  1 <= n <= 1048576 → 0 <= d → 0 <= s → z = (s + sg * d) / 2 → 0 <= z → (s + d) / 2 <= n →
  - u <= d1 <= u → - u <= d2 <= u → - u <= d3 <= u → - u <= d4 <= u →
  - u <= d5 <= u → - u <= d6 <= u → - u <= d7 <= u → - u <= d8 <= u → - u <= dn <= u →
  Vhx = s / 2 * (1 + d1) → Vn = n * (1 + dn) → Vc = Vhx / Vn * (1 + d2) →
  Vsz = d / n * (1 + d3) → Vh2 = Vsz / 2 * (1 + d4) → Vt = (Vc + sg * Vh2) * (1 + d5) →
  Vz = Vt * Vn * (1 + d6) → Vfz = z * (1 + d7) → Vdz = (Vz - Vfz) * (1 + d8) →
  - / 1073741824 <= Vdz <= / 1073741824.
Proof.
  intros Hsg Hn Hd Hs Hz Hz0 Hb H1 H2 H3 H4 H5 H6 H7 H8 Hdn.
  intros -> -> -> -> -> -> -> -> ->.
  pose proof u_bounds as Hu. pose proof u_value as Huv.
  pose proof (prod4_bound d1 d2 d5 d6 H1 H2 H5 H6) as PA.
  pose proof (prod5_bound d3 d4 dn d5 d6 H3 H4 Hdn H5 H6) as PB.
  set (al := (1 + d1) * (1 + d2) * (1 + d5) * (1 + d6) - 1) in *.
  set (be := (1 + d3) * (1 + d4) * (1 + dn) * (1 + d5) * (1 + d6) - 1) in *.
  assert ((s / 2 * (1 + d1) / (n * (1 + dn)) * (1 + d2)
           + sg * (d / n * (1 + d3) / 2 * (1 + d4))) * (1 + d5) * (n * (1 + dn)) * (1 + d6)
          = s / 2 * (1 + al) + sg * (d / 2) * (1 + be)) as ->.
  { unfold al, be. field. split; nra. }
  set (X := s / 2 * (1 + al) + sg * (d / 2) * (1 + be) - z * (1 + d7)).
  assert (- (64 / 10 * u * n) <= X <= 64 / 10 * u * n) as HX.
  { unfold X. rewrite Hz.
    assert (- (43 / 10 * u * (s / 2)) <= s / 2 * al <= 43 / 10 * u * (s / 2)) by nra.
    assert (- (54 / 10 * u * (d / 2)) <= d / 2 * be <= 54 / 10 * u * (d / 2)) by nra.
    assert (- (u * n) <= (s + sg * d) / 2 * d7 <= u * n).
    { assert (0 <= (s + sg * d) / 2 <= n) by (destruct Hsg as [-> | ->]; lra). nra. }
    destruct Hsg as [-> | ->]; nra. }
  assert (- (65 / 10 * u * n) <= X * (1 + d8) <= 65 / 10 * u * n) as HX8.
  { assert (0 <= u * n) by nra. nra. }
  assert (65 / 10 * u * n <= / 1073741824) as Hfin.
  { assert (u * n <= u * 1048576) by nra.
    assert (u * 1048576 * 8589934592 = 1) by nra. lra. }
  lra.
Qed.

Lemma bpow_small : bpow (-1000) <= / 1099511627776.
Proof.
  apply Rle_trans with (bpow (-40)); [apply bpow_le; lia|].
  change (-40)%Z with (Z.opp 40). rewrite bpow_opp, (bpow_IZR 40) by lia.
  apply Req_le. reflexivity.
Qed.

Lemma bpow_big : 1099511627776 * 1099511627776 <= bpow 1000.
Proof.
  apply Rle_trans with (bpow 80); [|apply bpow_le; lia].
  rewrite (bpow_IZR 80) by lia.
  change (2 ^ 80)%Z with (1099511627776 * 1099511627776)%Z. rewrite mult_IZR. lra.
Qed.

Lemma bpow_1023_big : 1099511627776 * 1099511627776 < bpow 1023.
Proof.
  apply Rle_lt_trans with (bpow 1000); [apply bpow_big | apply bpow_lt; lia].
Qed.

Lemma two_positive : positive_float 2 ∧ FV 2 = 2.
Proof.
  split.
  - exists (2 ^ 52)%positive, (-51)%Z. reflexivity.
  - unfold FV. change (Prim2SF 2) with (S754_finite false (2 ^ 52) (-51)).
    rewrite SF2R_finite. unfold sign_of.
    change (IZR (Z.pos (2 ^ 52))) with (IZR (2 ^ 52)).
    rewrite <- (bpow_IZR 52), <- bpow_plus by lia. change (52 + -51)%Z with 1%Z.
    rewrite bpow_1. lra.
Qed.

(** A float that is not small is a multiple of a power of two that is
    not small either. *)
Lemma float_multiple (f : float) (k : Z) :
  positive_float f → bpow k <= FV f → ∃ M : Z, FV f = IZR M * bpow (k - 53).
Proof.
  intros (m & e & Hf) Hv. unfold FV in *. rewrite Hf in *. simpl SF2R in *.
  rewrite Rmult_1_l in *.
  pose proof (Prim2SF_valid f) as Hvalid. rewrite Hf in Hvalid.
  destruct (valid_exponent false m e Hvalid) as (_ & Hd & _).
  destruct (digits2_pos_bpow m) as [_ Hu]. pose proof (bpow_gt_0 e).
  assert (bpow k < bpow (53 + e)) as Hlt.
  { rewrite bpow_plus. pose proof (bpow_le (Z.pos (digits2_pos m)) 53 Hd). nra. }
  apply bpow_lt_inv in Hlt.
  exists (Z.pos m * 2 ^ (e - (k - 53)))%Z.
  rewrite mult_IZR, <- bpow_IZR by lia. rewrite Rmult_assoc, <- bpow_plus.
  do 2 f_equal. lia.
Qed.

Lemma IZR_nonzero (M : Z) : IZR M ≠ 0 → 1 <= Rabs (IZR M).
Proof.
  intros HM. rewrite <- abs_IZR. apply IZR_le.
  assert (M ≠ 0%Z) by (intros ->; by apply HM). lia.
Qed.

Lemma quotient_bounds (x y xl xh yl yh : R) :
  0 < xl <= x → x <= xh → 0 < yl <= y → y <= yh →
  xl / yh <= x / y <= xh / yl.
Proof.
  intros Hxl Hxh Hyl Hyh.
  assert (x / y * y = x) as Hq by (field; lra).
  assert (xl / yh * yh = xl) as Hl by (field; lra).
  assert (xh / yl * yl = xh) as Hh by (field; lra).
  assert (0 < xl / yh) by (apply Rdiv_lt_0_compat; lra).
  assert (0 < xh / yl) by (apply Rdiv_lt_0_compat; lra).
  assert (0 < x / y) by (apply Rdiv_lt_0_compat; lra).
  split; nra.
Qed.

Lemma Rabs_bounds (x y : R) : Rabs x <= y → - y <= x <= y.
Proof. unfold Rabs. destruct Rcase_abs; lra. Qed.

Lemma rel_pos (v d lo hi : R) :
  0 <= lo <= v → v <= hi → - u <= d <= u →
  lo * (999 / 1000) <= v * (1 + d) <= hi * (1001 / 1000).
Proof. intros Hlo Hhi Hd. pose proof u_bounds. nra. Qed.

Lemma rel_abs (v d B : R) :
  - B <= v <= B → - u <= d <= u →
  - (B * (1001 / 1000)) <= v * (1 + d) <= B * (1001 / 1000).
Proof. intros Hv Hd. pose proof u_bounds. nra. Qed.

Lemma product_range (x y g X ly Y : R) :
  0 <= g <= Rabs x → Rabs x <= X → 0 < ly <= y → y <= Y →
  g * ly <= Rabs (x * y) <= X * Y.
Proof.
  intros Hg HX Hly HY. rewrite Rabs_mult, (Rabs_pos_eq y) by lra. nra.
Qed.

(** What the two coordinates of an axis have in common: the float of
    the image dimension, the size and the center as the converter
    computes them, and half the size. *)
Lemma axis_parts (a b n : Z) :
  (0 <= a < b)%Z → (b <= n)%Z → (n <= 2 ^ 20)%Z →
  ∃ (fn sz hx : float) (d1 d2 d3 d4 dn : R),
    float_of_int n = Ok fn ∧ int_true_divide (b - a) n = Ok sz
    ∧ int_true_divide (a + b) 2 = Ok hx ∧ float_div hx fn = Ok (hx / fn)%float
    ∧ positive_float fn ∧ positive_float (hx / fn) ∧ positive_float (sz / 2)
    ∧ - u <= d1 <= u ∧ - u <= d2 <= u ∧ - u <= d3 <= u ∧ - u <= d4 <= u ∧ - u <= dn <= u
    ∧ FV hx = IZR (a + b) / 2 * (1 + d1)
    ∧ FV fn = IZR n * (1 + dn)
    ∧ FV (hx / fn) = FV hx / FV fn * (1 + d2)
    ∧ FV sz = IZR (b - a) / IZR n * (1 + d3)
    ∧ FV (sz / 2) = FV sz / 2 * (1 + d4)
    ∧ / 2 <= FV fn <= 1100000
    ∧ / 8800000 <= FV (hx / fn) <= 4400000
    ∧ / 4800000 <= FV (sz / 2) <= 2.
Proof.
  intros Hab Hbn Hn.
  pose proof u_bounds as Hu. pose proof bpow_small as Hsm. pose proof bpow_big as Hbg.
  destruct (float_of_int_correct n ltac:(lia)) as (fn & Hfn & Rn & Pn).
  specialize (Pn ltac:(lia)).
  destruct (int_true_divide_correct (b - a) n ltac:(lia) ltac:(lia)) as (sz & Hsz & Rsz & Psz).
  destruct (int_true_divide_correct (a + b) 2 ltac:(lia) ltac:(lia)) as (hx & Hhx & Rhx & Phx).
  destruct (frounds_rel _ _ Rn) as (dn & Hdn & En).
  destruct (frounds_rel _ _ Rsz) as (d3 & Hd3 & E3).
  destruct (frounds_rel _ _ Rhx) as (d1 & Hd1 & E1).
  assert (1 <= IZR n <= 1048576) as HN.
  { split; [apply (IZR_le 1) | apply (IZR_le _ (2 ^ 20))]; lia. }
  assert (1 <= IZR (b - a) <= IZR n) as HD.
  { split; [apply (IZR_le 1) | apply IZR_le]; lia. }
  assert (1 <= IZR (a + b) <= 2 * IZR n) as HS.
  { split; [apply (IZR_le 1); lia|]. rewrite <- (mult_IZR 2). apply IZR_le. lia. }
  change (IZR 2) with 2 in *.
  (* the center *)
  assert (/ 4 <= FV hx <= 1100000) as Bhx.
  { rewrite E1. pose proof (rel_pos (IZR (a + b) / 2) d1 (/ 2) 1048576 ltac:(lra) ltac:(lra) Hd1).
    lra. }
  assert (/ 2 <= FV fn <= 1100000) as Bfn.
  { rewrite En. pose proof (rel_pos (IZR n) dn 1 1048576 ltac:(lra) ltac:(lra) Hdn). lra. }
  assert (/ 4 / 1100000 <= FV hx / FV fn <= 1100000 / (/ 2)) as Bc
    by (apply quotient_bounds; lra).
  destruct (prim_div hx fn Phx Pn) as [Rc Pc]; [lra|].
  destruct (frounds_rel _ _ Rc) as (d2 & Hd2 & E2).
  (* half the size *)
  assert (0 < IZR (b - a) / IZR n <= 1) as Bq.
  { assert (IZR (b - a) / IZR n * IZR n = IZR (b - a)) as Hq by (field; lra).
    assert (0 < IZR (b - a) / IZR n) by (apply Rdiv_lt_0_compat; lra).
    split; nra. }
  assert (/ 1100000 <= IZR (b - a) / IZR n) as Bq'.
  { assert (/ 1100000 = 1 / 1100000) as -> by lra.
    apply (quotient_bounds (IZR (b - a)) (IZR n) 1 (IZR n) 1 1100000); lra. }
  assert (/ 1200000 <= FV sz <= 2) as Bsz.
  { rewrite E3.
    pose proof (rel_pos (IZR (b - a) / IZR n) d3 (/ 1100000) 1 ltac:(lra) ltac:(lra) Hd3).
    lra. }
  destruct two_positive as [P2 V2].
  destruct (prim_div sz 2 Psz P2) as [Rh Ph]; [rewrite V2; lra|].
  destruct (frounds_rel _ _ Rh) as (d4 & Hd4 & E4). rewrite V2 in E4.
  exists fn, sz, hx, d1, d2, d3, d4, dn.
  split; [done|]. split; [done|]. split; [done|].
  split; [by apply float_div_positive|].
  assert (/ 8800000 <= FV (hx / fn) <= 4400000) as Bc'.
  { rewrite E2. assert (/ 4 / 1100000 = / 4400000) as Hc1 by lra.
    assert (1100000 / / 2 = 2200000) as Hc2 by lra. rewrite Hc1, Hc2 in Bc.
    pose proof (rel_pos (FV hx / FV fn) d2 (/ 4400000) 2200000 ltac:(lra) ltac:(lra) Hd2).
    lra. }
  assert (/ 4800000 <= FV (sz / 2) <= 2) as Bh.
  { rewrite E4.
    pose proof (rel_pos (FV sz / 2) d4 (/ 2400000) 1 ltac:(lra) ltac:(lra) Hd4). lra. }
  repeat split; done || lra.
Qed.

Lemma tol_value : bpow (-30) = / 1073741824.
Proof. change (-30)%Z with (Z.opp 30). rewrite bpow_opp, (bpow_IZR 30) by lia. reflexivity. Qed.

Lemma within_tol (x : float) :
  finite (Prim2SF x) → - / 1073741824 <= FV x <= / 1073741824 →
  PrimFloat.leb (PrimFloat.abs x) 0x1p-30 = true.
Proof.
  intros Hf Hv. apply leb_tol; [done|]. rewrite tol_value. by apply Rabs_le.
Qed.

(** One axis of the round trip, on an image of up to [2^20] pixels. *)
Lemma axis_round_trip_within64_correct (a b n : Z) :
  (0 <= a < b)%Z → (b <= n)%Z → (n <= 2 ^ 20)%Z →
  axis_round_trip_within64 0x1p-30 a b n = true.
Proof.
  intros Hab Hbn Hn.
  pose proof u_bounds as Hu. pose proof bpow_small as Hsm. pose proof bpow_big as Hbg.
  pose proof bpow_1023_big as Hbg'.
  destruct (axis_parts a b n Hab Hbn Hn)
    as (fn & sz & hx & d1 & d2 & d3 & d4 & dn & Hfn & Hsz & Hhx & Hdiv & Pn & Pc & Ph
        & Hd1 & Hd2 & Hd3 & Hd4 & Hdn & E1 & En & E2 & E3 & E4 & Bfn & Bc & Bh).
  destruct (float_of_int_correct a ltac:(lia)) as (fa & Hfa & Ra & _).
  destruct (float_of_int_correct b ltac:(lia)) as (fb & Hfb & Rb & _).
  destruct (frounds_rel _ _ Ra) as (d7 & Hd7 & E7).
  destruct (frounds_rel _ _ Rb) as (d7' & Hd7' & E7').
  unfold axis_round_trip_within64, axis_within64. rewrite Hfn, Hsz, Hhx, Hfa, Hfb, Hdiv.
  set (c := (hx / fn)%float) in *. set (h2 := (sz / 2)%float) in *.
  assert (1 <= IZR n <= 1048576) as HN.
  { split; [apply (IZR_le 1) | apply (IZR_le _ (2 ^ 20))]; lia. }
  assert (0 <= IZR a ∧ IZR a < IZR b ∧ IZR b <= IZR n) as (HA0 & HAB & HBN).
  { split; [apply (IZR_le 0); lia|]. split; [apply IZR_lt | apply IZR_le]; lia. }
  assert (IZR (a + b) = IZR a + IZR b) as HS by apply plus_IZR.
  assert (IZR (b - a) = IZR b - IZR a) as HD by apply minus_IZR.
  assert (- 1100000 <= FV fa <= 1100000 ∧ - 1100000 <= FV fb <= 1100000) as [Bfa Bfb].
  { rewrite E7, E7'.
    pose proof (rel_abs (IZR a) d7 1048576 ltac:(lra) Hd7).
    pose proof (rel_abs (IZR b) d7' 1048576 ltac:(lra) Hd7'). lra. }
  pose proof (positive_float_finite _ Pc) as Fc.
  pose proof (positive_float_finite _ Ph) as Fh.
  apply andb_true_intro. split.
  - (* the lower coordinate *)
    destruct (prim_sub c h2 Fc Fh) as [[Ft _] Rt].
    { apply Rle_lt_trans with 4400002; [apply Rabs_le; lra | lra]. }
    assert (frounds (c - h2) (FV c - FV h2)) as Rt' by (split; [by apply vfin_Prim2SF | done]).
    destruct (frounds_rel _ _ Rt') as (d5 & Hd5 & E5).
    set (t := (c - h2)%float) in *.
    assert (FV t * FV fn = 0
            ∨ bpow (-1000) <= Rabs (FV t * FV fn) <= bpow 1000) as Hprod.
    { destruct (float_multiple c (-40) Pc) as [M1 HM1].
      { apply Rle_trans with (/ 1099511627776); [|lra].
        change (-40)%Z with (Z.opp 40). rewrite bpow_opp, (bpow_IZR 40) by lia.
        apply Req_le. reflexivity. }
      destruct (float_multiple h2 (-40) Ph) as [M2 HM2].
      { apply Rle_trans with (/ 1099511627776); [|lra].
        change (-40)%Z with (Z.opp 40). rewrite bpow_opp, (bpow_IZR 40) by lia.
        apply Req_le. reflexivity. }
      change (-40 - 53)%Z with (-93)%Z in *.
      assert (FV c - FV h2 = IZR (M1 - M2) * bpow (-93)) as Hdiff
        by (rewrite minus_IZR, HM1, HM2; lra).
      destruct (Req_dec (IZR (M1 - M2)) 0) as [Hz|Hnz].
      - left. rewrite E5, Hdiff, Hz. lra.
      - right. pose proof (IZR_nonzero _ Hnz) as Hge.
        pose proof (bpow_gt_0 (-93)) as Hp93.
        assert (bpow (-93) <= Rabs (FV c - FV h2)) as Hgap.
        { rewrite Hdiff, Rabs_mult, (Rabs_pos_eq (bpow (-93))) by lra. nra. }
        assert (Rabs (FV c - FV h2) <= 4400002) as Hup by (apply Rabs_le; lra).
        assert (bpow (-1000) <= bpow (-93) / 4) as Hlow.
        { apply Rle_trans with (bpow (-95)); [apply bpow_le; lia|].
          replace (-93)%Z with (-95 + 1 + 1)%Z by lia. rewrite !bpow_succ. lra. }
        assert (bpow (-93) / 2 <= Rabs (FV t) <= 4400002 * 2) as Ht.
        { rewrite E5.
          pose proof (product_range (FV c - FV h2) (1 + d5) (bpow (-93)) 4400002 (/ 2) 2
                        ltac:(lra) Hup ltac:(lra) ltac:(lra)). lra. }
        pose proof (product_range (FV t) (FV fn) (bpow (-93) / 2) (4400002 * 2) (/ 2) 1100000
                      ltac:(lra) ltac:(lra) ltac:(lra) ltac:(lra)). lra. }
    destruct (prim_mul t fn Ft Pn) as [[Fz _] Rz]; [lra | done |].
    assert (frounds (t * fn) (FV t * FV fn)) as Rz' by (split; [by apply vfin_Prim2SF | done]).
    destruct (frounds_rel _ _ Rz') as (d6 & Hd6 & E6).
    assert (- 100000000000000 <= FV (t * fn)%float <= 100000000000000) as Bz.
    { rewrite E6.
      assert (Rabs (FV t * FV fn) <= 10000000 * 1100000) as Hp.
      { assert (Rabs (FV t) <= 10000000) as Ht.
        { rewrite E5. apply Rabs_le.
          pose proof (rel_abs (FV c - FV h2) d5 4400002 ltac:(lra) Hd5). lra. }
        pose proof (Rabs_pos (FV t)).
        pose proof (product_range (FV t) (FV fn) 0 10000000 (/ 2) 1100000
                      ltac:(lra) Ht ltac:(lra) ltac:(lra)). lra. }
      apply Rabs_bounds in Hp.
      pose proof (rel_abs (FV t * FV fn) d6 (10000000 * 1100000) Hp Hd6). lra. }
    destruct (prim_sub (t * fn) fa Fz (proj1 (proj1 Ra))) as [[Fd _] Rd].
    { apply Rle_lt_trans with 100000001100000; [apply Rabs_le; lra | lra]. }
    assert (frounds (t * fn - fa) (FV (t * fn)%float - FV fa)) as Rd'
      by (split; [by apply vfin_Prim2SF | done]).
    destruct (frounds_rel _ _ Rd') as (d8 & Hd8 & E8).
    apply within_tol; [done|].
    apply (coordinate_error (-1) (IZR (a + b)) (IZR (b - a)) (IZR n) (IZR a)
             (FV hx) (FV fn) (FV c) (FV sz) (FV h2) (FV t) (FV (t * fn)%float) (FV fa)
             (FV (t * fn - fa)%float) d1 d2 d3 d4 d5 d6 d7 d8 dn);
      done || lra.
  - (* the upper coordinate *)
    destruct (prim_add c h2 Fc Fh) as [[Ft _] Rt].
    { apply Rle_lt_trans with 4400002; [apply Rabs_le; lra | lra]. }
    assert (frounds (c + h2) (FV c + FV h2)) as Rt' by (split; [by apply vfin_Prim2SF | done]).
    destruct (frounds_rel _ _ Rt') as (d5 & Hd5 & E5).
    set (t := (c + h2)%float) in *.
    assert (/ 9000000 <= FV t <= 10000000) as Bt.
    { rewrite E5.
      pose proof (rel_pos (FV c + FV h2) d5 (/ 8800000) 4400002 ltac:(lra) ltac:(lra) Hd5).
      lra. }
    assert (/ 9000000 * / 2 <= Rabs (FV t * FV fn) <= 10000000 * 1100000) as Bp.
    { apply product_range; rewrite ?Rabs_pos_eq; lra. }
    assert (FV t * FV fn = 0
            ∨ bpow (-1000) <= Rabs (FV t * FV fn) <= bpow 1000) as Hprod.
    { right. lra. }
    destruct (prim_mul t fn Ft Pn) as [[Fz _] Rz]; [lra | done |].
    assert (frounds (t * fn) (FV t * FV fn)) as Rz' by (split; [by apply vfin_Prim2SF | done]).
    destruct (frounds_rel _ _ Rz') as (d6 & Hd6 & E6).
    assert (- 100000000000000 <= FV (t * fn)%float <= 100000000000000) as Bz.
    { rewrite E6. destruct Bp as [_ Hp]. apply Rabs_bounds in Hp.
      pose proof (rel_abs (FV t * FV fn) d6 (10000000 * 1100000) Hp Hd6). lra. }
    destruct (prim_sub (t * fn) fb Fz (proj1 (proj1 Rb))) as [[Fd _] Rd].
    { apply Rle_lt_trans with 100000001100000; [apply Rabs_le; lra | lra]. }
    assert (frounds (t * fn - fb) (FV (t * fn)%float - FV fb)) as Rd'
      by (split; [by apply vfin_Prim2SF | done]).
    destruct (frounds_rel _ _ Rd') as (d8 & Hd8 & E8).
    apply within_tol; [done|].
    apply (coordinate_error 1 (IZR (a + b)) (IZR (b - a)) (IZR n) (IZR b)
             (FV hx) (FV fn) (FV c) (FV sz) (FV h2) (FV t) (FV (t * fn)%float) (FV fb)
             (FV (t * fn - fb)%float) d1 d2 d3 d4 d5 d6 d7' d8 dn);
      done || lra.
Qed.

End Rounding.

Section RoundTrip.
Import CPython.
#[local] Existing Instance cpython.

(** The converter's transform on four ints: the conversions and
    divisions of CPython it comes down to. *)
Lemma to_center_box_ints (w h x1 y1 x2 y2 : Z) :
  to_center_box w h (JNum (PyInt x1)) (JNum (PyInt y1)) (JNum (PyInt x2)) (JNum (PyInt y2))
  = (hx ← int_true_divide (x1 + x2) 2;
     fw ← float_of_int w;
     xc ← float_div hx fw;
     hy ← int_true_divide (y1 + y2) 2;
     fh ← float_of_int h;
     yc ← float_div hy fh;
     wd ← int_true_divide (x2 - x1) w;
     ht ← int_true_divide (y2 - y1) h;
     Ok (CenterBox (PyFloat xc) (PyFloat yc) (PyFloat wd) (PyFloat ht))).
Proof.
  unfold to_center_box.
  cbn [py_add py_sub py_truediv as_number num_add num_sub num_truediv of_int cpython
       add sub truediv to_float mbind result_bind].
  destruct (int_true_divide (x1 + x2) 2) as [hx|e]; [|done].
  cbn [truediv to_float mbind result_bind].
  destruct (float_of_int w) as [fw|e]; [|done]. cbn [mbind result_bind].
  destruct (float_div hx fw) as [xc|e]; [|done]. cbn [mbind result_bind].
  destruct (int_true_divide (y1 + y2) 2) as [hy|e]; [|done].
  cbn [truediv to_float mbind result_bind].
  destruct (float_of_int h) as [fh|e]; [|done]. cbn [mbind result_bind].
  destruct (float_div hy fh) as [yc|e]; [|done]. cbn [mbind result_bind].
  destruct (int_true_divide (x2 - x1) w) as [wd|e]; [|done]. cbn [mbind result_bind].
  destruct (int_true_divide (y2 - y1) h) as [ht|e]; [|done]. done.
Qed.

Lemma axis_round_trip_within64_inv (tol : float) (a b n : Z) :
  axis_round_trip_within64 tol a b n = true →
  ∃ fn sz hx fa fb c,
    float_of_int n = Ok fn ∧ int_true_divide (b - a) n = Ok sz
    ∧ int_true_divide (a + b) 2 = Ok hx ∧ float_of_int a = Ok fa ∧ float_of_int b = Ok fb
    ∧ float_div hx fn = Ok c
    ∧ PrimFloat.leb (PrimFloat.abs ((c - sz / 2) * fn - fa)) tol = true
    ∧ PrimFloat.leb (PrimFloat.abs ((c + sz / 2) * fn - fb)) tol = true.
Proof.
  unfold axis_round_trip_within64, axis_within64.
  destruct (float_of_int n) as [fn|]; [|done].
  destruct (int_true_divide (b - a) n) as [sz|]; [|done].
  destruct (int_true_divide (a + b) 2) as [hx|]; [|done].
  destruct (float_of_int a) as [fa|]; [|done].
  destruct (float_of_int b) as [fb|]; [|done].
  destruct (float_div hx fn) as [c|] eqn:Hdiv; [|done].
  intros Hc. apply andb_prop in Hc as [H1 H2].
  exists fn, sz, hx, fa, fb, c. repeat split; done.
Qed.

(** The round trip of a box is that of its two axes. *)
Lemma round_trip_within64_axes (tol : float) (x1 y1 x2 y2 w h : Z) :
  axis_round_trip_within64 tol x1 x2 w = true →
  axis_round_trip_within64 tol y1 y2 h = true →
  (∃ xc yc wd ht : float,
     to_center_box w h (JNum (PyInt x1)) (JNum (PyInt y1)) (JNum (PyInt x2)) (JNum (PyInt y2))
     = Ok (CenterBox (PyFloat xc) (PyFloat yc) (PyFloat wd) (PyFloat ht)))
  ∧ round_trip_within64 tol x1 y1 x2 y2 w h = true.
Proof.
  intros Hx Hy.
  apply axis_round_trip_within64_inv in Hx
    as (fw & wd & hx & fx1 & fx2 & xc & Hfw & Hwd & Hhx & Hfx1 & Hfx2 & Hxc & Hx1 & Hx2).
  apply axis_round_trip_within64_inv in Hy
    as (fh & ht & hy & fy1 & fy2 & yc & Hfh & Hht & Hhy & Hfy1 & Hfy2 & Hyc & Hy1 & Hy2).
  assert (to_center_box w h (JNum (PyInt x1)) (JNum (PyInt y1)) (JNum (PyInt x2))
            (JNum (PyInt y2))
          = Ok (CenterBox (PyFloat xc) (PyFloat yc) (PyFloat wd) (PyFloat ht))) as Hb.
  { rewrite to_center_box_ints, Hhx, Hfw. cbn [mbind result_bind].
    rewrite Hxc, Hhy, Hfh. cbn [mbind result_bind].
    rewrite Hyc, Hwd, Hht. done. }
  split; [by exists xc, yc, wd, ht|].
  unfold round_trip_within64, round_trip64. rewrite Hb, Hfw, Hfh.
  cbn [box_x_center box_y_center box_width box_height spec_pixel_box64].
  unfold within64. rewrite Hfx1, Hfy1, Hfx2, Hfy2, Hx1, Hy1, Hx2, Hy2. done.
Qed.




End RoundTrip.

(** C3. An instance whose computed center-box has a value outside
    [[0, 1]] is dropped: it yields no label line, and the loop over the
    instances ends with the lines and the annotation counter it would
    have without that instance. *)
Theorem C3_out_of_range_dropped `{PyNum} (kvs : list (string * json)) (category : string)
    (class_id : Z) (x1 y1 x2 y2 : json) (b : center_box) (img_width img_height : Z)
    (key : string) (pre post : list (string * json)) (ya : list string) (ta : Z) :
  dict_get kvs "category_name" (JStr "") = JStr category →
  CATEGORY_MAPPING !! category = Some class_id →
  dict_get kvs "bounding_box" (JArr []) = JArr [x1; y1; x2; y2] →
  to_center_box img_width img_height x1 y1 x2 y2 = Ok b →
  Exists (λ v, (num_le (of_int 0) v && num_le v (of_int 1)) = false)
    [box_x_center b; box_y_center b; box_width b; box_height b] →
  process_instance img_width img_height (JObj kvs) = Ok None
  ∧ instances_loop img_width img_height (pre ++ (key, JObj kvs) :: post) ya ta
    = instances_loop img_width img_height (pre ++ post) ya ta.
Proof.
  intros Hc Hm Hb Hbox Hout.
  assert (process_instance img_width img_height (JObj kvs) = Ok None) as Hdrop.
  { rewrite (process_instance_box _ _ _ _ _ _ _ _ _ Hc Hm Hb), Hbox.
    change (Ok b ≫= _) with
      (if forallb in_unit (box_values b)
       then Ok (Some (label_line class_id b)) else @Ok (option string) None).
    destruct (forallb in_unit (box_values b)) eqn:Hall; [|done].
    rewrite forallb_forall in Hall. apply Exists_exists in Hout as (v & Hv & Hf).
    apply list_elem_of_In in Hv. apply Hall in Hv. unfold in_unit in Hv. congruence. }
  split; [done | by apply dropped_instance_skipped].
Qed.

Lemma C3_out_of_range_dropped_witness :
  @instances_loop CPython.cpython 200 400
    [("item1", JObj Scenario.wide_box_fields); ("item2", Scenario.item1)] [] 0
  = Ok (["0 0.300000 0.300000 0.500000 0.500000"], 1).
Proof.
  refine (eq_trans
            (proj2 (@C3_out_of_range_dropped CPython.cpython Scenario.wide_box_fields
                      "vest" 0
                      (@JNum CPython.cpython (CPython.PyInt 100))
                      (@JNum CPython.cpython (CPython.PyInt 100))
                      (@JNum CPython.cpython (CPython.PyInt 500))
                      (@JNum CPython.cpython (CPython.PyInt 300))
                      (@CenterBox CPython.cpython (CPython.PyFloat 1.5) (CPython.PyFloat 0.5)
                         (CPython.PyFloat 2) (CPython.PyFloat 0.5))
                      200 400 "item1" [] [("item2", Scenario.item1)] [] 0 _ _ _ _ _)) _).
  - reflexivity.
  - vm_compute. reflexivity.
  - reflexivity.
  - reflexivity.
  - apply Exists_cons_hd. vm_compute. reflexivity.
  - vm_compute. reflexivity.
Defined.

(** ** Label files and images *)



(** ** The manifest counters *)

Section ManifestCounts.
Context `{PyNum}.
Hypothesis fmt_6f_one_line : ∀ v : num, count_nl (fmt_6f v) = O.


End ManifestCounts.


(** ** The category table *)

(** C6. The class list has six names, with [shoes] at index 2 and
    [accessory] at index 5; every key of the table maps to an index of
    the class list, and never to 2 or 5; an instance whose category is a
    string outside the table is dropped without an exception, the loop
    going on as if the instance were absent; and no line the loop emits
    carries the class id 2 or 5. *)
Theorem C6_category_coverage :
  (length CLASSES = 6%nat ∧ CLASSES !! 2%nat = Some "shoes"
   ∧ CLASSES !! 5%nat = Some "accessory")
  ∧ map_Forall (λ _ class_id,
      0 ≤ class_id < Z.of_nat (length CLASSES) ∧ class_id ≠ 2 ∧ class_id ≠ 5)
      CATEGORY_MAPPING
  ∧ (∀ (N : PyNum) (kvs : list (string * json)) (category : string)
       (img_width img_height : Z) (key : string) (pre post : list (string * json))
       (ya : list string) (ta : Z),
       dict_get kvs "category_name" (JStr "") = JStr category →
       CATEGORY_MAPPING !! category = None →
       process_instance img_width img_height (JObj kvs) = Ok None
       ∧ instances_loop img_width img_height (pre ++ (key, JObj kvs) :: post) ya ta
         = instances_loop img_width img_height (pre ++ post) ya ta)
  ∧ (∀ (N : PyNum) (img_width img_height : Z) (items : list (string * json))
       (lines : list string) (ta ta' : Z),
       instances_loop img_width img_height items [] ta = Ok (lines, ta') →
       Forall (λ line,
         (∃ class_id b, line = label_line class_id b ∧ class_id ≠ 2 ∧ class_id ≠ 5)
         ∧ String.prefix "2 " line = false ∧ String.prefix "5 " line = false) lines).
Proof.
  split; [done|]. split; [|split].
  - intros k class_id Hk. apply mapping_values in Hk. simpl.
    set_unfold. lia.
  - intros N kvs category w h key pre post ya ta Hc Hm.
    assert (process_instance w h (JObj kvs) = Ok None) as Hdrop.
    { unfold process_instance. simpl. rewrite Hc. simpl. by rewrite Hm. }
    split; [done | by apply dropped_instance_skipped].
  - intros N w h items lines ta ta' Hloop.
    rewrite instances_loop_emitted in Hloop.
    apply bind_ok in Hloop as (ls & Hls & [= <- _]). simpl.
    eapply emitted_lines_Forall; [|done].
    intros d line Hline. apply process_instance_line in Hline as (class_id & b & Hin & ->).
    split.
    + exists class_id, b. set_unfold. lia.
    + set_unfold. destruct Hin as [->|[->|[->|[->|[]]]]]; done.
Qed.

Lemma C6_category_coverage_witness :
  @process_instance CPython.cpython 200 400 (JObj Scenario.bag_fields) = Ok None.
Proof.
  refine (proj1 (proj1 (proj2 (proj2 C6_category_coverage)) CPython.cpython
                   Scenario.bag_fields "bag" 200 400 "item1" [] [] [] 0 _ _)).
  - reflexivity.
  - vm_compute. reflexivity.
Defined.

(** ** Malformed instances *)

(** C7, as stated, fails: a [bounding_box] of four strings does not
    consist of four numeric values, yet the instance is not dropped;
    the arithmetic raises [TypeError], and the instance after it is
    never processed. *)
Lemma C7_non_numeric_box_raises :
  @dict_get CPython.cpython Scenario.text_box_fields "bounding_box" (JArr [])
  = JArr [JStr "10"; JStr "20"; JStr "110"; JStr "220"]
  ∧ @process_instance CPython.cpython 200 400 Scenario.text_box = Raise TypeError
  ∧ @instances_loop CPython.cpython 200 400
      [("item1", Scenario.text_box); ("item2", Scenario.item1)] [] 0 = Raise TypeError.
Proof. split; [reflexivity|]. split; vm_compute; reflexivity. Qed.

(** C7, amended. An instance whose [bounding_box] (the empty list when
    the key is absent) has a length other than 4 is dropped: no label
    line, no exception, and the loop goes on as if the instance were
    absent. *)
Theorem C7_wrong_length_box_dropped `{PyNum} (kvs : list (string * json))
    (hit : option Z) (n : nat) (img_width img_height : Z)
    (key : string) (pre post : list (string * json)) (ya : list string) (ta : Z) :
  mapping_lookup (dict_get kvs "category_name" (JStr "")) = Ok hit →
  py_len (dict_get kvs "bounding_box" (JArr [])) = Ok n →
  n ≠ 4%nat →
  process_instance img_width img_height (JObj kvs) = Ok None
  ∧ instances_loop img_width img_height (pre ++ (key, JObj kvs) :: post) ya ta
    = instances_loop img_width img_height (pre ++ post) ya ta.
Proof.
  intros Hhit Hlen Hn.
  assert (process_instance img_width img_height (JObj kvs) = Ok None) as Hdrop.
  { unfold process_instance. simpl. rewrite Hhit. simpl.
    destruct hit; [|done]. rewrite Hlen. simpl. by case_decide. }
  split; [done | by apply dropped_instance_skipped].
Qed.

Lemma C7_wrong_length_box_dropped_witness :
  @instances_loop CPython.cpython 200 400
    [("item1", JObj Scenario.short_box_fields); ("item2", Scenario.item1)] [] 0
  = Ok (["0 0.300000 0.300000 0.500000 0.500000"], 1).
Proof.
  refine (eq_trans
            (proj2 (@C7_wrong_length_box_dropped CPython.cpython Scenario.short_box_fields
                      (Some 1) 3%nat 200 400
                      "item1" [] [("item2", Scenario.item1)] [] 0 _ _ _)) _).
  - vm_compute. reflexivity.
  - vm_compute. reflexivity.
  - lia.
  - vm_compute. reflexivity.
Defined.

(** ** A source path that does not exist *)

(** C8. When neither split has an [annos] folder, the run raises no
    exception: it prints one warning per split, writes no file but the
    manifest, and the manifest reports zero images and zero
    annotations. *)
Theorem C8_missing_source_degenerate_run `{PyNum} (src : dataset)
    (source_dir output_dir abs_output : string) (w : world) :
  annos (train_tree src) = None →
  annos (validation_tree src) = None →
  ∃ w' : world,
    convert_deepfashion2_to_yolo src source_dir output_dir abs_output w = (w', None)
    ∧ files w' = <[manifest_path output_dir := yaml_content abs_output 0 0]> (files w)
    ∧ (∃ preamble : string,
         yaml_content abs_output 0 0
         = preamble +:+ "# Total images: 0" +:+ nl +:+ "# Total annotations: 0" +:+ nl)
    ∧ stdout w' = (stdout w ++
        ["Converting DeepFashion2 from " +:+ source_dir +:+ " to YOLO format...";
         "Warning: " +:+ source_dir +:+ "/train/annos not found, skipping train split";
         "Warning: " +:+ source_dir
           +:+ "/validation/annos not found, skipping validation split";
         nl +:+ "✅ Conversion complete!";
         "   - Total images: 0";
         "   - Total annotations: 0";
         "   - Output directory: " +:+ output_dir;
         "   - data.yaml created"])%list.
Proof.
  intros Htrain Hval.
  unfold convert_deepfashion2_to_yolo, splits_loop, process_split, tree_of.
  rewrite !decide_True by done. rewrite decide_False by done.
  rewrite Htrain, Hval.
  eexists. split; [reflexivity|].
  cbn [out total_images total_annotations].
  rewrite !files_print, files_write_file, !files_print, !files_makedirs, files_print.
  rewrite !stdout_print, stdout_write_file, !stdout_print, !stdout_makedirs, stdout_print.
  split; [reflexivity|]. split.
  - exists (yaml_head abs_output). apply yaml_content_counts.
  - unfold anno_dir_of. rewrite <- !app_assoc, !append_assoc. reflexivity.
Qed.

Lemma C8_missing_source_degenerate_run_witness :
  ∃ w' : world,
    @convert_deepfashion2_to_yolo CPython.cpython Scenario.missing_source
      "./deepfashion2" "./deepfashion2_yolo" "/data/deepfashion2_yolo" empty_world
    = (w', None)
    ∧ files w' = {[ "./deepfashion2_yolo/data.yaml" := yaml_content "/data/deepfashion2_yolo" 0 0 ]}.
Proof.
  destruct (@C8_missing_source_degenerate_run CPython.cpython Scenario.missing_source
              "./deepfashion2" "./deepfashion2_yolo" "/data/deepfashion2_yolo" empty_world
              eq_refl eq_refl) as (w' & Hrun & Hfiles & _).
  exists w'. split; [exact Hrun | exact Hfiles].
Defined.

(** ** Runs on the same inputs *)





(** C10. An instance without a [category_name] key is looked up as the
    empty string, which is not in the table: it is dropped without an
    exception, and the loop goes on as if the instance were absent. *)
Theorem C10_missing_category_dropped `{PyNum} (kvs : list (string * json))
    (img_width img_height : Z)
    (key : string) (pre post : list (string * json)) (ya : list string) (ta : Z) :
  "category_name" ∉ kvs.*1 →
  py_get (JObj kvs) "category_name" (JStr "") = Ok (JStr "")
  ∧ CATEGORY_MAPPING !! "" = None
  ∧ process_instance img_width img_height (JObj kvs) = Ok None
  ∧ instances_loop img_width img_height (pre ++ (key, JObj kvs) :: post) ya ta
    = instances_loop img_width img_height (pre ++ post) ya ta.
Proof.
  intros Habs.
  assert (dict_get kvs "category_name" (JStr "") = JStr "") as Hget
    by by apply dict_get_absent.
  assert (process_instance img_width img_height (JObj kvs) = Ok None) as Hdrop.
  { unfold process_instance. simpl. by rewrite Hget. }
  split; [simpl; by rewrite Hget|]. split; [done|].
  split; [done | by apply dropped_instance_skipped].
Qed.

Lemma C10_missing_category_dropped_witness :
  @process_instance CPython.cpython 200 400 (JObj Scenario.no_category_fields) = Ok None.
Proof.
  refine (proj1 (proj2 (proj2 (@C10_missing_category_dropped CPython.cpython
                                 Scenario.no_category_fields 200 400
                                 "item1" [] [] [] 0 _)))).
  unfold Scenario.no_category_fields. simpl.
  rewrite list_elem_of_singleton. discriminate.
Defined.

(** * Further properties *)

(** ** A run, whatever its outcome *)

Lemma dirs_print msg w : dirs (print msg w) = dirs w.
Proof. done. Qed.
Lemma dirs_write_file p c w : dirs (write_file p c w) = dirs w.
Proof. done. Qed.
Lemma dirs_makedirs p w : dirs (makedirs p w) = mkdirs p (dirs w).
Proof. done. Qed.

(** ** The folders *)

Lemma append_empty_r (s : string) : s +:+ "" = s.
Proof. induction s as [|c s IH]; simpl; [done | by rewrite IH]. Qed.

Lemma cut_last_append (p head tail : string) : cut_last p = (head, tail) → p = head +:+ tail.
Proof.
  revert head tail. induction p as [|c p IH]; intros head tail; simpl.
  - by intros [= <- <-].
  - destruct (cut_last p) as [h t]. specialize (IH h t eq_refl). subst p.
    destruct (Ascii.eqb c "/"); [by intros [= <- <-]|].
    case_decide as Hh; intros [= <- <-]; [by subst h | done].
Qed.

Lemma rstrip_sep_prefix (s : string) : ∃ rest, s = rstrip_sep s +:+ rest.
Proof.
  induction s as [|c s [rest IH]]; simpl; [by exists ""|].
  destruct (Ascii.eqb c "/" && bool_decide (rstrip_sep s = "")).
  - by eexists.
  - exists rest. simpl. by rewrite <- IH.
Qed.

(** The head that [os.path.split] returns is an initial part of the
    path, and head and tail are no longer than the path. *)
Lemma path_split_prefix (p head tail : string) :
  path_split p = (head, tail) →
  (∃ rest, p = head +:+ rest)
  ∧ (String.length head + String.length tail ≤ String.length p)%nat.
Proof.
  unfold path_split. destruct (cut_last p) as [h t] eqn:Hc.
  apply cut_last_append in Hc as ->. rewrite length_append.
  case_decide as Hs; intros [= <- <-].
  - split; [by exists t | lia].
  - destruct (rstrip_sep_prefix h) as [rest Hr]. split.
    + exists (rest +:+ t). rewrite <- append_assoc. by rewrite <- Hr.
    + apply (f_equal String.length) in Hr. rewrite length_append in Hr. lia.
Qed.

Lemma makedirs_split_prefix (name head tail : string) :
  makedirs_split name = (head, tail) →
  (∃ rest, name = head +:+ rest)
  ∧ (tail ≠ "" → String.length head < String.length name)%nat.
Proof.
  unfold makedirs_split. destruct (path_split name) as [h1 t1] eqn:H1.
  apply path_split_prefix in H1 as [[r1 ->] Hl1]. rewrite length_append in *.
  case_decide as Ht.
  - intros H2. apply path_split_prefix in H2 as [[r2 ->] Hl2]. rewrite length_append in *.
    split.
    + exists (r2 +:+ r1). by rewrite append_assoc.
    + intros Hne. destruct tail; [done|]. simpl in Hl2. lia.
  - intros [= <- <-]. split; [by exists r1|].
    intros _. destruct t1; [done|]. simpl in Hl1. lia.
Qed.

Lemma made_dirs_step (fuel : nat) (name : string) (ds : gset string) :
  made_dirs (S fuel) name ds
  = let '(head, tail) := makedirs_split name in
    if decide (head ≠ "" ∧ tail ≠ "" ∧ head ∉ ds) then
      let ds := made_dirs fuel head ds in
      if decide (tail = ".") then ds else {[name]} ∪ ds
    else {[name]} ∪ ds.
Proof. done. Qed.

(** The recursion of [os.makedirs] ends: the head is shorter than the
    path, so that more fuel than the length of the path changes nothing. *)
Lemma made_dirs_empty (k : nat) (ds : gset string) : made_dirs k "" ds = {[""]} ∪ ds.
Proof.
  destruct k; [done|]. rewrite made_dirs_step.
  change (makedirs_split "") with ("", ""). cbv beta iota.
  case_decide as Hc; [by destruct Hc as [[] _] | done].
Qed.

Lemma made_dirs_fuel (k k' : nat) (name : string) (ds : gset string) :
  (String.length name ≤ k)%nat → (String.length name ≤ k')%nat →
  made_dirs k name ds = made_dirs k' name ds.
Proof.
  revert k' name. induction k as [|k IH]; intros k' name Hk Hk'.
  - destruct name; [|simpl in Hk; lia]. by rewrite !made_dirs_empty.
  - destruct k' as [|k'].
    { destruct name; [|simpl in Hk'; lia]. by rewrite !made_dirs_empty. }
    rewrite !made_dirs_step. destruct (makedirs_split name) as [head tail] eqn:Hs.
    apply makedirs_split_prefix in Hs as [_ Hlen].
    case_decide as Hc; [|done]. destruct Hc as (_ & Ht & _). specialize (Hlen Ht).
    by rewrite (IH k' head) by lia.
Qed.

(** [os.makedirs] as the library writes it: on the head first when it
    is missing, then the directory itself. *)
Lemma mkdirs_unfold (name : string) (ds : gset string) :
  mkdirs name ds
  = let '(head, tail) := makedirs_split name in
    if decide (head ≠ "" ∧ tail ≠ "" ∧ head ∉ ds) then
      let ds := mkdirs head ds in
      if decide (tail = ".") then ds else {[name]} ∪ ds
    else {[name]} ∪ ds.
Proof.
  unfold mkdirs. destruct name as [|c name].
  - change (makedirs_split "") with ("", ""). cbv beta iota.
    rewrite decide_False by (by intros [[] _]). by rewrite made_dirs_empty.
  - cbn [String.length]. rewrite made_dirs_step.
    destruct (makedirs_split (String c name)) as [head tail] eqn:Hs.
    apply makedirs_split_prefix in Hs as [_ Hlen].
    case_decide as Hc; [|done]. destruct Hc as (_ & Ht & _). specialize (Hlen Ht).
    simpl in Hlen. by rewrite (made_dirs_fuel (String.length name) (String.length head)) by lia.
Qed.

(** No directory is lost. *)
Lemma mkdirs_subseteq (name : string) (ds : gset string) : ds ⊆ mkdirs name ds.
Proof.
  unfold mkdirs. generalize (String.length name) as k. intros k. revert name.
  induction k as [|k IH]; intros name.
  - simpl. apply union_subseteq_r.
  - rewrite made_dirs_step. destruct (makedirs_split name) as [head tail].
    case_decide; [|apply union_subseteq_r].
    case_decide; [apply IH|].
    etrans; [apply (IH head) | apply union_subseteq_r].
Qed.

(** Every directory made is an initial part of the path asked for. *)
Lemma mkdirs_new (name d : string) (ds : gset string) :
  d ∈ mkdirs name ds → d ∈ ds ∨ ∃ rest, name = d +:+ rest.
Proof.
  unfold mkdirs. generalize (String.length name) as k. intros k. revert name.
  induction k as [|k IH]; intros name.
  - simpl. rewrite elem_of_union, elem_of_singleton. intros [->|Hd]; [|by left].
    right. exists "". by rewrite append_empty_r.
  - rewrite made_dirs_step. destruct (makedirs_split name) as [head tail] eqn:Hs.
    apply makedirs_split_prefix in Hs as [[r ->] _].
    assert (d ∈ made_dirs k head ds → d ∈ ds ∨ ∃ rest, head +:+ r = d +:+ rest) as Hrec.
    { intros Hd. apply IH in Hd as [Hd|[rest ->]]; [by left|].
      right. exists (rest +:+ r). by rewrite append_assoc. }
    assert (d ∈ ({[head +:+ r]} : gset string) → ∃ rest, head +:+ r = d +:+ rest) as Hself.
    { rewrite elem_of_singleton. intros ->. exists "". by rewrite append_empty_r. }
    case_decide.
    + case_decide; [done|]. rewrite elem_of_union. intros [Hd|Hd]; [right|]; auto.
    + rewrite elem_of_union. intros [Hd|Hd]; [right|left]; auto.
Qed.

(** The directory asked for is there afterwards, unless the path ends
    with the component [.] *)
Lemma mkdirs_self (name : string) (ds : gset string) :
  (makedirs_split name).2 ≠ "." → name ∈ mkdirs name ds.
Proof.
  rewrite mkdirs_unfold. destruct (makedirs_split name) as [head tail]. simpl. intros Ht.
  case_decide; [rewrite decide_False by done|]; apply elem_of_union_l; by apply elem_of_singleton.
Qed.

(** The parent of the directory asked for is there afterwards. *)
Lemma mkdirs_parent (name head tail : string) (ds : gset string) :
  makedirs_split name = (head, tail) →
  head ≠ "" → tail ≠ "" → (makedirs_split head).2 ≠ "." → head ∈ mkdirs name ds.
Proof.
  rewrite mkdirs_unfold. intros -> Hh Ht Hp.
  assert (head ∈ mkdirs head ds ∨ head ∈ ds) as Hin.
  { destruct (decide (head ∈ ds)); [by right | left; by apply mkdirs_self]. }
  case_decide as Hc.
  - destruct Hin as [Hin|Hin]; [|by destruct Hc as (_ & _ & [])].
    case_decide; [done | by apply elem_of_union_r].
  - apply elem_of_union_r. destruct Hin as [Hin|Hin]; [|done].
    destruct (decide (head ∈ ds)); [done|]. by destruct Hc.
Qed.

Lemma cut_last_app (s sfx head tail : string) :
  cut_last sfx = (head, tail) → head ≠ "" → cut_last (s +:+ sfx) = (s +:+ head, tail).
Proof.
  intros Hc Hh. induction s as [|c s IH]; simpl; [done|]. rewrite IH.
  destruct (Ascii.eqb c "/"); [done|].
  case_decide as He; [|done]. destruct s; [done | discriminate].
Qed.

Lemma rstrip_sep_app (s sfx : string) :
  rstrip_sep sfx ≠ "" → rstrip_sep (s +:+ sfx) = s +:+ rstrip_sep sfx.
Proof.
  intros Hs. induction s as [|c s IH]; simpl; [done|]. rewrite IH.
  rewrite bool_decide_eq_false_2, andb_false_r; [done|].
  intros He. destruct s; [done | discriminate].
Qed.

(** The split of a path that ends with two components [/a/b]. *)
Lemma path_split_app (s sfx head tail : string) :
  cut_last sfx = (head, tail) → rstrip_sep head ≠ "" →
  path_split (s +:+ sfx) = (s +:+ rstrip_sep head, tail).
Proof.
  intros Hc Hr. unfold path_split.
  assert (head ≠ "") as Hh by (by intros ->).
  rewrite (cut_last_app _ _ _ _ Hc Hh), rstrip_sep_app by done.
  rewrite decide_False; [done|]. intros He. destruct s; [done | discriminate].
Qed.

Lemma path_split_tail (s sfx head tail : string) :
  cut_last sfx = (head, tail) → head ≠ "" → (path_split (s +:+ sfx)).2 = tail.
Proof. intros Hc Hh. unfold path_split. by rewrite (cut_last_app _ _ _ _ Hc Hh). Qed.

Lemma leaf_split (od a b : string) :
  a ≠ "" → b ≠ "" → cut_last ("/" +:+ a +:+ "/" +:+ b) = ("/" +:+ a +:+ "/", b) →
  rstrip_sep ("/" +:+ a +:+ "/") = "/" +:+ a →
  makedirs_split (od +:+ "/" +:+ a +:+ "/" +:+ b) = (od +:+ "/" +:+ a, b).
Proof.
  intros Ha Hb Hc Hr. unfold makedirs_split.
  rewrite (path_split_app od _ _ _ Hc) by (rewrite Hr; by destruct a).
  rewrite Hr. by rewrite decide_False.
Qed.

Lemma leaf_dirs_split (od leaf : string) :
  leaf ∈ leaf_dirs od →
  ∃ a b, (a = "images" ∨ a = "labels") ∧ (b = "train" ∨ b = "val")
         ∧ leaf = od +:+ "/" +:+ a +:+ "/" +:+ b
         ∧ makedirs_split leaf = (od +:+ "/" +:+ a, b).
Proof.
  unfold leaf_dirs. rewrite !elem_of_cons, elem_of_nil.
  intros [->|[->|[->|[->|[]]]]].
  - exists "images", "train". do 2 (split; [tauto|]). split; [done|].
    by apply (leaf_split od "images" "train").
  - exists "images", "val". do 2 (split; [tauto|]). split; [done|].
    by apply (leaf_split od "images" "val").
  - exists "labels", "train". do 2 (split; [tauto|]). split; [done|].
    by apply (leaf_split od "labels" "train").
  - exists "labels", "val". do 2 (split; [tauto|]). split; [done|].
    by apply (leaf_split od "labels" "val").
Qed.

Lemma parent_split_tail (od a : string) :
  a = "images" ∨ a = "labels" → (makedirs_split (od +:+ "/" +:+ a)).2 = a.
Proof.
  intros Ha. unfold makedirs_split.
  assert (cut_last ("/" +:+ a) = ("/", a)) as Hc by (by destruct Ha as [->| ->]).
  pose proof (path_split_tail od _ _ _ Hc ltac:(done)) as Ht.
  destruct (path_split (od +:+ "/" +:+ a)) as [h t]. simpl in Ht. subst t.
  rewrite decide_False; [done|]. by destruct Ha as [->| ->].
Qed.

(** The directories that are there after the four calls of lines 39 to
    42: those that were, the four folders and the two above them; and
    every other directory made is an initial part of the path of one of
    the four. *)
Lemma output_dirs_subseteq (od : string) (ds : gset string) : ds ⊆ output_dirs od ds.
Proof. unfold output_dirs. repeat (etrans; [|apply mkdirs_subseteq]). done. Qed.

Lemma mkdirs_leaf (od leaf : string) (ds : gset string) :
  leaf ∈ leaf_dirs od →
  leaf ∈ mkdirs leaf ds
  ∧ ∀ a, (a = "images" ∨ a = "labels") → (∃ b, leaf = od +:+ "/" +:+ a +:+ "/" +:+ b) →
         od +:+ "/" +:+ a ∈ mkdirs leaf ds.
Proof.
  intros Hl. apply leaf_dirs_split in Hl as (a & b & Ha & Hb & -> & Hs). split.
  - apply mkdirs_self. rewrite Hs. simpl. by destruct Hb as [->| ->].
  - intros a' Ha' [b' Heq].
    assert (a' = a) as ->.
    { apply (inj (String.append od)) in Heq.
      destruct Ha as [->| ->], Ha' as [->| ->]; simpl in Heq; done. }
    apply (mkdirs_parent _ _ _ _ Hs).
    + intros He. destruct od; discriminate.
    + by destruct Hb as [->| ->].
    + rewrite (parent_split_tail od a Ha). by destruct Ha as [->| ->].
Qed.

Lemma output_dirs_made (od d : string) (ds : gset string) :
  d ∈ (leaf_dirs od ++ [od +:+ "/images"; od +:+ "/labels"])%list → d ∈ output_dirs od ds.
Proof.
  unfold output_dirs.
  set (l1 := od +:+ "/images/train"). set (l2 := od +:+ "/images/val").
  set (l3 := od +:+ "/labels/train"). set (l4 := od +:+ "/labels/val").
  assert (l1 ∈ leaf_dirs od) as H1 by (unfold leaf_dirs; rewrite !elem_of_cons; tauto).
  assert (l2 ∈ leaf_dirs od) as H2 by (unfold leaf_dirs; rewrite !elem_of_cons; tauto).
  assert (l3 ∈ leaf_dirs od) as H3 by (unfold leaf_dirs; rewrite !elem_of_cons; tauto).
  assert (l4 ∈ leaf_dirs od) as H4 by (unfold leaf_dirs; rewrite !elem_of_cons; tauto).
  pose proof (λ ds, mkdirs_leaf od l1 ds H1) as M1.
  pose proof (λ ds, mkdirs_leaf od l3 ds H3) as M3.
  pose proof (λ ds, proj1 (mkdirs_leaf od l2 ds H2)) as M2.
  pose proof (λ ds, proj1 (mkdirs_leaf od l4 ds H4)) as M4.
  pose proof (λ n ds, mkdirs_subseteq n ds) as Hsub.
  unfold leaf_dirs. fold l1 l2 l3 l4. rewrite elem_of_app, !elem_of_cons, !elem_of_nil.
  intros [[->|[->|[->|[->|[]]]]]|[->|[->|[]]]].
  - do 3 apply Hsub. apply (proj1 (M1 ds)).
  - do 2 apply Hsub. apply M2.
  - apply Hsub. apply (proj1 (M3 _)).
  - apply M4.
  - do 3 apply Hsub. apply (proj2 (M1 ds) "images"); [by left | by exists "train"].
  - apply Hsub. apply (proj2 (M3 _) "labels"); [by right | by exists "train"].
Qed.

Lemma output_dirs_new (od d : string) (ds : gset string) :
  d ∈ output_dirs od ds →
  d ∈ ds ∨ ∃ leaf rest, leaf ∈ leaf_dirs od ∧ leaf = d +:+ rest.
Proof.
  unfold output_dirs, leaf_dirs. intros Hd.
  apply mkdirs_new in Hd as [Hd|[rest Hr]];
    [|right; eexists _, rest; split; [|exact Hr]; rewrite !elem_of_cons; tauto].
  apply mkdirs_new in Hd as [Hd|[rest Hr]];
    [|right; eexists _, rest; split; [|exact Hr]; rewrite !elem_of_cons; tauto].
  apply mkdirs_new in Hd as [Hd|[rest Hr]];
    [|right; eexists _, rest; split; [|exact Hr]; rewrite !elem_of_cons; tauto].
  apply mkdirs_new in Hd as [Hd|[rest Hr]];
    [|right; eexists _, rest; split; [|exact Hr]; rewrite !elem_of_cons; tauto].
  by left.
Qed.

Lemma bind_raise {A B} (m : result A) (f : A → result B) (e : exn) :
  m ≫= f = Raise e ↔ m = Raise e ∨ ∃ a, m = Ok a ∧ f a = Raise e.
Proof.
  destruct m as [a|e']; simpl.
  - split; [eauto | intros [?|(a' & [= <-] & ?)]; done].
  - split; [intros [= <-]; by left | intros [[= <-]|(a' & ? & ?)]; done].
Qed.

Section RunTrace.
Context `{PyNum}.

(** One annotation file: what it writes, prints and counts, or the
    exception it raises. *)
Lemma process_anno_file_run tree sd od split af st st' oe :
  process_anno_file tree sd od split af st = (st', oe) →
  match oe with
  | Some e => file_lines tree af = Raise e ∧ st' = st
  | None =>
      ∃ o, file_lines tree af = Ok o
        ∧ files (out st')
          = apply_writes (files (out st)) (file_writes od (yolo_split_of split) (stem af) o)
        ∧ dirs (out st') = dirs (out st)
        ∧ stdout (out st') = (stdout (out st) ++ file_prints tree sd split af)%list
        ∧ total_images st' = total_images st + (if retained o then 1 else 0)
        ∧ total_annotations st' = total_annotations st + Z.of_nat (length (lines_of o))
  end.
Proof.
  unfold process_anno_file, file_lines, file_prints.
  destruct (parsed af) as [data|]; [|by intros [= <- <-]].
  destruct (images tree !! image_name_of (stem af)) as [[e|raw w h]|].
  - intros [= <- <-]. exists None. simpl. repeat split; lia.
  - destruct (py_items data) as [items|e]; simpl; [|by intros [= <- <-]].
    rewrite instances_loop_emitted.
    destruct (emitted_lines w h items) as [ls|e]; simpl; [|by intros [= <- <-]].
    destruct ls as [|l ls]; intros [= <- <-]; eexists; (split; [reflexivity|]); simpl;
      rewrite ?app_nil_r; repeat split; lia.
  - intros [= <- <-]. exists None. simpl. rewrite app_nil_r. repeat split; lia.
Qed.

Lemma file_lines_raise tree sd od split af e :
  file_lines tree af = Raise e →
  ∀ st, process_anno_file tree sd od split af st = (st, Some e).
Proof.
  unfold file_lines, process_anno_file. intros Hr st.
  destruct (parsed af) as [data|]; [|by injection Hr as <-].
  destruct (images tree !! image_name_of (stem af)) as [[msg|raw w h]|]; try done.
  destruct (py_items data) as [items|e']; simpl in *; [|by injection Hr as <-].
  rewrite instances_loop_emitted.
  destruct (emitted_lines w h items) as [ls|e']; simpl in *; [done|by injection Hr as <-].
Qed.

(** The loop over the annotation files: the files [gone] through
    before the loop ended, and the file that ended it, if any. *)
Lemma files_loop_run tree sd od split afs st st' oe :
  files_loop tree sd od split afs st = (st', oe) →
  ∃ gone ys,
    split_yields tree gone = Ok ys
    ∧ files (out st')
      = apply_writes (files (out st)) (yields_writes od (yolo_split_of split) ys)
    ∧ dirs (out st') = dirs (out st)
    ∧ stdout (out st') = (stdout (out st) ++ (gone ≫= file_prints tree sd split))%list
    ∧ total_images st' = total_images st + yields_images ys
    ∧ total_annotations st' = total_annotations st + yields_annotations ys
    ∧ match oe with
      | None => gone = afs
      | Some e => ∃ af rest, afs = (gone ++ af :: rest)%list ∧ file_lines tree af = Raise e
      end.
Proof.
  revert st. induction afs as [|af rest IH]; intros st; simpl.
  - intros [= <- <-]. exists [], []. simpl. rewrite app_nil_r.
    repeat split; unfold yields_images, yields_annotations; simpl; lia.
  - destruct (process_anno_file tree sd od split af st) as [st1 [e|]] eqn:Hstep;
      apply process_anno_file_run in Hstep.
    + destruct Hstep as [Hraise ->]. intros [= <- <-]. exists [], []. simpl.
      rewrite app_nil_r.
      repeat split; unfold yields_images, yields_annotations; simpl; try lia.
      by exists af, rest.
    + destruct Hstep as (o & Ho & Hf & Hd & Hs & Hi & Ha). intros Hrest.
      apply IH in Hrest as (gone & ys & Hys & Hf' & Hd' & Hs' & Hi' & Ha' & Hoe).
      exists (af :: gone), ((stem af, o) :: ys). simpl. rewrite Ho, Hys. simpl.
      rewrite yields_images_cons, yields_annotations_cons. simpl.
      split; [done|]. split.
      { rewrite Hf', Hf. unfold apply_writes, yields_writes. simpl. by rewrite foldl_app. }
      split; [congruence|]. split; [by rewrite Hs', Hs, <- app_assoc|].
      split; [lia|]. split; [lia|].
      destruct oe as [e|]; [|by subst].
      destruct Hoe as (af' & rest' & -> & Hr). by exists af', rest'.
Qed.

Lemma process_split_run tree sd od split st st' oe :
  process_split tree sd od split st = (st', oe) →
  ∃ gone ys,
    split_yields tree gone = Ok ys
    ∧ files (out st')
      = apply_writes (files (out st)) (yields_writes od (yolo_split_of split) ys)
    ∧ dirs (out st') = dirs (out st)
    ∧ stdout (out st') = (stdout (out st) ++ split_prints tree sd split gone)%list
    ∧ total_images st' = total_images st + yields_images ys
    ∧ total_annotations st' = total_annotations st + yields_annotations ys
    ∧ match oe with
      | None => gone = visited tree
      | Some e =>
          ∃ af rest, visited tree = (gone ++ af :: rest)%list ∧ file_lines tree af = Raise e
      end.
Proof.
  unfold process_split, visited, split_prints. destruct (annos tree) as [afs|]; simpl.
  - intros Hloop. apply files_loop_run in Hloop
      as (gone & ys & Hys & Hf & Hd & Hs & Hi & Ha & Hoe).
    exists gone, ys. simpl in *. repeat split; try done.
    rewrite Hs, <- app_assoc. done.
  - intros [= <- <-]. exists [], []. simpl.
    repeat split; unfold yields_images, yields_annotations; simpl; lia.
Qed.

(** The whole run. When it completes, every annotation file was gone
    through; when an exception ends it, the files gone through are
    those listed before the one that raised. *)
Lemma convert_run src sd od abs w w' oe :
  convert_deepfashion2_to_yolo src sd od abs w = (w', oe) →
  ∃ gt gv yt yv,
    split_yields (train_tree src) gt = Ok yt
    ∧ split_yields (validation_tree src) gv = Ok yv
    ∧ dirs w' = output_dirs od (dirs w)
    ∧ match oe with
      | None =>
          gt = visited (train_tree src) ∧ gv = visited (validation_tree src)
          ∧ files w' = apply_writes (files w) (run_writes od abs yt yv)
          ∧ stdout w'
            = (stdout w ++ header_print sd :: split_prints (train_tree src) sd "train" gt
                 ++ split_prints (validation_tree src) sd "validation" gv
                 ++ summary_prints od (yields_images yt + yields_images yv)
                      (yields_annotations yt + yields_annotations yv))%list
      | Some e =>
          files w'
          = apply_writes (files w)
              (yields_writes od "train" yt ++ yields_writes od "val" yv)
          ∧ ((∃ af rest,
                visited (train_tree src) = (gt ++ af :: rest)%list
                ∧ file_lines (train_tree src) af = Raise e
                ∧ gv = []
                ∧ stdout w'
                  = (stdout w
                       ++ header_print sd :: split_prints (train_tree src) sd "train" gt)%list)
             ∨ (gt = visited (train_tree src)
                ∧ ∃ af rest,
                    visited (validation_tree src) = (gv ++ af :: rest)%list
                    ∧ file_lines (validation_tree src) af = Raise e
                    ∧ stdout w'
                      = (stdout w
                           ++ header_print sd :: split_prints (train_tree src) sd "train" gt
                           ++ split_prints (validation_tree src) sd "validation" gv)%list))
      end.
Proof.
  unfold convert_deepfashion2_to_yolo, splits_loop.
  set (w0 := makedirs _ (makedirs _ (makedirs _ (makedirs _ (print _ w))))).
  assert (dirs w0 = output_dirs od (dirs w)) as Hd0 by done.
  assert (files w0 = files w) as Hf0 by done.
  assert (stdout w0 = (stdout w ++ [header_print sd])%list) as Hs0 by done.
  clearbody w0.
  destruct (process_split (tree_of src "train") _ _ _ _) as [st1 [e1|]] eqn:Ht;
    apply process_split_run in Ht as (gt & yt & Hyt & Hft & Hdt & Hst & Hit & Hat & Hoet).
  { intros [= <- <-]. exists gt, [], yt, []. simpl in *.
    split; [done|]. split; [done|]. split; [congruence|].
    split; [by rewrite Hft, Hf0, app_nil_r|]. left.
    destruct Hoet as (af & rest & Hv & Hr). exists af, rest.
    repeat split; try done. by rewrite Hst, Hs0, <- app_assoc. }
  destruct (process_split (tree_of src "validation") _ _ _ _) as [st2 [e2|]] eqn:Hv;
    apply process_split_run in Hv as (gv & yv & Hyv & Hfv & Hdv & Hsv & Hiv & Hav & Hoev).
  { intros [= <- <-]. exists gt, gv, yt, yv. simpl in *.
    split; [done|]. split; [done|]. split; [congruence|].
    split.
    { rewrite Hfv, Hft, Hf0. unfold apply_writes. by rewrite foldl_app. }
    right. split; [done|].
    destruct Hoev as (af & rest & Hvis & Hr). exists af, rest.
    repeat split; try done. rewrite Hsv, Hst, Hs0, <- !app_assoc. done. }
  intros [= <- <-]. exists gt, gv, yt, yv. simpl in *.
  split; [done|]. split; [done|].
  split; [congruence|].
  split; [done|]. split; [done|]. split.
  - rewrite Hfv, Hft, Hf0.
    rewrite Hiv, Hit, Hav, Hat. simpl.
    unfold run_writes, apply_writes. by rewrite !foldl_app.
  - rewrite Hsv, Hst, Hs0.
    rewrite Hiv, Hit, Hav, Hat. simpl.
    unfold summary_prints. rewrite <- !app_assoc. simpl. done.
Qed.

Lemma split_yields_length tree afs ys :
  split_yields tree afs = Ok ys → length ys = length afs.
Proof.
  intros Hys. apply split_yields_stems in Hys.
  apply (f_equal length) in Hys. by rewrite !length_fmap in Hys.
Qed.

Lemma split_yields_origin tree afs ys st o :
  split_yields tree afs = Ok ys → (st, o) ∈ ys →
  ∃ af, af ∈ afs ∧ stem af = st ∧ file_lines tree af = Ok o.
Proof.
  revert ys. induction afs as [|af rest IH]; intros ys; simpl.
  - intros [= <-] Hin. by apply elem_of_nil in Hin.
  - intros Hy Hin. apply bind_ok in Hy as (o' & Ho' & Hy).
    apply bind_ok in Hy as (os & Hos & [= <-]).
    apply elem_of_cons in Hin as [[= -> ->]|Hin].
    + exists af. split; [by left | done].
    + destruct (IH os Hos Hin) as (af' & Hin' & Hst & Hfl).
      exists af'. split; [by right | done].
Qed.

Lemma split_yields_raise tree afs e :
  split_yields tree afs = Raise e → ∃ af, af ∈ afs ∧ file_lines tree af = Raise e.
Proof.
  induction afs as [|af rest IH]; simpl; [done|].
  intros Hr. apply bind_raise in Hr as [Hr|(o & Ho & Hr)].
  - exists af. split; [by left | done].
  - apply bind_raise in Hr as [Hr|(os & Hos & Hr)]; [|done].
    destruct (IH Hr) as (af' & Hin & Hfl). exists af'. split; [by right | done].
Qed.

Lemma split_yields_ok tree afs :
  (∀ af, af ∈ afs → ∃ o, file_lines tree af = Ok o) → ∃ ys, split_yields tree afs = Ok ys.
Proof.
  induction afs as [|af rest IH]; intros Hall; simpl; [by eexists|].
  destruct (Hall af) as [o ->]; [by left|].
  destruct IH as [ys ->]; [intros af' Hin; apply Hall; by right|].
  by eexists.
Qed.

End RunTrace.

(** ** Output paths *)

Lemma is_output_path_image od s name :
  s ∈ yolo_splits → is_output_path od (image_copy_path od s name) = true.
Proof.
  unfold yolo_splits, is_output_path, image_copy_path. intros Hs.
  apply elem_of_cons in Hs as [->|Hs]; [|apply list_elem_of_singleton in Hs as ->];
    rewrite !prefix_append; case_ascii_dec.
Qed.

Lemma is_output_path_label od s st :
  s ∈ yolo_splits → is_output_path od (label_path_of od s st) = true.
Proof.
  unfold yolo_splits, is_output_path, label_path_of. intros Hs.
  apply elem_of_cons in Hs as [->|Hs]; [|apply list_elem_of_singleton in Hs as ->];
    rewrite !prefix_append; case_ascii_dec.
Qed.

Lemma is_output_path_manifest od : is_output_path od (manifest_path od) = true.
Proof.
  unfold is_output_path. rewrite bool_decide_eq_true_2 by done.
  by rewrite !orb_true_r.
Qed.

Lemma yields_writes_output od s ys p :
  s ∈ yolo_splits → p ∈ (yields_writes od s ys).*1 → is_output_path od p = true.
Proof.
  intros Hs Hp. apply yields_writes_keys in Hp as (st & o & _ & _ & [->| ->]).
  - by apply is_output_path_image.
  - by apply is_output_path_label.
Qed.

Lemma manifest_not_yields_write od s ys : manifest_path od ∉ (yields_writes od s ys).*1.
Proof.
  intros Hp. apply yields_writes_keys in Hp as (st & o & _ & _ & [Hp|Hp]).
  - symmetry in Hp. by apply image_copy_path_not_manifest in Hp.
  - symmetry in Hp. by apply label_path_not_manifest in Hp.
Qed.

Lemma apply_writes_is_Some (m : gmap string string) tr p :
  is_Some (m !! p) → is_Some (apply_writes m tr !! p).
Proof.
  intros Hp. rewrite apply_writes_union. apply lookup_union_is_Some. by right.
Qed.

Lemma apply_writes_written (m : gmap string string) tr p :
  p ∈ tr.*1 → is_Some (apply_writes m tr !! p).
Proof.
  intros Hp. rewrite apply_writes_union. apply lookup_union_is_Some. left.
  apply not_eq_None_Some. intros Hnone.
  apply not_elem_of_list_to_map in Hnone. apply Hnone.
  by rewrite fmap_reverse, elem_of_reverse.
Qed.

Lemma apply_writes_empty_lookup (tr : list (string * string)) p c :
  apply_writes ∅ tr !! p = Some c → (p, c) ∈ tr.
Proof.
  rewrite apply_writes_union, (right_id ∅ (∪)). intros Hp.
  apply elem_of_list_to_map_2 in Hp. by rewrite elem_of_reverse in Hp.
Qed.

Lemma apply_writes_last (m : gmap string string) tr p c :
  apply_writes m (tr ++ [(p, c)]) !! p = Some c.
Proof. rewrite apply_writes_snoc. apply lookup_insert_eq. Qed.

Lemma run_writes_manifest (m : gmap string string) od abs yt yv :
  apply_writes m (run_writes od abs yt yv) !! manifest_path od
  = Some (yaml_content abs (yields_images yt + yields_images yv)
            (yields_annotations yt + yields_annotations yv)).
Proof. unfold run_writes. rewrite !app_assoc. apply apply_writes_last. Qed.

Lemma file_writes_elem od s st o p c :
  (p, c) ∈ file_writes od s st o →
  ∃ raw l ls, o = Some (raw, l :: ls)
    ∧ ((p = image_copy_path od s (image_name_of st) ∧ c = raw)
       ∨ (p = label_path_of od s st ∧ c = join nl (l :: ls))).
Proof.
  destruct o as [[raw [|l ls]]|]; simpl; try (intros Hp; by apply elem_of_nil in Hp).
  intros Hp. exists raw, l, ls. split; [done|].
  apply elem_of_cons in Hp as [[= -> ->]|Hp]; [by left|].
  apply list_elem_of_singleton in Hp as [= -> ->]. by right.
Qed.

Lemma yields_writes_elem od s ys p c :
  (p, c) ∈ yields_writes od s ys →
  ∃ st raw l ls, (st, Some (raw, l :: ls)) ∈ ys
    ∧ ((p = image_copy_path od s (image_name_of st) ∧ c = raw)
       ∨ (p = label_path_of od s st ∧ c = join nl (l :: ls))).
Proof.
  unfold yields_writes. induction ys as [|[st o] ys IH]; simpl.
  - intros Hp. by apply elem_of_nil in Hp.
  - rewrite elem_of_app. intros [Hp|Hp].
    + apply file_writes_elem in Hp as (raw & l & ls & -> & Hp).
      exists st, raw, l, ls. split; [by left | done].
    + destruct (IH Hp) as (st' & raw & l & ls & Hin & Hp').
      exists st', raw, l, ls. split; [by right | done].
Qed.

Lemma yields_counters_bounds (ys : list (string * option (string * list string))) :
  0 ≤ yields_images ys ≤ yields_annotations ys
  ∧ yields_images ys ≤ Z.of_nat (length ys)
  ∧ (yields_images ys = 0 → yields_annotations ys = 0).
Proof.
  induction ys as [|[st o] ys (IH1 & IH2 & IH3)].
  - unfold yields_images, yields_annotations. simpl. lia.
  - rewrite yields_images_cons, yields_annotations_cons. simpl.
    unfold retained. destruct (lines_of o) as [|l ls]; simpl length; lia.
Qed.

(** ** The printed lines *)

Section PrintFacts.
Context `{PyNum}.

Lemma file_prints_progress tree sd split af :
  Forall (λ l, progress_line l = true) (file_prints tree sd split af).
Proof.
  unfold file_prints.
  destruct (images tree !! image_name_of (stem af)) as [[msg|raw w h]|];
    [constructor; [unfold progress_line; case_ascii_dec | constructor] | constructor..].
Qed.

Lemma split_prints_progress tree sd split gone :
  Forall (λ l, progress_line l = true) (split_prints tree sd split gone).
Proof.
  unfold split_prints. destruct (annos tree) as [afs|];
    [|constructor; [unfold progress_line; case_ascii_dec | constructor]].
  constructor; [unfold progress_line, nl; case_ascii_dec|].
  induction gone as [|af gone IH]; [constructor|].
  rewrite bind_cons. apply Forall_app. split; [apply file_prints_progress | done].
Qed.

End PrintFacts.

Lemma summary_prints_not_progress od ti ta l :
  l ∈ summary_prints od ti ta → progress_line l = false.
Proof.
  unfold summary_prints. intros Hl.
  repeat (apply elem_of_cons in Hl as [->|Hl]; [unfold progress_line, nl; case_ascii_dec|]).
  by apply elem_of_nil in Hl.
Qed.

(** ** What a run touches *)

(** X1. Whatever a run does, and whether it completes or an exception
    ends it: the four folders of the output tree are there afterwards,
    with the [images] and [labels] folders above them; no directory
    that was there is lost; and a directory that was not there before
    is one of the four or one on the way to them, its path an initial
    part of theirs. The run changes no file outside the four folders
    but the manifest; it removes no file that was there; and it only
    adds to what was printed. *)
Theorem X1_run_touches_output_tree_only `{PyNum} (src : dataset)
    (source_dir output_dir abs_output : string) (w : world) :
  let w' := (convert_deepfashion2_to_yolo src source_dir output_dir abs_output w).1 in
  (∀ d : string,
     d ∈ (leaf_dirs output_dir ++ [output_dir +:+ "/images"; output_dir +:+ "/labels"])%list →
     d ∈ dirs w')
  ∧ dirs w ⊆ dirs w'
  ∧ (∀ d : string,
       d ∈ dirs w' →
       d ∈ dirs w ∨ ∃ leaf rest : string, leaf ∈ leaf_dirs output_dir ∧ leaf = d +:+ rest)
  ∧ (∀ p : string, is_output_path output_dir p = false → files w' !! p = files w !! p)
  ∧ (∀ p : string, is_Some (files w !! p) → is_Some (files w' !! p))
  ∧ stdout w `prefix_of` stdout w'.
Proof.
  cbv zeta.
  destruct (convert_deepfashion2_to_yolo src source_dir output_dir abs_output w)
    as [w' oe] eqn:Hrun.
  apply convert_run in Hrun as (gt & gv & yt & yv & Hyt & Hyv & Hdirs & Hoe). simpl.
  assert ("train" ∈ yolo_splits) as Htr by (by left).
  assert ("val" ∈ yolo_splits) as Hva by (right; by left).
  split; [intros d Hd; rewrite Hdirs; by apply output_dirs_made|].
  split; [rewrite Hdirs; apply output_dirs_subseteq|].
  split; [intros d Hd; rewrite Hdirs in Hd; by apply output_dirs_new|].
  assert (∃ log, stdout w' = (stdout w ++ log)%list) as (log & ->).
  { destruct oe as [e|].
    - destruct Hoe as [_ [(af & rest & _ & _ & _ & Hs)|(_ & af & rest & _ & _ & Hs)]];
        eexists; exact Hs.
    - destruct Hoe as (_ & _ & _ & Hs). eexists; exact Hs. }
  assert (∃ tr, files w' = apply_writes (files w) tr
            ∧ (∀ p, p ∈ tr.*1 → is_output_path output_dir p = true)) as (tr & -> & Hkeys).
  { destruct oe as [e|].
    - destruct Hoe as [Hf _]. eexists. split; [exact Hf|].
      intros p. rewrite fmap_app, elem_of_app.
      intros [Hp|Hp];
        [exact (yields_writes_output _ _ _ _ Htr Hp)
        | exact (yields_writes_output _ _ _ _ Hva Hp)].
    - destruct Hoe as (_ & _ & Hf & _). eexists. split; [exact Hf|].
      intros p. unfold run_writes. rewrite !fmap_app, !elem_of_app.
      intros [Hp|[Hp|Hp]];
        [exact (yields_writes_output _ _ _ _ Htr Hp)
        | exact (yields_writes_output _ _ _ _ Hva Hp)|].
      apply list_elem_of_singleton in Hp as ->. apply is_output_path_manifest. }
  split; [|split].
  - intros p Hp. apply apply_writes_lookup_fresh. intros Hin. apply Hkeys in Hin. congruence.
  - intros p. apply apply_writes_is_Some.
  - by apply prefix_app_r.
Qed.

Lemma X1_run_touches_output_tree_only_witness :
  files (@convert_deepfashion2_to_yolo CPython.cpython Scenario.small_source
           "./deepfashion2" "out" "/data/out" Cases.shared_world).1 !! "out/README.md"
  = Some "notes"
  ∧ "out/labels"
    ∈ dirs (@convert_deepfashion2_to_yolo CPython.cpython Scenario.small_source
              "./deepfashion2" "out" "/data/out" Cases.shared_world).1.
Proof.
  split.
  - refine (eq_trans
              (proj1 (proj2 (proj2 (proj2 (@X1_run_touches_output_tree_only CPython.cpython
                               Scenario.small_source
                               "./deepfashion2" "out" "/data/out" Cases.shared_world))))
                 "out/README.md" _) _).
    + vm_compute. reflexivity.
    + vm_compute. reflexivity.
  - refine (proj1 (@X1_run_touches_output_tree_only CPython.cpython
                     Scenario.small_source
                     "./deepfashion2" "out" "/data/out" Cases.shared_world) "out/labels" _).
    apply (bool_decide_unpack _). vm_compute. exact I.
Defined.

(** ** A run that an exception ends *)

(** X2. When an exception ends the run, it was raised while one
    annotation file was processed, and processing that file raises it
    from any state, leaving the state as it was. The files written are
    those of the annotation files listed before that one, all of [train]
    among them when the file is in [validation]: nothing is undone. The
    manifest is not written, and none of the lines of the final summary
    is printed. *)
Theorem X2_run_ended_by_exception `{PyNum} (src : dataset)
    (source_dir output_dir abs_output : string) (w w' : world) (e : exn) :
  convert_deepfashion2_to_yolo src source_dir output_dir abs_output w = (w', Some e) →
  ∃ (split : string) (gone_train gone_validation : list anno_file)
    (af : anno_file) (rest : list anno_file)
    (yt yv : list (string * option (string * list string))) (log : list string),
    ((split = "train"
      ∧ visited (train_tree src) = (gone_train ++ af :: rest)%list
      ∧ gone_validation = [])
     ∨ (split = "validation"
        ∧ gone_train = visited (train_tree src)
        ∧ visited (validation_tree src) = (gone_validation ++ af :: rest)%list))
    ∧ (∀ st : run_state,
         process_anno_file (tree_of src split) source_dir output_dir split af st
         = (st, Some e))
    ∧ split_yields (train_tree src) gone_train = Ok yt
    ∧ split_yields (validation_tree src) gone_validation = Ok yv
    ∧ files w'
      = apply_writes (files w)
          (yields_writes output_dir "train" yt ++ yields_writes output_dir "val" yv)
    ∧ files w' !! manifest_path output_dir = files w !! manifest_path output_dir
    ∧ stdout w' = (stdout w ++ log)%list
    ∧ ∀ (total_images total_annotations : Z) (l : string),
        l ∈ summary_prints output_dir total_images total_annotations → l ∉ log.
Proof.
  intros Hrun.
  apply convert_run in Hrun as (gt & gv & yt & yv & Hyt & Hyv & _ & Hf & Hcase).
  assert (files w' !! manifest_path output_dir = files w !! manifest_path output_dir)
    as Hmanifest.
  { rewrite Hf. apply apply_writes_lookup_fresh. rewrite fmap_app, elem_of_app.
    intros [Hp|Hp]; by apply manifest_not_yields_write in Hp. }
  assert (∀ log, Forall (λ l, progress_line l = true) log →
            ∀ ti ta l, l ∈ summary_prints output_dir ti ta → l ∉ log) as Hlog.
  { intros log Hall ti ta l Hl Hin. apply summary_prints_not_progress in Hl.
    rewrite Forall_forall in Hall. apply Hall in Hin. congruence. }
  destruct Hcase as [(af & rest & Hvis & Hr & -> & Hs)|(-> & af & rest & Hvis & Hr & Hs)].
  - exists "train", gt, [], af, rest, yt, yv. eexists. split; [by left|].
    split; [by apply file_lines_raise|].
    do 4 (split; [done|]). split; [exact Hs|].
    apply Hlog. constructor;
      [unfold progress_line, header_print; case_ascii_dec | apply split_prints_progress].
  - exists "validation", (visited (train_tree src)), gv, af, rest, yt, yv. eexists.
    split; [by right|].
    split; [by apply file_lines_raise|].
    do 4 (split; [done|]). split; [exact Hs|].
    apply Hlog. constructor; [unfold progress_line, header_print; case_ascii_dec|].
    apply Forall_app. split; apply split_prints_progress.
Qed.

Lemma X2_run_ended_by_exception_witness :
  ∃ w' : world,
    @convert_deepfashion2_to_yolo CPython.cpython Cases.broken_source
      "./deepfashion2" "out" "/data/out" empty_world = (w', Some TypeError)
    ∧ files w' !! "out/data.yaml" = None
    ∧ files w' !! "out/labels/train/000001.txt"
      = Some "0 0.300000 0.300000 0.500000 0.500000".
Proof.
  destruct (@convert_deepfashion2_to_yolo CPython.cpython Cases.broken_source
              "./deepfashion2" "out" "/data/out" empty_world) as [w' oe] eqn:Hrun.
  assert (oe = Some TypeError) as ->.
  { change oe with (w', oe).2. rewrite <- Hrun. vm_compute. reflexivity. }
  exists w'. split; [reflexivity|].
  destruct (@X2_run_ended_by_exception CPython.cpython Cases.broken_source
              "./deepfashion2" "out" "/data/out" empty_world w' TypeError Hrun)
    as (split & gt & gv & af & rest & yt & yv & log & _ & _ & _ & _ & _ & Hmanifest & _).
  split; [exact Hmanifest|].
  change w' with (w', Some TypeError).1. rewrite <- Hrun. vm_compute. reflexivity.
Defined.

(** ** A run that completes *)

(** X3. A run that completes prints, after what was printed before:
    the header; for each split, the warning when its [annos] folder is
    missing, else the number of its annotation files followed by one
    error line per image that could not be opened, in the order of the
    listing; then the five lines of the summary, with the counters that
    the manifest holds. *)
Theorem X3_completed_run_prints `{PyNum} (src : dataset)
    (source_dir output_dir abs_output : string) (w w' : world) :
  convert_deepfashion2_to_yolo src source_dir output_dir abs_output w = (w', None) →
  ∃ total_images total_annotations : Z,
    files w' !! manifest_path output_dir
    = Some (yaml_content abs_output total_images total_annotations)
    ∧ stdout w'
      = (stdout w
           ++ header_print source_dir
              :: split_prints (train_tree src) source_dir "train" (visited (train_tree src))
           ++ split_prints (validation_tree src) source_dir "validation"
                (visited (validation_tree src))
           ++ summary_prints output_dir total_images total_annotations)%list.
Proof.
  intros Hrun.
  apply convert_run in Hrun as (gt & gv & yt & yv & Hyt & Hyv & _ & -> & -> & Hf & Hs).
  exists (yields_images yt + yields_images yv), (yields_annotations yt + yields_annotations yv).
  split; [|exact Hs].
  rewrite Hf. apply run_writes_manifest.
Qed.

Lemma X3_completed_run_prints_witness :
  ∃ (w' : world) (total_images total_annotations : Z),
    @convert_deepfashion2_to_yolo CPython.cpython Scenario.small_source
      "./deepfashion2" "out" "/data/out" empty_world = (w', None)
    ∧ files w' !! "out/data.yaml"
      = Some (yaml_content "/data/out" total_images total_annotations)
    ∧ stdout w'
      = (["Converting DeepFashion2 from ./deepfashion2 to YOLO format...";
          nl +:+ "Processing 2 images from train split...";
          nl +:+ "Processing 0 images from validation split..."]
           ++ summary_prints "out" total_images total_annotations)%list.
Proof.
  destruct (@convert_deepfashion2_to_yolo CPython.cpython Scenario.small_source
              "./deepfashion2" "out" "/data/out" empty_world) as [w' oe] eqn:Hrun.
  assert (oe = None) as ->.
  { change oe with (w', oe).2. rewrite <- Hrun. vm_compute. reflexivity. }
  destruct (@X3_completed_run_prints CPython.cpython Scenario.small_source
              "./deepfashion2" "out" "/data/out" empty_world w' Hrun)
    as (ti & ta & Hm & Hs).
  exists w', ti, ta. split; [reflexivity|]. split; [exact Hm | exact Hs].
Defined.

(** X4. The counters that the manifest of a completed run holds are
    ordered: the images kept are at most the annotations kept, and at
    most the annotation files of the two splits; neither counter is
    negative, and one is zero exactly when the other is. *)
Theorem X4_manifest_counters_bounds `{PyNum} (src : dataset)
    (source_dir output_dir abs_output : string) (w w' : world) :
  convert_deepfashion2_to_yolo src source_dir output_dir abs_output w = (w', None) →
  ∃ total_images total_annotations : Z,
    files w' !! manifest_path output_dir
    = Some (yaml_content abs_output total_images total_annotations)
    ∧ 0 ≤ total_images ≤ total_annotations
    ∧ total_images
      ≤ Z.of_nat (length (visited (train_tree src))
                  + length (visited (validation_tree src)))
    ∧ (total_images = 0 ↔ total_annotations = 0).
Proof.
  intros Hrun.
  apply convert_run in Hrun as (gt & gv & yt & yv & Hyt & Hyv & _ & -> & -> & Hf & _).
  exists (yields_images yt + yields_images yv), (yields_annotations yt + yields_annotations yv).
  split; [rewrite Hf; apply run_writes_manifest|].
  apply split_yields_length in Hyt, Hyv. rewrite <- Hyt, <- Hyv.
  destruct (yields_counters_bounds yt) as (? & ? & ?).
  destruct (yields_counters_bounds yv) as (? & ? & ?).
  lia.
Qed.

Lemma X4_manifest_counters_bounds_witness :
  ∃ (w' : world) (total_images total_annotations : Z),
    @convert_deepfashion2_to_yolo CPython.cpython Scenario.small_source
      "./deepfashion2" "out" "/data/out" empty_world = (w', None)
    ∧ files w' !! "out/data.yaml"
      = Some (yaml_content "/data/out" total_images total_annotations)
    ∧ 0 ≤ total_images ≤ total_annotations
    ∧ total_images ≤ 2.
Proof.
  destruct (@convert_deepfashion2_to_yolo CPython.cpython Scenario.small_source
              "./deepfashion2" "out" "/data/out" empty_world) as [w' oe] eqn:Hrun.
  assert (oe = None) as ->.
  { change oe with (w', oe).2. rewrite <- Hrun. vm_compute. reflexivity. }
  destruct (@X4_manifest_counters_bounds CPython.cpython Scenario.small_source
              "./deepfashion2" "out" "/data/out" empty_world w' Hrun)
    as (ti & ta & Hm & Hb & Hn & _).
  exists w', ti, ta. split; [reflexivity|]. split; [exact Hm|]. split; [exact Hb | exact Hn].
Defined.

(** X5. Started on an output tree without files, a run that completes
    leaves the manifest and nothing else but pairs: every other file is
    the label file or the image copy of an annotation file of one of
    the splits whose loop over the instances ended with at least one
    line; the label file holds those lines joined by line feeds, the
    copy holds the bytes of the image, and both files of the pair are
    there. *)
Theorem X5_output_tree_pairs `{PyNum} (src : dataset)
    (source_dir output_dir abs_output : string) (w w' : world) :
  files w = ∅ →
  convert_deepfashion2_to_yolo src source_dir output_dir abs_output w = (w', None) →
  ∀ p content : string,
    files w' !! p = Some content →
    p = manifest_path output_dir
    ∨ ∃ (split : string) (af : anno_file) (raw : string) (lines : list string),
        split ∈ ["train"; "validation"]
        ∧ af ∈ visited (tree_of src split)
        ∧ file_lines (tree_of src split) af = Ok (Some (raw, lines))
        ∧ lines ≠ []
        ∧ ((p = label_path_of output_dir (yolo_split_of split) (stem af)
            ∧ content = join nl lines)
           ∨ (p = image_copy_path output_dir (yolo_split_of split) (image_name_of (stem af))
              ∧ content = raw))
        ∧ is_Some (files w' !! label_path_of output_dir (yolo_split_of split) (stem af))
        ∧ is_Some (files w' !! image_copy_path output_dir (yolo_split_of split)
                                 (image_name_of (stem af))).
Proof.
  intros Hempty Hrun p content Hp.
  apply convert_run in Hrun as (gt & gv & yt & yv & Hyt & Hyv & _ & -> & -> & Hf & _).
  rewrite Hf, Hempty in Hp. apply apply_writes_empty_lookup in Hp.
  assert (∀ split s ys, split ∈ ["train"; "validation"] → s = yolo_split_of split →
            split_yields (tree_of src split) (visited (tree_of src split)) = Ok ys →
            (∀ pc, pc ∈ yields_writes output_dir s ys →
                   pc ∈ run_writes output_dir abs_output yt yv) →
            (p, content) ∈ yields_writes output_dir s ys →
            ∃ (split : string) (af : anno_file) (raw : string) (lines : list string),
              split ∈ ["train"; "validation"]
              ∧ af ∈ visited (tree_of src split)
              ∧ file_lines (tree_of src split) af = Ok (Some (raw, lines))
              ∧ lines ≠ []
              ∧ ((p = label_path_of output_dir (yolo_split_of split) (stem af)
                  ∧ content = join nl lines)
                 ∨ (p = image_copy_path output_dir (yolo_split_of split)
                          (image_name_of (stem af))
                    ∧ content = raw))
              ∧ is_Some (files w' !! label_path_of output_dir (yolo_split_of split) (stem af))
              ∧ is_Some (files w' !! image_copy_path output_dir (yolo_split_of split)
                                       (image_name_of (stem af)))) as Hsplit.
  { intros split s ys Hin -> Hys Hsub Hpc.
    apply yields_writes_elem in Hpc as (st & raw & l & ls & Hy & Hpc).
    destruct (split_yields_origin _ _ _ _ _ Hys Hy) as (af & Haf & <- & Hfl).
    exists split, af, raw, (l :: ls). do 4 (split; [done|]).
    split; [tauto|].
    destruct (yields_writes_retained output_dir (yolo_split_of split) ys _ raw l ls Hy)
      as [Hcopy Hlabel].
    rewrite Hf. split; apply apply_writes_written.
    - apply Hsub in Hlabel. by apply (list_elem_of_fmap_2 fst) in Hlabel.
    - apply Hsub in Hcopy. by apply (list_elem_of_fmap_2 fst) in Hcopy. }
  unfold run_writes in Hp. rewrite !elem_of_app in Hp. destruct Hp as [Hp|[Hp|Hp]].
  - right. apply (Hsplit "train" "train" yt); [by left | done | done | | done].
    intros pc Hpc. unfold run_writes. rewrite !elem_of_app. by left.
  - right. apply (Hsplit "validation" "val" yv); [right; by left | done | done | | done].
    intros pc Hpc. unfold run_writes. rewrite !elem_of_app. right. by left.
  - left. by apply list_elem_of_singleton in Hp as [= -> _].
Qed.

Lemma X5_output_tree_pairs_witness :
  ∃ (w' : world) (split : string) (af : anno_file),
    @convert_deepfashion2_to_yolo CPython.cpython Scenario.small_source
      "./deepfashion2" "out" "/data/out" empty_world = (w', None)
    ∧ split ∈ ["train"; "validation"]
    ∧ af ∈ visited (@tree_of CPython.cpython Scenario.small_source split)
    ∧ is_Some (files w' !! label_path_of "out" (yolo_split_of split) (stem af)).
Proof.
  destruct (@convert_deepfashion2_to_yolo CPython.cpython Scenario.small_source
              "./deepfashion2" "out" "/data/out" empty_world) as [w' oe] eqn:Hrun.
  assert (oe = None) as ->.
  { change oe with (w', oe).2. rewrite <- Hrun. vm_compute. reflexivity. }
  destruct (@X5_output_tree_pairs CPython.cpython Scenario.small_source
              "./deepfashion2" "out" "/data/out" empty_world w' eq_refl Hrun
              "out/images/train/000001.jpg" "JFIF-1")
    as [Hm|(split & af & raw & lines & Hs & Haf & _ & _ & _ & Hl & _)].
  - change w' with (w', @None exn).1. rewrite <- Hrun. vm_compute. reflexivity.
  - discriminate Hm.
  - exists w', split, af. split; [reflexivity|]. split; [exact Hs|].
    split; [exact Haf | exact Hl].
Defined.



(** ** The loop over the instances, again *)

Section LoopFacts.
Context `{PyNum}.

Lemma instances_loop_app w h pre post ya ta :
  instances_loop w h (pre ++ post) ya ta =
  r ← instances_loop w h pre ya ta; instances_loop w h post r.1 r.2.
Proof.
  revert ya ta. induction pre as [|[k d] pre IH]; intros ya ta; simpl; [done|].
  case_decide; [apply IH|].
  destruct (process_instance w h d) as [[line|]|e]; simpl; [apply IH..|done].
Qed.

Lemma emitted_lines_instance_lines w h items ls :
  emitted_lines w h items = Ok ls → ls = instance_lines w h items.
Proof.
  unfold instance_lines, instance_entries.
  revert ls. induction items as [|[k d] items IH]; intros ls; simpl.
  - by intros [= <-].
  - rewrite filter_cons. simpl. case_decide as Hk.
    + rewrite decide_False by (intros Hne; by apply Hne). apply IH.
    + rewrite decide_True by done. intros Hl.
      apply bind_ok in Hl as (r & Hr & Hl). apply bind_ok in Hl as (ls' & Hls' & [= <-]).
      rewrite bind_cons. simpl. rewrite Hr. rewrite <- (IH ls' Hls'). by destruct r.
Qed.

Lemma emitted_lines_length w h items ls :
  emitted_lines w h items = Ok ls →
  (length ls ≤ length (instance_entries items))%nat.
Proof.
  unfold instance_entries.
  revert ls. induction items as [|[k d] items IH]; intros ls; simpl.
  - intros [= <-]. simpl. lia.
  - rewrite filter_cons. simpl. case_decide as Hk.
    + rewrite decide_False by (intros Hne; by apply Hne). apply IH.
    + rewrite decide_True by done. intros Hl.
      apply bind_ok in Hl as (r & _ & Hl). apply bind_ok in Hl as (ls' & Hls' & [= <-]).
      apply IH in Hls'. rewrite length_app. simpl. destruct r; simpl; lia.
Qed.

Lemma emitted_lines_raise w h items e :
  emitted_lines w h items = Raise e →
  ∃ k d, (k, d) ∈ items ∧ k ≠ "source" ∧ process_instance w h d = Raise e.
Proof.
  induction items as [|[k d] rest IH]; simpl; [done|].
  case_decide as Hk.
  - intros Hr. destruct (IH Hr) as (k' & d' & Hin & Hne & Hp).
    exists k', d'. split; [by right | done].
  - intros Hr. apply bind_raise in Hr as [Hr|(r & _ & Hr)].
    + exists k, d. split; [by left | done].
    + apply bind_raise in Hr as [Hr|(ls & _ & Hr)]; [|done].
      destruct (IH Hr) as (k' & d' & Hin & Hne & Hp).
      exists k', d'. split; [by right | done].
Qed.

(** The length guard of line 91 makes the unpacking of line 94 safe. *)
Lemma unpack4_guarded (v : json) :
  py_len v = Ok 4%nat → ∃ a b c d, unpack4 v = Ok (a, b, c, d).
Proof.
  unfold unpack4. destruct v as [| | |s|l|kvs]; simpl; try done.
  - intros [= Hlen].
    destruct s as [|c1 [|c2 [|c3 [|c4 [|c5 s]]]]]; simpl in Hlen; try done.
    by eexists _, _, _, _.
  - intros [= Hlen].
    destruct l as [|a [|b [|c [|d [|x l]]]]]; simpl in Hlen; try done.
    by eexists _, _, _, _.
  - intros [= Hlen].
    destruct kvs as [|a [|b [|c [|d [|x l]]]]]; simpl in Hlen; try done.
    by eexists _, _, _, _.
Qed.

End LoopFacts.

(** X7. The loop over the instances only appends: run on a
    concatenation, it is the loop on the second part continued from
    where the loop on the first part ended; the lines it adds are those
    of the instances that pass, in the order of the annotation, at most
    one per entry that is not under the key [source]; the counter grows
    by their number; and neither depends on the lines and the counter
    the loop starts with. *)
Theorem X7_instances_loop_appends `{PyNum} (img_width img_height : Z) :
  (∀ (pre post : list (string * json)) (ya : list string) (ta : Z),
     instances_loop img_width img_height (pre ++ post) ya ta
     = r ← instances_loop img_width img_height pre ya ta;
       instances_loop img_width img_height post r.1 r.2)
  ∧ (∀ (items : list (string * json)) (lines : list string) (n : Z),
       instances_loop img_width img_height items [] 0 = Ok (lines, n) →
       lines = instance_lines img_width img_height items
       ∧ n = Z.of_nat (length lines)
       ∧ (length lines ≤ length (instance_entries items))%nat
       ∧ ∀ (ya : list string) (ta : Z),
           instances_loop img_width img_height items ya ta = Ok ((ya ++ lines)%list, ta + n)).
Proof.
  split; [apply instances_loop_app|].
  intros items lines n Hloop. rewrite instances_loop_emitted in Hloop.
  apply bind_ok in Hloop as (ls & Hls & [= <- <-]). simpl.
  split; [by apply emitted_lines_instance_lines|].
  split; [done|]. split; [by eapply emitted_lines_length|].
  intros ya ta. by rewrite instances_loop_emitted, Hls.
Qed.

Lemma X7_instances_loop_appends_witness :
  @instances_loop CPython.cpython 200 400 Scenario.annotation
    ["1 0.500000 0.500000 0.250000 0.250000"] 7
  = Ok (["1 0.500000 0.500000 0.250000 0.250000";
         "0 0.300000 0.300000 0.500000 0.500000"], 8).
Proof.
  refine (proj2 (proj2 (proj2 (proj2 (@X7_instances_loop_appends CPython.cpython 200 400)
                                 Scenario.annotation
                                 ["0 0.300000 0.300000 0.500000 0.500000"] 1 _)))
            ["1 0.500000 0.500000 0.250000 0.250000"] 7).
  vm_compute. reflexivity.
Defined.

(** X8. An entry of an annotation that is not under the key [source]
    and whose value is not an object (the number under [pair_id] of the
    DeepFashion2 annotations, for one) raises [AttributeError] at line
    83, once the entries before it are gone through: the loop raises,
    and so does the processing of the file when its image is readable,
    leaving the state as it was. An entry under the key [source] is
    passed over whatever its value. *)
Theorem X8_non_object_entry_raises `{PyNum} (tree : split_tree)
    (source_dir output_dir split : string) (af : anno_file) (st : run_state)
    (raw : string) (img_width img_height : Z)
    (pre post : list (string * json)) (key : string) (value : json)
    (lines : list string) (n : Z) :
  parsed af = Some (JObj (pre ++ (key, value) :: post)) →
  images tree !! image_name_of (stem af) = Some (Readable raw img_width img_height) →
  key ≠ "source" →
  is_object value = false →
  instances_loop img_width img_height pre [] 0 = Ok (lines, n) →
  (∀ (ya : list string) (ta : Z),
     instances_loop img_width img_height (pre ++ (key, value) :: post) ya ta
     = Raise AttributeError)
  ∧ process_anno_file tree source_dir output_dir split af st = (st, Some AttributeError)
  ∧ ∀ (v : json) (ya : list string) (ta : Z),
      instances_loop img_width img_height (pre ++ ("source", v) :: post) ya ta
      = instances_loop img_width img_height (pre ++ post) ya ta.
Proof.
  intros Hparsed Himg Hkey Hobj Hpre.
  assert (∀ ya ta, instances_loop img_width img_height (pre ++ (key, value) :: post) ya ta
                   = Raise AttributeError) as Hraise.
  { intros ya ta. rewrite instances_loop_app.
    rewrite instances_loop_emitted in Hpre.
    apply bind_ok in Hpre as (ls & Hls & _).
    rewrite instances_loop_emitted, Hls. simpl.
    rewrite decide_False by done.
    unfold process_instance. by destruct value. }
  split; [done|]. split.
  - unfold process_anno_file. rewrite Hparsed, Himg. simpl. by rewrite Hraise.
  - intros v ya ta. rewrite !instances_loop_app.
    destruct (instances_loop img_width img_height pre ya ta) as [r|e]; [|done].
    by simpl.
Qed.

Lemma X8_non_object_entry_raises_witness :
  @process_anno_file CPython.cpython Cases.paired_tree "./deepfashion2" "out" "train"
    Cases.anno4 (RunState empty_world 0 0)
  = (RunState empty_world 0 0, Some AttributeError).
Proof.
  refine (proj1 (proj2 (@X8_non_object_entry_raises CPython.cpython Cases.paired_tree
                          "./deepfashion2" "out" "train" Cases.anno4
                          (RunState empty_world 0 0) "JFIF-4" 200 400
                          [("source", @JStr CPython.cpython "user")]
                          [("item1", Scenario.item1)]
                          "pair_id" (@JNum CPython.cpython (CPython.PyInt 1)) [] 0
                          _ _ _ _ _))).
  - reflexivity.
  - vm_compute. reflexivity.
  - discriminate.
  - reflexivity.
  - reflexivity.
Defined.

(** ** An annotation file without a readable image *)

Section Simulation.
Context `{PyNum}.

Lemma same_output_refl st : same_output st st.
Proof. done. Qed.

Lemma same_output_trans st1 st2 st3 :
  same_output st1 st2 → same_output st2 st3 → same_output st1 st3.
Proof. intros (? & ? & ? & ?) (? & ? & ? & ?). repeat split; congruence. Qed.

Lemma process_anno_file_sim tree1 tree2 sd od split af st1 st2 :
  images tree1 = images tree2 → same_output st1 st2 →
  (process_anno_file tree1 sd od split af st1).2 = (process_anno_file tree2 sd od split af st2).2
  ∧ same_output (process_anno_file tree1 sd od split af st1).1
      (process_anno_file tree2 sd od split af st2).1.
Proof.
  intros Himg (Hf & Hd & Hi & Ha).
  destruct (process_anno_file tree1 sd od split af st1) as [st1' oe1] eqn:H1.
  destruct (process_anno_file tree2 sd od split af st2) as [st2' oe2] eqn:H2.
  apply process_anno_file_run in H1, H2. simpl.
  rewrite (file_lines_same_images tree1 tree2 af Himg) in H1.
  destruct oe1 as [e1|], oe2 as [e2|].
  - destruct H1 as [H1 ->], H2 as [H2 ->]. split; [congruence | done].
  - destruct H1 as [H1 ->], H2 as (o & H2 & _). congruence.
  - destruct H2 as [H2 ->], H1 as (o & H1 & _). congruence.
  - destruct H1 as (o1 & Ho1 & Hf1 & Hd1 & _ & Hi1 & Ha1).
    destruct H2 as (o2 & Ho2 & Hf2 & Hd2 & _ & Hi2 & Ha2).
    assert (o2 = o1) as -> by congruence.
    split; [done|]. repeat split; congruence.
Qed.

Lemma files_loop_sim tree1 tree2 sd od split afs st1 st2 :
  images tree1 = images tree2 → same_output st1 st2 →
  (files_loop tree1 sd od split afs st1).2 = (files_loop tree2 sd od split afs st2).2
  ∧ same_output (files_loop tree1 sd od split afs st1).1
      (files_loop tree2 sd od split afs st2).1.
Proof.
  intros Himg. revert st1 st2. induction afs as [|af rest IH]; intros st1 st2 Hsame; simpl.
  - done.
  - destruct (process_anno_file_sim tree1 tree2 sd od split af st1 st2 Himg Hsame)
      as [Hoe Hst].
    destruct (process_anno_file tree1 sd od split af st1) as [st1' [e1|]];
      destruct (process_anno_file tree2 sd od split af st2) as [st2' [e2|]];
      simpl in *; try done.
    by apply IH.
Qed.

Lemma files_loop_app tree sd od split l1 l2 st :
  files_loop tree sd od split (l1 ++ l2) st =
  match files_loop tree sd od split l1 st with
  | (st', None) => files_loop tree sd od split l2 st'
  | (st', Some e) => (st', Some e)
  end.
Proof.
  revert st. induction l1 as [|af l1 IH]; intros st; simpl; [done|].
  destruct (process_anno_file tree sd od split af st) as [st' [e|]]; [done | apply IH].
Qed.

(** A file that yields nothing leaves the output as it was. *)
Lemma process_anno_file_skip tree sd od split af st :
  file_lines tree af = Ok None →
  (process_anno_file tree sd od split af st).2 = None
  ∧ same_output (process_anno_file tree sd od split af st).1 st.
Proof.
  intros Hnone.
  destruct (process_anno_file tree sd od split af st) as [st' oe] eqn:Hstep.
  apply process_anno_file_run in Hstep. simpl. destruct oe as [e|].
  - destruct Hstep as [Hr _]. congruence.
  - destruct Hstep as (o & Ho & Hf & Hd & _ & Hi & Ha).
    assert (o = None) as -> by congruence. simpl in *.
    split; [done|]. repeat split; [done | done | lia | lia].
Qed.

Lemma files_loop_skip tree1 tree2 sd od split pre af post st1 st2 :
  images tree1 = images tree2 → same_output st1 st2 →
  file_lines tree1 af = Ok None →
  (files_loop tree1 sd od split (pre ++ af :: post) st1).2
  = (files_loop tree2 sd od split (pre ++ post) st2).2
  ∧ same_output (files_loop tree1 sd od split (pre ++ af :: post) st1).1
      (files_loop tree2 sd od split (pre ++ post) st2).1.
Proof.
  intros Himg Hsame Hnone. rewrite !files_loop_app.
  destruct (files_loop_sim tree1 tree2 sd od split pre st1 st2 Himg Hsame) as [Hoe Hst].
  destruct (files_loop tree1 sd od split pre st1) as [a1 [e1|]];
    destruct (files_loop tree2 sd od split pre st2) as [a2 [e2|]];
    simpl in *; try done.
  destruct (process_anno_file_skip tree1 sd od split af a1 Hnone) as [Hoe' Hst'].
  destruct (process_anno_file tree1 sd od split af a1) as [a1' [e|]]; simpl in *; [done|].
  apply files_loop_sim; [done|]. by eapply same_output_trans.
Qed.

Lemma process_split_sim tree sd od split st1 st2 :
  same_output st1 st2 →
  (process_split tree sd od split st1).2 = (process_split tree sd od split st2).2
  ∧ same_output (process_split tree sd od split st1).1 (process_split tree sd od split st2).1.
Proof.
  intros Hsame. unfold process_split. destruct (annos tree) as [afs|].
  - apply files_loop_sim; [done|]. destruct Hsame as (? & ? & ? & ?). by repeat split.
  - simpl. split; [done|]. destruct Hsame as (? & ? & ? & ?). by repeat split.
Qed.

Lemma process_split_skip tree1 tree2 sd od split pre af post st1 st2 :
  annos tree1 = Some (pre ++ af :: post)%list →
  annos tree2 = Some (pre ++ post)%list →
  images tree1 = images tree2 → same_output st1 st2 →
  file_lines tree1 af = Ok None →
  (process_split tree1 sd od split st1).2 = (process_split tree2 sd od split st2).2
  ∧ same_output (process_split tree1 sd od split st1).1 (process_split tree2 sd od split st2).1.
Proof.
  intros H1 H2 Himg Hsame Hnone. unfold process_split. rewrite H1, H2.
  apply files_loop_skip; [done| |done]. destruct Hsame as (? & ? & ? & ?). by repeat split.
Qed.

(** The run after its header and its four folders: two loops over the
    splits that end alike make two runs that end alike. *)
Lemma convert_same_output src1 src2 sd od abs w :
  (let st0 := RunState (makedirs (od +:+ "/labels/val") (makedirs (od +:+ "/labels/train")
                 (makedirs (od +:+ "/images/val") (makedirs (od +:+ "/images/train")
                    (print ("Converting DeepFashion2 from " +:+ sd +:+ " to YOLO format...") w)))))
                0 0 in
   (splits_loop src1 sd od ["train"; "validation"] st0).2
   = (splits_loop src2 sd od ["train"; "validation"] st0).2
   ∧ same_output (splits_loop src1 sd od ["train"; "validation"] st0).1
       (splits_loop src2 sd od ["train"; "validation"] st0).1) →
  (convert_deepfashion2_to_yolo src1 sd od abs w).2
  = (convert_deepfashion2_to_yolo src2 sd od abs w).2
  ∧ files (convert_deepfashion2_to_yolo src1 sd od abs w).1
    = files (convert_deepfashion2_to_yolo src2 sd od abs w).1
  ∧ dirs (convert_deepfashion2_to_yolo src1 sd od abs w).1
    = dirs (convert_deepfashion2_to_yolo src2 sd od abs w).1.
Proof.
  cbv zeta. unfold convert_deepfashion2_to_yolo.
  destruct (splits_loop src1 sd od _ _) as [st1 oe1].
  destruct (splits_loop src2 sd od _ _) as [st2 oe2].
  simpl. intros [-> (Hf & Hd & Hi & Ha)].
  destruct oe2 as [e|]; simpl; [done|].
  rewrite Hf, Hd, Hi, Ha. done.
Qed.

End Simulation.

(** X9. An annotation file that holds valid JSON, of whatever shape,
    and whose image is missing or cannot be opened is skipped: the run
    ends as the run on the source without that file ends, with the same
    exception if any, the same files with the same contents (the
    counters of the manifest among them) and the same folders. *)
Theorem X9_imageless_file_skipped `{PyNum} (src1 src2 : dataset)
    (source_dir output_dir abs_output : string) (w : world)
    (split : string) (pre post : list anno_file) (af : anno_file) (data : json) :
  split ∈ ["train"; "validation"] →
  annos (tree_of src1 split) = Some (pre ++ af :: post)%list →
  annos (tree_of src2 split) = Some (pre ++ post)%list →
  images (tree_of src1 split) = images (tree_of src2 split) →
  (∀ other : string,
     other ∈ ["train"; "validation"] → other ≠ split →
     tree_of src1 other = tree_of src2 other) →
  parsed af = Some data →
  (∀ (raw : string) (img_width img_height : Z),
     images (tree_of src1 split) !! image_name_of (stem af)
     ≠ Some (Readable raw img_width img_height)) →
  let r1 := convert_deepfashion2_to_yolo src1 source_dir output_dir abs_output w in
  let r2 := convert_deepfashion2_to_yolo src2 source_dir output_dir abs_output w in
  r1.2 = r2.2 ∧ files r1.1 = files r2.1 ∧ dirs r1.1 = dirs r2.1.
Proof.
  intros Hsplit Ha1 Ha2 Himg Hother Hparsed Hnoimg. cbv zeta.
  assert (file_lines (tree_of src1 split) af = Ok None) as Hnone.
  { unfold file_lines. rewrite Hparsed.
    destruct (images (tree_of src1 split) !! image_name_of (stem af)) as [[msg|raw iw ih]|]
      eqn:Hi; [done| |done].
    by destruct (Hnoimg raw iw ih). }
  apply convert_same_output. cbv zeta. unfold splits_loop.
  set (st0 := RunState _ 0 0).
  assert ("validation" ∈ ["train"; "validation"]) as Hva by (right; by left).
  assert ("train" ∈ ["train"; "validation"]) as Htr by (by left).
  apply elem_of_cons in Hsplit as [->|Hsplit];
    [|apply list_elem_of_singleton in Hsplit as ->].
  - destruct (process_split_skip _ _ source_dir output_dir "train" pre af post st0 st0
                Ha1 Ha2 Himg (same_output_refl st0) Hnone) as [Hoe Hst].
    destruct (process_split (tree_of src1 "train") _ _ _ _) as [a1 [e1|]];
      destruct (process_split (tree_of src2 "train") _ _ _ _) as [a2 [e2|]];
      simpl in *; try done.
    rewrite (Hother "validation" Hva) by done.
    pose proof (process_split_sim (tree_of src2 "validation") source_dir output_dir
                  "validation" a1 a2 Hst) as [Hoe' Hst'].
    destruct (process_split (tree_of src2 "validation") _ _ _ a1) as [b1 [e1|]];
      destruct (process_split (tree_of src2 "validation") _ _ _ a2) as [b2 [e2|]];
      simpl in *; done.
  - rewrite (Hother "train" Htr) by done.
    destruct (process_split (tree_of src2 "train") _ _ _ _) as [a1 [e1|]]; [done|].
    destruct (process_split_skip _ _ source_dir output_dir "validation" pre af post a1 a1
                Ha1 Ha2 Himg (same_output_refl a1) Hnone) as [Hoe Hst].
    destruct (process_split (tree_of src1 "validation") _ _ _ _) as [b1 [e1|]];
      destruct (process_split (tree_of src2 "validation") _ _ _ _) as [b2 [e2|]];
      simpl in *; done.
Qed.

Lemma X9_imageless_file_skipped_witness :
  files (@convert_deepfashion2_to_yolo CPython.cpython Cases.damaged_source
           "./deepfashion2" "out" "/data/out" empty_world).1
  = files (@convert_deepfashion2_to_yolo CPython.cpython Cases.undamaged_source
             "./deepfashion2" "out" "/data/out" empty_world).1.
Proof.
  refine (proj1 (proj2 (@X9_imageless_file_skipped CPython.cpython
                          Cases.damaged_source Cases.undamaged_source
                          "./deepfashion2" "out" "/data/out" empty_world
                          "train" [Scenario.anno1] [Scenario.anno2] Cases.anno5
                          (@JArr CPython.cpython []) _ _ _ _ _ _ _))).
  - by left.
  - reflexivity.
  - reflexivity.
  - reflexivity.
  - intros other Hin Hne. apply elem_of_cons in Hin as [->|Hin]; [done|].
    apply list_elem_of_singleton in Hin as ->. reflexivity.
  - reflexivity.
  - intros raw iw ih. vm_compute. discriminate.
Defined.

(** ** CPython's numbers in the label lines *)

Lemma round_half_even_unit (n d : Z) :
  0 < d → 0 ≤ n ≤ 1000000 * d → 0 ≤ round_half_even n d ≤ 1000000.
Proof.
  intros Hd Hn. unfold round_half_even.
  pose proof (Z.div_mod n d ltac:(lia)) as Hdm.
  pose proof (Z.mod_pos_bound n d Hd) as Hr.
  assert (0 ≤ n / d) as Hq0 by (apply Z.div_pos; lia).
  assert (n / d ≤ 1000000) as Hq1 by (apply Z.div_le_upper_bound; lia).
  destruct (2 * (n mod d) <? d) eqn:H1; [lia|].
  apply Z.ltb_ge in H1.
  assert (n / d < 1000000) by nia.
  destruct (d <? 2 * (n mod d)); [lia|]. destruct (Z.even (n / d)); lia.
Qed.

(** What [.6f] prints for a float that passed the validation. *)
Lemma cpython_fmt_6f_unit (f : float) :
  @in_unit CPython.cpython (CPython.PyFloat f) = true →
  unit_text (@fmt_6f CPython.cpython (CPython.PyFloat f)).
Proof.
  unfold in_unit, unit_text.
  cbn [num_le of_int fmt_6f CPython.cpython CPython.le CPython.format_num].
  unfold CPython.int_le_float, CPython.float_le_int, CPython.format_6f.
  destruct (Prim2SF f) as [s|s| |s m e]; intros Hin.
  - exists (if s then "-" else ""), 0. split; [done|]. split; [lia|].
    destruct s; auto.
  - by destruct s.
  - done.
  - apply andb_true_iff in Hin as [Hlo Hhi].
    assert (s = false) as ->.
    { destruct s; [|done]. destruct (0 <=? e) eqn:He.
      - apply Z.leb_le in Hlo. apply Z.leb_le in He.
        pose proof (Z.pow_pos_nonneg 2 e ltac:(lia) He). nia.
      - apply Z.leb_le in Hlo. lia. }
    eexists "", _. split; [reflexivity|]. split; [|by left].
    destruct (0 <=? e) eqn:He.
    + apply Z.leb_le in Hhi. apply Z.leb_le in He.
      pose proof (Z.pow_pos_nonneg 2 e ltac:(lia) He). nia.
    + apply Z.leb_le in Hhi. apply Z.leb_gt in He.
      pose proof (Z.pow_pos_nonneg 2 (- e) ltac:(lia) ltac:(lia)).
      apply round_half_even_unit; lia.
Qed.

(** A true division gives a float. *)
Lemma cpython_truediv_float (x y r : @num CPython.cpython) :
  @num_truediv CPython.cpython x y = Ok r → ∃ f, r = CPython.PyFloat f.
Proof.
  cbn [num_truediv CPython.cpython]. unfold CPython.truediv.
  destruct x as [a|a], y as [b|b]; intros Hr.
  - apply bind_ok in Hr as (q & _ & [= <-]). by eexists.
  - apply bind_ok in Hr as (a' & _ & Hr). apply bind_ok in Hr as (b' & _ & Hr).
    apply bind_ok in Hr as (q & _ & [= <-]). by eexists.
  - apply bind_ok in Hr as (a' & _ & Hr). apply bind_ok in Hr as (b' & _ & Hr).
    apply bind_ok in Hr as (q & _ & [= <-]). by eexists.
  - apply bind_ok in Hr as (a' & _ & Hr). apply bind_ok in Hr as (b' & _ & Hr).
    apply bind_ok in Hr as (q & _ & [= <-]). by eexists.
Qed.

Lemma cpython_center_box_floats w h (x1 y1 x2 y2 : @json CPython.cpython)
    (b : @center_box CPython.cpython) :
  @to_center_box CPython.cpython w h x1 y1 x2 y2 = Ok b →
  ∃ f1 f2 f3 f4,
    b = @CenterBox CPython.cpython (CPython.PyFloat f1) (CPython.PyFloat f2)
          (CPython.PyFloat f3) (CPython.PyFloat f4).
Proof.
  unfold to_center_box. intros Hb.
  apply bind_ok in Hb as (sx & _ & Hb). apply bind_ok in Hb as (hx & _ & Hb).
  apply bind_ok in Hb as (xc & Hxc & Hb).
  apply bind_ok in Hb as (sy & _ & Hb). apply bind_ok in Hb as (hy & _ & Hb).
  apply bind_ok in Hb as (yc & Hyc & Hb).
  apply bind_ok in Hb as (dx & _ & Hb). apply bind_ok in Hb as (wd & Hwd & Hb).
  apply bind_ok in Hb as (dy & _ & Hb). apply bind_ok in Hb as (ht & Hht & [= <-]).
  apply cpython_truediv_float in Hxc as [f1 ->], Hyc as [f2 ->].
  unfold py_truediv in Hwd, Hht.
  destruct (as_number dx); [|done]. destruct (as_number dy); [|done].
  apply cpython_truediv_float in Hwd as [f3 ->], Hht as [f4 ->].
  by exists f1, f2, f3, f4.
Qed.

(** X10. With CPython's numbers, every line the loop over the
    instances emits is a class id of the table followed by four values
    that are printed within [[0, 1]]: each is a count of millionths
    between [0.000000] and [1.000000], written without a sign, or with
    the minus sign of a negative zero. The rounding to six decimals
    never prints a value above one. *)
Theorem X10_cpython_label_values_in_unit (img_width img_height : Z)
    (items : list (string * @json CPython.cpython)) (lines : list string) (n : Z) :
  @instances_loop CPython.cpython img_width img_height items [] 0 = Ok (lines, n) →
  Forall (λ line,
    ∃ (class_id : Z) (x_center y_center width height : string),
      line = str_int class_id +:+ " " +:+ x_center +:+ " " +:+ y_center +:+ " "
               +:+ width +:+ " " +:+ height
      ∧ class_id ∈ [0; 1; 3; 4]
      ∧ unit_text x_center ∧ unit_text y_center ∧ unit_text width ∧ unit_text height)
    lines.
Proof.
  intros Hloop. rewrite instances_loop_emitted in Hloop.
  apply bind_ok in Hloop as (ls & Hls & [= <- _]). simpl.
  eapply emitted_lines_Forall; [|exact Hls].
  intros d line Hp. unfold process_instance in Hp.
  apply bind_ok in Hp as (category & _ & Hp).
  apply bind_ok in Hp as (hit & Hhit & Hp).
  destruct hit as [class_id|]; [|done].
  apply bind_ok in Hp as (bbox & _ & Hp).
  apply bind_ok in Hp as (len & _ & Hp).
  case_decide; [done|].
  apply bind_ok in Hp as ([[[x1 y1] x2] y2] & _ & Hp).
  apply bind_ok in Hp as (b & Hb & Hp).
  destruct (forallb in_unit (box_values b)) eqn:Hall; [|done].
  injection Hp as <-.
  apply cpython_center_box_floats in Hb as (f1 & f2 & f3 & f4 & ->).
  unfold box_values in Hall. cbn [box_x_center box_y_center box_width box_height] in Hall.
  cbn [forallb] in Hall.
  apply andb_true_iff in Hall as [H1 Hall]. apply andb_true_iff in Hall as [H2 Hall].
  apply andb_true_iff in Hall as [H3 Hall]. apply andb_true_iff in Hall as [H4 _].
  eexists class_id, _, _, _, _. split; [reflexivity|]. split.
  - destruct category; try done. simpl in Hhit. injection Hhit as Hhit.
    by eapply mapping_values.
  - cbn [box_x_center box_y_center box_width box_height].
    repeat split; by apply cpython_fmt_6f_unit.
Qed.

Lemma X10_cpython_label_values_in_unit_witness :
  Forall (λ line,
    ∃ (class_id : Z) (x_center y_center width height : string),
      line = str_int class_id +:+ " " +:+ x_center +:+ " " +:+ y_center +:+ " "
               +:+ width +:+ " " +:+ height
      ∧ class_id ∈ [0; 1; 3; 4]
      ∧ unit_text x_center ∧ unit_text y_center ∧ unit_text width ∧ unit_text height)
    ["0 0.300000 0.300000 0.500000 0.500000"].
Proof.
  refine (X10_cpython_label_values_in_unit 200 400 Scenario.annotation
            ["0 0.300000 0.300000 0.500000 0.500000"] 1 _).
  vm_compute. reflexivity.
Defined.

(** ** The exceptions of a run *)

Lemma cpython_check_range_raise f e :
  CPython.check_range f = Raise e → e = OverflowError.
Proof. unfold CPython.check_range. destruct (is_infinity f); [by intros [= <-] | done]. Qed.

Lemma cpython_to_float_raise x e : CPython.to_float x = Raise e → e = OverflowError.
Proof. destruct x; simpl; [apply cpython_check_range_raise | done]. Qed.

Lemma cpython_float_div_raise a b e :
  CPython.float_div a b = Raise e → e = ZeroDivisionError.
Proof.
  unfold CPython.float_div. destruct (PrimFloat.eqb b PrimFloat.zero); [by intros [= <-] | done].
Qed.

Lemma cpython_add_raise x y e : CPython.add x y = Raise e → arithmetic_exn e = true.
Proof.
  unfold CPython.add. destruct x as [a|a], y as [b|b]; try done; intros Hr;
    (apply bind_raise in Hr as [Hr|(a' & _ & Hr)];
     [by apply cpython_to_float_raise in Hr as ->|];
     apply bind_raise in Hr as [Hr|(b' & _ & Hr)];
     [by apply cpython_to_float_raise in Hr as -> | done]).
Qed.

Lemma cpython_sub_raise x y e : CPython.sub x y = Raise e → arithmetic_exn e = true.
Proof.
  unfold CPython.sub. destruct x as [a|a], y as [b|b]; try done; intros Hr;
    (apply bind_raise in Hr as [Hr|(a' & _ & Hr)];
     [by apply cpython_to_float_raise in Hr as ->|];
     apply bind_raise in Hr as [Hr|(b' & _ & Hr)];
     [by apply cpython_to_float_raise in Hr as -> | done]).
Qed.

Lemma cpython_truediv_raise x y e : CPython.truediv x y = Raise e → arithmetic_exn e = true.
Proof.
  unfold CPython.truediv. destruct x as [a|a], y as [b|b]; intros Hr.
  - apply bind_raise in Hr as [Hr|(q & _ & Hr)]; [|done].
    unfold CPython.int_true_divide in Hr. case_decide; [by injection Hr as <-|].
    by apply cpython_check_range_raise in Hr as ->.
  - apply bind_raise in Hr as [Hr|(a' & _ & Hr)];
      [by apply cpython_to_float_raise in Hr as ->|].
    apply bind_raise in Hr as [Hr|(b' & _ & Hr)];
      [by apply cpython_to_float_raise in Hr as ->|].
    apply bind_raise in Hr as [Hr|(q & _ & Hr)]; [|done].
    by apply cpython_float_div_raise in Hr as ->.
  - apply bind_raise in Hr as [Hr|(a' & _ & Hr)];
      [by apply cpython_to_float_raise in Hr as ->|].
    apply bind_raise in Hr as [Hr|(b' & _ & Hr)];
      [by apply cpython_to_float_raise in Hr as ->|].
    apply bind_raise in Hr as [Hr|(q & _ & Hr)]; [|done].
    by apply cpython_float_div_raise in Hr as ->.
  - apply bind_raise in Hr as [Hr|(a' & _ & Hr)];
      [by apply cpython_to_float_raise in Hr as ->|].
    apply bind_raise in Hr as [Hr|(b' & _ & Hr)];
      [by apply cpython_to_float_raise in Hr as ->|].
    apply bind_raise in Hr as [Hr|(q & _ & Hr)]; [|done].
    by apply cpython_float_div_raise in Hr as ->.
Qed.

Section GuardedArithmetic.
Context `{PyNum}.
Hypothesis add_raise : ∀ x y e, num_add x y = Raise e → arithmetic_exn e = true.
Hypothesis sub_raise : ∀ x y e, num_sub x y = Raise e → arithmetic_exn e = true.
Hypothesis truediv_raise : ∀ x y e, num_truediv x y = Raise e → arithmetic_exn e = true.

Lemma py_add_raise a b e :
  py_add a b = Raise e → e = TypeError ∨ arithmetic_exn e = true.
Proof.
  unfold py_add. destruct (as_number a) as [x|], (as_number b) as [y|].
  - intros Hr. apply bind_raise in Hr as [Hr|(n & _ & Hr)]; [|done].
    right. by eapply add_raise.
  - destruct a, b; try done; intros [= <-]; by left.
  - destruct a, b; try done; intros [= <-]; by left.
  - destruct a, b; try done; intros [= <-]; by left.
Qed.

Lemma py_sub_raise a b e :
  py_sub a b = Raise e → e = TypeError ∨ arithmetic_exn e = true.
Proof.
  unfold py_sub. destruct (as_number a) as [x|], (as_number b) as [y|];
    try (intros [= <-]; by left).
  intros Hr. apply bind_raise in Hr as [Hr|(n & _ & Hr)]; [|done].
  right. by eapply sub_raise.
Qed.

Lemma py_truediv_raise a n e :
  py_truediv a n = Raise e → e = TypeError ∨ arithmetic_exn e = true.
Proof.
  unfold py_truediv. destruct (as_number a) as [x|]; [|intros [= <-]; by left].
  intros Hr. right. by eapply truediv_raise.
Qed.

Lemma to_center_box_raise w h x1 y1 x2 y2 e :
  to_center_box w h x1 y1 x2 y2 = Raise e → e = TypeError ∨ arithmetic_exn e = true.
Proof.
  unfold to_center_box. intros Hr.
  apply bind_raise in Hr as [Hr|(sx & _ & Hr)]; [by eapply py_add_raise|].
  apply bind_raise in Hr as [Hr|(hx & _ & Hr)]; [by eapply py_truediv_raise|].
  apply bind_raise in Hr as [Hr|(xc & _ & Hr)]; [right; by eapply truediv_raise|].
  apply bind_raise in Hr as [Hr|(sy & _ & Hr)]; [by eapply py_add_raise|].
  apply bind_raise in Hr as [Hr|(hy & _ & Hr)]; [by eapply py_truediv_raise|].
  apply bind_raise in Hr as [Hr|(yc & _ & Hr)]; [right; by eapply truediv_raise|].
  apply bind_raise in Hr as [Hr|(dx & _ & Hr)]; [by eapply py_sub_raise|].
  apply bind_raise in Hr as [Hr|(wd & _ & Hr)]; [by eapply py_truediv_raise|].
  apply bind_raise in Hr as [Hr|(dy & _ & Hr)]; [by eapply py_sub_raise|].
  apply bind_raise in Hr as [Hr|(ht & _ & Hr)]; [by eapply py_truediv_raise|].
  done.
Qed.

(** What an instance can raise: the length guard rules out the
    [ValueError] of the unpacking. *)
Lemma process_instance_raise w h d e :
  process_instance w h d = Raise e →
  e = AttributeError ∨ e = TypeError ∨ arithmetic_exn e = true.
Proof.
  unfold process_instance. intros Hr.
  apply bind_raise in Hr as [Hr|(category & _ & Hr)].
  { left. destruct d; try done; by injection Hr as <-. }
  apply bind_raise in Hr as [Hr|(hit & _ & Hr)].
  { right. left. destruct category; try done; by injection Hr as <-. }
  destruct hit as [class_id|]; [|done].
  apply bind_raise in Hr as [Hr|(bbox & _ & Hr)].
  { left. destruct d; try done; by injection Hr as <-. }
  apply bind_raise in Hr as [Hr|(n & Hn & Hr)].
  { right. left. destruct bbox; try done; by injection Hr as <-. }
  case_decide as Hn4; [done|].
  assert (n = 4%nat) as -> by (destruct (decide (n = 4%nat)); [done | by destruct Hn4]).
  destruct (unpack4_guarded bbox Hn) as (a & b & c & x & Hu). rewrite Hu in Hr. simpl in Hr.
  apply bind_raise in Hr as [Hr|(box & _ & Hr)].
  - right. by eapply to_center_box_raise.
  - by case_match.
Qed.

Lemma file_lines_raise_kind tree af e :
  file_lines tree af = Raise e →
  (e = JsonLoadError ∧ parsed af = None)
  ∨ e = AttributeError ∨ e = TypeError ∨ arithmetic_exn e = true.
Proof.
  unfold file_lines. destruct (parsed af) as [data|]; [|intros [= <-]; by left].
  destruct (images tree !! image_name_of (stem af)) as [[msg|raw w h]|]; try done.
  intros Hr. right.
  apply bind_raise in Hr as [Hr|(items & _ & Hr)].
  { left. destruct data; try done; by injection Hr as <-. }
  apply bind_raise in Hr as [Hr|(ls & _ & Hr)]; [|done].
  apply emitted_lines_raise in Hr as (k & d & _ & _ & Hr).
  by apply process_instance_raise in Hr.
Qed.

End GuardedArithmetic.

(** X11. With CPython's numbers, and the failures of the operating
    system apart, the exception that ends a run is either the one that
    [json.load] raised on a listed annotation file it could not load,
    whichever that exception is, or one of four that the converter's
    own statements raise: [AttributeError], [TypeError],
    [ZeroDivisionError], [OverflowError]. So when every listed file
    loads the exception is one of the four; the unpacking of line 94
    raises none, since the length guard of line 91 rules out its
    [ValueError]. *)
Theorem X11_cpython_run_exceptions (src : @dataset CPython.cpython)
    (source_dir output_dir abs_output : string) (w w' : world) (e : exn) :
  @convert_deepfashion2_to_yolo CPython.cpython src source_dir output_dir abs_output w
  = (w', Some e) →
  (e = JsonLoadError
   ∧ ∃ (split : string) (af : @anno_file CPython.cpython),
       split ∈ ["train"; "validation"]
       ∧ af ∈ visited (tree_of src split)
       ∧ parsed af = None)
  ∨ e ∈ [AttributeError; TypeError; ZeroDivisionError; OverflowError].
Proof.
  intros Hrun.
  assert (∃ (split : string) (af : @anno_file CPython.cpython),
            split ∈ ["train"; "validation"]
            ∧ af ∈ visited (tree_of src split)
            ∧ file_lines (tree_of src split) af = Raise e) as (split & af & Hs & Haf & Hr).
  { apply convert_raises in Hrun as [Hr|Hr]; apply split_yields_raise in Hr as (af & Hin & Hr).
    - exists "train", af. split; [by left | done].
    - exists "validation", af. split; [right; by left | done]. }
  apply (@file_lines_raise_kind CPython.cpython cpython_add_raise cpython_sub_raise
           cpython_truediv_raise) in Hr.
  destruct Hr as [[-> Hp]|Hr].
  - left. split; [done|]. by exists split, af.
  - right. rewrite !elem_of_cons.
    destruct Hr as [->|[->|Hr]]; [tauto..|].
    destruct e; try done; tauto.
Qed.

Lemma X11_cpython_run_exceptions_witness :
  TypeError ∈ [AttributeError; TypeError; ZeroDivisionError; OverflowError].
Proof.
  destruct (X11_cpython_run_exceptions Cases.broken_source
              "./deepfashion2" "out" "/data/out" empty_world
              (@convert_deepfashion2_to_yolo CPython.cpython Cases.broken_source
                 "./deepfashion2" "out" "/data/out" empty_world).1 TypeError)
    as [[Hload _]|Hin].
  - vm_compute. reflexivity.
  - discriminate Hload.
  - exact Hin.
Defined.

Lemma cpython_div_by_zero (f : float) :
  CPython.truediv (CPython.PyFloat f) (CPython.PyInt 0) = Raise ZeroDivisionError.
Proof. reflexivity. Qed.

Lemma cpython_halve (x : CPython.pynum) :
  (∃ e, CPython.truediv x (CPython.PyInt 2) = Raise e ∧ arithmetic_exn e = true)
  ∨ ∃ f, CPython.truediv x (CPython.PyInt 2) = Ok (CPython.PyFloat f).
Proof.
  destruct (CPython.truediv x (CPython.PyInt 2)) as [r|e] eqn:Hr.
  - right. apply cpython_truediv_float in Hr as [f ->]. by exists f.
  - left. exists e. split; [done | by eapply cpython_truediv_raise].
Qed.

(** X12. With CPython's numbers, on an image whose width or height is
    zero an instance with a mapped category and a box of four numbers
    is neither kept nor dropped: the division of line 97 or 98 raises
    [ZeroDivisionError] (or an int beyond the range of the floats
    raises [OverflowError] before it), and the loop over the instances
    raises with it. *)
Theorem X12_cpython_zero_sized_image_raises (kvs : list (string * @json CPython.cpython))
    (category : string) (class_id : Z) (x1 y1 x2 y2 : CPython.pynum)
    (img_width img_height : Z) :
  dict_get kvs "category_name" (JStr "") = JStr category →
  CATEGORY_MAPPING !! category = Some class_id →
  dict_get kvs "bounding_box" (JArr [])
  = JArr [@JNum CPython.cpython x1; @JNum CPython.cpython y1;
          @JNum CPython.cpython x2; @JNum CPython.cpython y2] →
  img_width = 0 ∨ img_height = 0 →
  ∃ e : exn,
    @process_instance CPython.cpython img_width img_height (JObj kvs) = Raise e
    ∧ e ∈ [ZeroDivisionError; OverflowError]
    ∧ ∀ (key : string) (post : list (string * @json CPython.cpython))
        (ya : list string) (ta : Z),
        key ≠ "source" →
        @instances_loop CPython.cpython img_width img_height ((key, JObj kvs) :: post) ya ta
        = Raise e.
Proof.
  intros Hc Hm Hb Hzero.
  assert (∃ e, @to_center_box CPython.cpython img_width img_height
                 (@JNum CPython.cpython x1) (@JNum CPython.cpython y1)
                 (@JNum CPython.cpython x2) (@JNum CPython.cpython y2) = Raise e
               ∧ arithmetic_exn e = true) as (e & Hraise & He).
  { rewrite (@to_center_box_numbers CPython.cpython). unfold spec_center_box.
    cbn [num_add num_sub num_truediv of_int CPython.cpython].
    destruct (CPython.add x1 x2) as [sx|e] eqn:Hsx;
      [|exists e; split; [done | by eapply cpython_add_raise]].
    cbn [mbind result_bind].
    destruct (cpython_halve sx) as [(e & -> & He)|(hx & ->)]; [by exists e|].
    cbn [mbind result_bind].
    destruct Hzero as [->| ->].
    { rewrite cpython_div_by_zero. by exists ZeroDivisionError. }
    destruct (CPython.truediv (CPython.PyFloat hx) (CPython.PyInt img_width)) as [xc|e] eqn:Hxc;
      [|exists e; split; [done | by eapply cpython_truediv_raise]].
    cbn [mbind result_bind].
    destruct (CPython.add y1 y2) as [sy|e] eqn:Hsy;
      [|exists e; split; [done | by eapply cpython_add_raise]].
    cbn [mbind result_bind].
    destruct (cpython_halve sy) as [(e & -> & He)|(hy & ->)]; [by exists e|].
    cbn [mbind result_bind].
    rewrite cpython_div_by_zero. by exists ZeroDivisionError. }
  assert (@process_instance CPython.cpython img_width img_height (JObj kvs) = Raise e)
    as Hp.
  { rewrite (@process_instance_box CPython.cpython _ _ _ _ _ _ _ _ _ Hc Hm Hb).
    by rewrite Hraise. }
  exists e. split; [done|]. split.
  - rewrite !elem_of_cons. destruct e; try done; tauto.
  - intros key post ya ta Hkey. simpl. rewrite decide_False by done. by rewrite Hp.
Qed.

Lemma X12_cpython_zero_sized_image_raises_witness :
  ∃ e : exn,
    @process_instance CPython.cpython 0 400 Scenario.item1 = Raise e
    ∧ e ∈ [ZeroDivisionError; OverflowError].
Proof.
  destruct (X12_cpython_zero_sized_image_raises Scenario.item1_fields "short sleeve top" 0
              (CPython.PyInt 10) (CPython.PyInt 20) (CPython.PyInt 110) (CPython.PyInt 220)
              0 400) as (e & He & Hin & _).
  - reflexivity.
  - vm_compute. reflexivity.
  - reflexivity.
  - by left.
  - exists e. split; [exact He | exact Hin].
Defined.

(** ** The manifest read back *)

Lemma str_int_inj (a b : Z) : str_int a = str_int b → a = b.
Proof.
  unfold str_int. intros Heq.
  assert (∀ z, Z.to_int z ≠ Decimal.Pos Decimal.Nil ∧ Z.to_int z ≠ Decimal.Neg Decimal.Nil)
    as Hnn.
  { intros z. pose proof (DecimalZ.to_of (Z.to_int z)) as Hn. rewrite DecimalZ.of_to in Hn.
    split; intros Hz; rewrite Hz in Hn; discriminate. }
  destruct (Hnn a) as [Ha1 Ha2], (Hnn b) as [Hb1 Hb2].
  pose proof (NilZero.isi _ Ha1 Ha2) as Hia. pose proof (NilZero.isi _ Hb1 Hb2) as Hib.
  rewrite Heq in Hia. rewrite Hia in Hib. injection Hib as Hib.
  by apply DecimalZ.to_int_inj.
Qed.

(** A text without line feed is cut off at the first line feed. *)
Lemma first_line_inj (a a' b b' : string) :
  count_nl a = O → count_nl a' = O →
  a +:+ nl +:+ b = a' +:+ nl +:+ b' → a = a' ∧ b = b'.
Proof.
  revert a'. induction a as [|c a IH]; intros [|c' a']; simpl.
  - intros _ _ [= <-]. done.
  - intros _ Hc' [= <- _]. by rewrite decide_True in Hc'.
  - intros Hc _ [= -> _]. by rewrite decide_True in Hc.
  - intros Hc Hc' [= -> Heq].
    destruct (decide (c' = "010"%char)); [done|]. simpl in Hc, Hc'.
    destruct (IH a' Hc Hc' Heq) as [-> ->]. done.
Qed.

(** X13. The manifest determines its two counters: two manifests for
    the same output path that are the same text hold the same number of
    images and the same number of annotations. *)
Theorem X13_manifest_determines_counters (abs_output : string)
    (total_images total_annotations total_images' total_annotations' : Z) :
  yaml_content abs_output total_images total_annotations
  = yaml_content abs_output total_images' total_annotations' →
  total_images = total_images' ∧ total_annotations = total_annotations'.
Proof.
  rewrite !yaml_content_counts. intros Heq.
  apply (inj (String.append (yaml_head abs_output))) in Heq.
  apply (inj (String.append "# Total images: ")) in Heq.
  apply first_line_inj in Heq as [Hi Heq]; [|apply count_nl_str_int..].
  apply (inj (String.append "# Total annotations: ")) in Heq.
  apply first_line_inj in Heq as [Ha _]; [|apply count_nl_str_int..].
  split; by apply str_int_inj.
Qed.

Lemma X13_manifest_determines_counters_witness : (1 = 1 ∧ 2 = 2)%Z.
Proof.
  exact (X13_manifest_determines_counters "/data/out" 1 2 1 2 eq_refl).
Defined.

(** ** The folder the evaluation script predicts on *)

Lemma prefix_app_inv (old x b : string) :
  String.prefix old (x +:+ b) = true →
  String.prefix old x = true ∨ ∃ y, old = x +:+ y ∧ String.prefix y b = true.
Proof.
  revert x. induction old as [|a old IH]; intros x; [intros _; left; apply prefix_empty|].
  destruct x as [|c x]; simpl.
  - intros Hp. right. by exists (String a old).
  - destruct (ascii_dec a c) as [->|]; [|done].
    intros Hp. destruct (IH x Hp) as [Hl|(y & -> & Hy)]; [by left|].
    right. by exists y.
Qed.

Lemma replace_from_absent (old new s : string) :
  occurs old s = false → replace_from old new 0 s = s.
Proof.
  induction s as [|c s IH]; [done|].
  cbn [occurs replace_from]. intros Ho. apply orb_false_iff in Ho as [Hp Ho].
  rewrite Hp. f_equal. by apply IH.
Qed.

Lemma no_slash_in_name (x y : string) : x +:+ String "/" y ≠ "data.yaml".
Proof.
  intros Heq.
  do 9 (destruct x as [|? x]; simpl in Heq; [discriminate|]; injection Heq as ? Heq).
  destruct x; discriminate.
Qed.

Lemma val_image_dir_manifest (od : string) :
  occurs "data.yaml" od = false →
  val_image_dir (manifest_path od) = od +:+ "/images/val".
Proof.
  unfold val_image_dir, str_replace, manifest_path.
  induction od as [|c od IH]; [reflexivity|].
  cbn [occurs]. intros Ho. apply orb_false_iff in Ho as [Hp Ho].
  change (String c od +:+ "/data.yaml") with (String c (od +:+ "/data.yaml")).
  cbn [replace_from].
  destruct (String.prefix "data.yaml" (String c (od +:+ "/data.yaml"))) eqn:Hp'.
  - exfalso.
    apply (prefix_app_inv "data.yaml" (String c od) "/data.yaml") in Hp'
      as [Hl|(y & Hy & Hpy)]; [congruence|].
    destruct y as [|d y].
    + assert (String c od = "data.yaml") as Heq.
      { rewrite Hy. clear. induction (String c od) as [|? ? IH']; simpl; [done | by f_equal]. }
      rewrite Heq in Hp. discriminate.
    + simpl in Hpy. destruct (ascii_dec d "/") as [->|]; [|done].
      symmetry in Hy. by apply no_slash_in_name in Hy.
  - change (String c od +:+ "/images/val") with (String c (od +:+ "/images/val")).
    f_equal. by apply IH.
Qed.

(** X14. The evaluation script derives the folder of validation images
    from the path of the manifest by replacing [data.yaml] with
    [images/val]. For the manifest of an output folder whose path does
    not hold [data.yaml], that is the [images/val] folder the converter
    made. A path that does not hold [data.yaml] comes back unchanged, so
    a manifest under another name is taken for the folder itself; and
    every occurrence is replaced, also one in the name of a folder. *)
Theorem X14_evaluation_reads_converter_folder :
  (∀ data_yaml : string,
     occurs "data.yaml" data_yaml = false → val_image_dir data_yaml = data_yaml)
  ∧ (∀ (N : PyNum) (src : dataset) (source_dir output_dir abs_output : string) (w : world),
       occurs "data.yaml" output_dir = false →
       val_image_dir (manifest_path output_dir) = output_dir +:+ "/images/val"
       ∧ val_image_dir (manifest_path output_dir)
         ∈ dirs (convert_deepfashion2_to_yolo src source_dir output_dir abs_output w).1)
  ∧ val_image_dir "runs/data.yaml.d/data.yaml" = "runs/images/val.d/images/val".
Proof.
  split; [|split].
  - intros data_yaml Ho. unfold val_image_dir, str_replace. by apply replace_from_absent.
  - intros N src sd od abs w Ho.
    rewrite (val_image_dir_manifest od Ho). split; [done|].
    destruct (convert_deepfashion2_to_yolo src sd od abs w) as [w' oe] eqn:Hrun.
    apply convert_run in Hrun as (gt & gv & yt & yv & _ & _ & Hd & _). simpl.
    rewrite Hd. apply output_dirs_made. unfold leaf_dirs.
    rewrite elem_of_app, !elem_of_cons. tauto.
  - reflexivity.
Qed.

Lemma X14_evaluation_reads_converter_folder_witness :
  val_image_dir "deepfashion2_yolo/data.yaml" = "deepfashion2_yolo/images/val"
  ∧ val_image_dir "fashion.yaml" = "fashion.yaml".
Proof.
  split.
  - exact (proj1 (proj1 (proj2 X14_evaluation_reads_converter_folder) CPython.cpython
                    Scenario.small_source "./deepfashion2" "deepfashion2_yolo"
                    "/data/deepfashion2_yolo" empty_world eq_refl)).
  - exact (proj1 X14_evaluation_reads_converter_folder "fashion.yaml" eq_refl).
Defined.

(** ** Files of earlier runs *)

Section Stale.
Context `{PyNum}.

Lemma yields_writes_origin tree afs ys od s p :
  split_yields tree afs = Ok ys → p ∈ (yields_writes od s ys).*1 →
  ∃ af, af ∈ afs
    ∧ (p = image_copy_path od s (image_name_of (stem af)) ∨ p = label_path_of od s (stem af)).
Proof.
  intros Hys Hp. apply yields_writes_keys in Hp as (st & o & Hin & _ & Hp).
  destruct (split_yields_origin _ _ _ _ _ Hys Hin) as (af & Haf & <- & _).
  by exists af.
Qed.

End Stale.

(** X15. Inside the output tree too, a run, whether it completes or
    not, changes only the manifest and the label file and image copy
    of annotation files of its listings: a file at any other path, the
    label file of an image that was converted earlier and is no longer
    listed for one, stays as it was. *)
Theorem X15_stale_files_kept `{PyNum} (src : dataset)
    (source_dir output_dir abs_output : string) (w : world) (p : string) :
  p ≠ manifest_path output_dir →
  (∀ (split : string) (af : anno_file),
     split ∈ ["train"; "validation"] →
     af ∈ visited (tree_of src split) →
     p ≠ label_path_of output_dir (yolo_split_of split) (stem af)
     ∧ p ≠ image_copy_path output_dir (yolo_split_of split) (image_name_of (stem af))) →
  files (convert_deepfashion2_to_yolo src source_dir output_dir abs_output w).1 !! p
  = files w !! p.
Proof.
  intros Hm Hp.
  destruct (convert_deepfashion2_to_yolo src source_dir output_dir abs_output w)
    as [w' oe] eqn:Hrun.
  apply convert_run in Hrun as (gt & gv & yt & yv & Hyt & Hyv & _ & Hoe). simpl.
  assert (gt ⊆ visited (train_tree src) ∧ gv ⊆ visited (validation_tree src)) as [Hgt Hgv].
  { destruct oe as [e|].
    - destruct Hoe as [_ [(af & rest & -> & _ & -> & _)|(-> & af & rest & -> & _)]].
      + split; [|apply list_subseteq_nil]. intros x Hx. rewrite elem_of_app. by left.
      + split; [done|]. intros x Hx. rewrite elem_of_app. by left.
    - by destruct Hoe as (-> & -> & _). }
  assert (p ∉ (yields_writes output_dir "train" yt).*1) as Hnt.
  { intros Hin. apply (yields_writes_origin _ _ _ _ _ _ Hyt) in Hin as (af & Haf & Hin).
    destruct (Hp "train" af) as [Hl Hi]; [by left | by apply Hgt|].
    by destruct Hin. }
  assert (p ∉ (yields_writes output_dir "val" yv).*1) as Hnv.
  { intros Hin. apply (yields_writes_origin _ _ _ _ _ _ Hyv) in Hin as (af & Haf & Hin).
    destruct (Hp "validation" af) as [Hl Hi]; [right; by left | by apply Hgv|].
    by destruct Hin. }
  assert (∃ tr, files w' = apply_writes (files w) tr ∧ p ∉ tr.*1) as (tr & -> & Hfresh).
  { destruct oe as [e|].
    - destruct Hoe as [Hf _]. eexists. split; [exact Hf|].
      rewrite fmap_app, elem_of_app. tauto.
    - destruct Hoe as (_ & _ & Hf & _). eexists. split; [exact Hf|].
      unfold run_writes. rewrite !fmap_app, !elem_of_app. simpl.
      rewrite list_elem_of_singleton. tauto. }
  by apply apply_writes_lookup_fresh.
Qed.

Lemma X15_stale_files_kept_witness :
  files (@convert_deepfashion2_to_yolo CPython.cpython Scenario.small_source
           "./deepfashion2" "out" "/data/out" Cases.shared_world).1
    !! "out/labels/train/old.txt"
  = Some "1 0.5 0.5 0.1 0.1".
Proof.
  refine (eq_trans
            (@X15_stale_files_kept CPython.cpython Scenario.small_source
               "./deepfashion2" "out" "/data/out" Cases.shared_world
               "out/labels/train/old.txt" _ _) _).
  - discriminate.
  - intros split af Hsplit Haf.
    apply elem_of_cons in Hsplit as [->|Hsplit];
      [|apply list_elem_of_singleton in Hsplit as ->].
    + apply elem_of_cons in Haf as [->|Haf];
        [|apply list_elem_of_singleton in Haf as ->]; split; discriminate.
    + by apply elem_of_nil in Haf.
  - vm_compute. reflexivity.
Defined.

(** ** The rounding of the label values *)

Lemma round_half_even_nearest (n d : Z) :
  0 < d → - d ≤ 2 * (n - round_half_even n d * d) ≤ d.
Proof.
  intros Hd. unfold round_half_even.
  pose proof (Z.div_mod n d ltac:(lia)) as Hdm.
  pose proof (Z.mod_pos_bound n d Hd) as Hr.
  destruct (2 * (n mod d) <? d) eqn:H1; [apply Z.ltb_lt in H1; nia|].
  apply Z.ltb_ge in H1.
  destruct (d <? 2 * (n mod d)) eqn:H2; [apply Z.ltb_lt in H2; nia|].
  apply Z.ltb_ge in H2.
  destruct (Z.even (n / d)); nia.
Qed.

Lemma Qabs_millionth (m d q : Z) :
  0 < d → - d ≤ 2 * (m * 1000000 - q * d) ≤ d →
  (Qabs (inject_Z m * / inject_Z d - inject_Z q / 1000000) <= 1 / 2000000)%Q.
Proof.
  intros Hd [Hlo Hhi].
  apply Qabs_Qle_condition.
  unfold Qle, Qopp, Qminus, Qplus, Qmult, Qdiv, Qinv, inject_Z. simpl.
  destruct d as [|d|d]; try lia. simpl. split; nia.
Qed.

(** X16. With CPython's numbers, a value that passed the validation
    stands for a rational number between 0 and 1, and what [.6f] prints
    for it is that number rounded to millionths: the printed count of
    millionths is within half a millionth of the value. *)
Theorem X16_cpython_six_decimals_nearest (f : float) :
  @in_unit CPython.cpython (CPython.PyFloat f) = true →
  ∃ (v : Q) (sign : string) (q : Z),
    float_value f = Some v
    ∧ (0 <= v <= 1)%Q
    ∧ @fmt_6f CPython.cpython (CPython.PyFloat f) = sign +:+ fixed6 q
    ∧ (Qabs (v - inject_Z q / 1000000) <= 1 / 2000000)%Q.
Proof.
  unfold in_unit, float_value.
  cbn [num_le of_int fmt_6f CPython.cpython CPython.le CPython.format_num].
  unfold CPython.int_le_float, CPython.float_le_int, CPython.format_6f.
  destruct (Prim2SF f) as [s|s| |s m e]; intros Hin.
  - exists 0%Q, (if s then "-" else ""), 0. split; [done|]. split; [done|]. split; [done|].
    done.
  - by destruct s.
  - done.
  - apply andb_true_iff in Hin as [Hlo Hhi].
    assert (s = false) as ->.
    { destruct s; [|done]. destruct (0 <=? e) eqn:He.
      - apply Z.leb_le in Hlo. apply Z.leb_le in He.
        pose proof (Z.pow_pos_nonneg 2 e ltac:(lia) He). nia.
      - apply Z.leb_le in Hlo. lia. }
    destruct (0 <=? e) eqn:He.
    + apply Z.leb_le in Hhi. apply Z.leb_le in He.
      pose proof (Z.pow_pos_nonneg 2 e ltac:(lia) He) as Hpow.
      eexists _, "", _. split; [reflexivity|].
      split; [|split; [reflexivity|]].
      * unfold Qle, Qmult, inject_Z. simpl. nia.
      * apply Qabs_Qle_condition.
        unfold Qle, Qopp, Qminus, Qplus, Qmult, Qdiv, Qinv, inject_Z. simpl. nia.
    + apply Z.leb_le in Hhi. apply Z.leb_gt in He.
      pose proof (Z.pow_pos_nonneg 2 (- e) ltac:(lia) ltac:(lia)) as Hpow.
      eexists _, "", _. split; [reflexivity|].
      split; [|split; [reflexivity|]].
      * unfold Qle, Qmult, Qinv, inject_Z. simpl.
        destruct (2 ^ (- e)) as [|d|d] eqn:Hd; try lia. simpl. nia.
      * apply Qabs_millionth; [done|]. apply round_half_even_nearest. done.
Qed.

Lemma X16_cpython_six_decimals_nearest_witness :
  ∃ (v : Q) (sign : string) (q : Z),
    float_value 0x1.3333333333333p-2 = Some v
    ∧ (0 <= v <= 1)%Q
    ∧ @fmt_6f CPython.cpython (CPython.PyFloat 0x1.3333333333333p-2) = sign +:+ fixed6 q
    ∧ (Qabs (v - inject_Z q / 1000000) <= 1 / 2000000)%Q.
Proof.
  refine (X16_cpython_six_decimals_nearest 0x1.3333333333333p-2 _).
  vm_compute. reflexivity.
Defined.

(** ** Boxes that are not four numbers *)

Section BoxTypes.
Context `{PyNum}.

Lemma py_add_not_number a b :
  as_number a = None ∨ as_number b = None →
  py_add a b = Raise TypeError
  ∨ ∃ v, py_add a b = Ok v ∧ as_number v = None.
Proof.
  unfold py_add. intros Hnone.
  destruct (as_number a) as [x|] eqn:Ha, (as_number b) as [y|] eqn:Hb.
  - by destruct Hnone.
  - destruct a, b; try done; by left.
  - destruct a, b; try done; by left.
  - destruct a, b; try done; try (by left); right; by eexists.
Qed.

Lemma halves_not_number a b n :
  as_number a = None ∨ as_number b = None →
  (s ← py_add a b; py_truediv s n) = Raise TypeError.
Proof.
  intros Hnone. destruct (py_add_not_number a b Hnone) as [->|(v & -> & Hv)]; [done|].
  simpl. unfold py_truediv. by rewrite Hv.
Qed.

Lemma to_center_box_not_numbers w h x1 y1 x2 y2 :
  Exists (λ v, as_number v = None) [x1; y1; x2; y2] →
  ∃ e, to_center_box w h x1 y1 x2 y2 = Raise e
    ∧ (as_number x1 = None ∨ as_number x2 = None → e = TypeError).
Proof.
  intros Hex. unfold to_center_box.
  destruct (decide (as_number x1 = None ∨ as_number x2 = None)) as [Hx|Hx].
  - pose proof (halves_not_number x1 x2 (of_int 2) Hx) as Hh.
    exists TypeError. split; [|done].
    destruct (py_add x1 x2) as [sx|e]; simpl in *. 
    + by rewrite Hh.
    + by injection Hh as ->.
  - assert (as_number y1 = None ∨ as_number y2 = None) as Hy.
    { rewrite !Exists_cons, Exists_nil in Hex. tauto. }
    pose proof (halves_not_number y1 y2 (of_int 2) Hy) as Hh.
    destruct (py_add x1 x2) as [sx|e]; simpl; [|by exists e].
    destruct (py_truediv sx (of_int 2)) as [hx|e]; simpl; [|by exists e].
    destruct (num_truediv hx (of_int w)) as [xc|e]; simpl; [|by exists e].
    exists TypeError. split; [|done].
    destruct (py_add y1 y2) as [sy|e]; simpl in *; [by rewrite Hh | by injection Hh as ->].
Qed.

End BoxTypes.

(** X17. For an instance with a mapped category, a [bounding_box]
    that is not a list never reaches the validation: a text or an
    object whose length is not 4 drops the instance; every other value
    raises [TypeError], at [len] for null, a number or a boolean, and at
    the division of line 97 for a text of four characters or an object
    of four keys, whose unpacking gives texts. *)
Theorem X17_non_list_box `{PyNum} (kvs : list (string * json)) (category : string)
    (class_id : Z) (img_width img_height : Z) :
  dict_get kvs "category_name" (JStr "") = JStr category →
  CATEGORY_MAPPING !! category = Some class_id →
  is_list (dict_get kvs "bounding_box" (JArr [])) = false →
  process_instance img_width img_height (JObj kvs)
  = if other_length (dict_get kvs "bounding_box" (JArr [])) then Ok None
    else Raise TypeError.
Proof.
  intros Hc Hm Hlist. unfold process_instance, other_length. simpl.
  rewrite Hc. simpl. rewrite Hm.
  destruct (dict_get kvs "bounding_box" (JArr [])) as [| | |s|l|bkvs] eqn:Hb; try done.
  - simpl. case_decide as Hn.
    + by rewrite (proj2 (Nat.eqb_neq _ _) Hn).
    + assert (String.length s = 4%nat) as Hlen
        by (destruct (decide (String.length s = 4%nat)); [done | by destruct Hn]).
      rewrite Hlen. simpl.
      destruct s as [|c1 [|c2 [|c3 [|c4 [|c5 s]]]]]; simpl in Hlen; try done.
  - simpl. case_decide as Hn.
    + by rewrite (proj2 (Nat.eqb_neq _ _) Hn).
    + assert (length bkvs = 4%nat) as Hlen
        by (destruct (decide (length bkvs = 4%nat)); [done | by destruct Hn]).
      rewrite Hlen. simpl.
      destruct bkvs as [|a [|b [|c [|d [|x l]]]]]; simpl in Hlen; try done.
Qed.

Lemma X17_non_list_box_witness :
  @process_instance CPython.cpython 200 400 (JObj Cases.word_box_fields) = Raise TypeError.
Proof.
  refine (eq_trans
            (@X17_non_list_box CPython.cpython Cases.word_box_fields "vest" 0 200 400 _ _ _) _).
  - reflexivity.
  - vm_compute. reflexivity.
  - reflexivity.
  - reflexivity.
Defined.

(** X18. For an instance with a mapped category, a [bounding_box] of
    four values of which one is neither a number nor a boolean is never
    kept and never dropped: the instance raises, [TypeError] when the
    value is [x1] or [x2], and the loop over the instances raises with
    it. *)
Theorem X18_non_numeric_box_raises `{PyNum} (kvs : list (string * json)) (category : string)
    (class_id : Z) (x1 y1 x2 y2 : json) (img_width img_height : Z) :
  dict_get kvs "category_name" (JStr "") = JStr category →
  CATEGORY_MAPPING !! category = Some class_id →
  dict_get kvs "bounding_box" (JArr []) = JArr [x1; y1; x2; y2] →
  Exists (λ v, as_number v = None) [x1; y1; x2; y2] →
  ∃ e : exn,
    process_instance img_width img_height (JObj kvs) = Raise e
    ∧ (as_number x1 = None ∨ as_number x2 = None → e = TypeError)
    ∧ ∀ (key : string) (post : list (string * json)) (ya : list string) (ta : Z),
        key ≠ "source" →
        instances_loop img_width img_height ((key, JObj kvs) :: post) ya ta = Raise e.
Proof.
  intros Hc Hm Hb Hex.
  destruct (to_center_box_not_numbers img_width img_height x1 y1 x2 y2 Hex) as (e & He & Ht).
  assert (process_instance img_width img_height (JObj kvs) = Raise e) as Hp.
  { rewrite (process_instance_box _ _ _ _ _ _ _ _ _ Hc Hm Hb). by rewrite He. }
  exists e. split; [done|]. split; [done|].
  intros key post ya ta Hkey. simpl. rewrite decide_False by done. by rewrite Hp.
Qed.

Lemma X18_non_numeric_box_raises_witness :
  ∃ e : exn,
    @process_instance CPython.cpython 200 400 (JObj Cases.mixed_box_fields) = Raise e.
Proof.
  destruct (@X18_non_numeric_box_raises CPython.cpython Cases.mixed_box_fields "vest" 0
              (@JNum CPython.cpython (CPython.PyInt 10)) (@JStr CPython.cpython "20")
              (@JNum CPython.cpython (CPython.PyInt 110))
              (@JNum CPython.cpython (CPython.PyInt 220)) 200 400)
    as (e & He & _).
  - reflexivity.
  - vm_compute. reflexivity.
  - reflexivity.
  - apply Exists_cons_tl, Exists_cons_hd. reflexivity.
  - exists e. exact He.
Defined.
